(** * Telegram-Agent: the incremental message-processing core

    A shallow embedding of the Python sources
    [timestamp_tracker.py], [simple_llm_processor.py], [llm_processor.py],
    [agent.py], [agent_enhanced.py] and [odt_writer.py], and the
    properties of the checkpoint store, the article resolver, the message
    classifier, the ingestion coordinator and the backfill scanner.

    Conventions of the embedding:
    - a Python [str] is a [string]: the sequence of its code points, for
      text whose code points are below 256;
    - a Python [dict] with string keys is a [gmap string pyval];
    - the two JSON files, the clock, the web, the enrichment service and
      the chat connector form an explicit [world]; code that touches them
      runs in a state-and-exception monad [M];
    - [print] calls are not modelled. *)

From Stdlib Require Import ZArith Ascii String List Bool Lia.
From stdpp Require Import gmap strings list pretty.

#[local] Set Warnings "-register-all,-abstract-large-number".
#[local] Open Scope string_scope.
#[local] Open Scope list_scope.
#[local] Open Scope Z_scope.

(** ** Python strings *)

Module PyStr.

(** [s[:n]] *)
Definition take (n : nat) (s : string) : string := substring 0 n s.

(** [s[n:]] *)
Fixpoint drop (n : nat) (s : string) : string :=
  match n, s with
  | O, _ => s
  | S n', String _ s' => drop n' s'
  | S _, EmptyString => EmptyString
  end.

(** [s[a:b]] for [a <= b] *)
Definition slice (a b : nat) (s : string) : string := substring a (b - a) s.

(** [s.find(c)], [None] standing for [-1] *)
Fixpoint find (c : ascii) (s : string) : option nat :=
  match s with
  | EmptyString => None
  | String a s' => if Ascii.eqb a c then Some O else S <$> find c s'
  end.

(** [str.isspace] on one code point below 256 *)
Definition is_space (c : ascii) : bool :=
  let n := N_of_ascii c in
  ((9 <=? n) && (n <=? 13) || (28 <=? n) && (n <=? 32)
   || (n =? 133) || (n =? 160))%N.

Fixpoint lstrip (s : string) : string :=
  match s with
  | String c s' => if is_space c then lstrip s' else s
  | EmptyString => EmptyString
  end.

Definition rev (s : string) : string :=
  string_of_list_ascii (List.rev (list_ascii_of_string s)).

(** [s.strip()] *)
Definition strip (s : string) : string := rev (lstrip (rev (lstrip s))).

(** truth value of a [str] *)
Definition nonempty (s : string) : bool :=
  match s with EmptyString => false | String _ _ => true end.

(** [s.startswith(p)] *)
Definition startswith (p s : string) : bool := String.prefix p s.

(** [str.lower] on one code point below 256 *)
Definition lower_char (c : ascii) : ascii :=
  let n := N_of_ascii c in
  if ((65 <=? n) && (n <=? 90)
      || (192 <=? n) && (n <=? 222) && negb (n =? 215))%N
  then ascii_of_N (n + 32) else c.

Fixpoint lower (s : string) : string :=
  match s with
  | EmptyString => EmptyString
  | String c s' => String (lower_char c) (lower s')
  end.

(** [p in s]: does [p] occur in [s]? *)
Fixpoint contains (p s : string) : bool :=
  String.prefix p s
  || match s with
     | EmptyString => false
     | String _ s' => contains p s'
     end.

(** [s.replace(c, by)] for a pattern of one character *)
Fixpoint replace_char (c : ascii) (by_ : string) (s : string) : string :=
  match s with
  | EmptyString => EmptyString
  | String a s' =>
      if Ascii.eqb a c then by_ +:+ replace_char c by_ s'
      else String a (replace_char c by_ s')
  end.

End PyStr.

(** ** Exceptions and results *)

(** The exception classes the sources raise or catch. *)
Inductive exn :=
| FileNotFoundError
| PermissionError
| JSONDecodeError
| ValueError
| TypeError
| AttributeError
| KeyError
| RequestException
| OtherException.

Inductive result (A : Type) :=
| Ok (a : A)
| Raise (e : exn).
Arguments Ok {A} a.
Arguments Raise {A} e.

(** ** [datetime] *)

Module Datetime.

(** A [datetime.datetime]: the civil fields, and [tzinfo] as the UTC offset
    in microseconds of a fixed-offset zone ([None] for a naive value,
    [Some 0] for [timezone.utc]). *)
Record datetime := mk_datetime {
  year : Z; month : Z; day : Z;
  hour : Z; minute : Z; second : Z; microsecond : Z;
  tzinfo : option Z
}.

Definition is_leap (y : Z) : bool :=
  (y mod 4 =? 0) && (negb (y mod 100 =? 0) || (y mod 400 =? 0)).

Definition days_in_month (y m : Z) : Z :=
  match m with
  | 1 | 3 | 5 | 7 | 8 | 10 | 12 => 31
  | 4 | 6 | 9 | 11 => 30
  | 2 => if is_leap y then 29 else 28
  | _ => 0
  end.

Definition days_before_year (y : Z) : Z :=
  let p := y - 1 in p * 365 + p / 4 - p / 100 + p / 400.

Definition days_before_month (y m : Z) : Z :=
  match m with
  | 1 => 0 | 2 => 31 | 3 => 59 | 4 => 90 | 5 => 120 | 6 => 151
  | 7 => 181 | 8 => 212 | 9 => 243 | 10 => 273 | 11 => 304 | 12 => 334
  | _ => 0
  end + (if (2 <? m) && is_leap y then 1 else 0).

(** [_ymd2ord]: the proleptic Gregorian ordinal, 0001-01-01 being day 1 *)
Definition ymd2ord (y m d : Z) : Z :=
  days_before_year y + days_before_month y m + d.

Definition day_micros : Z := 86400000000.

(** The invariant every [datetime] object satisfies (its constructor
    raises [ValueError] otherwise). *)
Definition valid (t : datetime) : bool :=
  (1 <=? year t) && (year t <=? 9999)
  && (1 <=? month t) && (month t <=? 12)
  && (1 <=? day t) && (day t <=? days_in_month (year t) (month t))
  && (0 <=? hour t) && (hour t <? 24)
  && (0 <=? minute t) && (minute t <? 60)
  && (0 <=? second t) && (second t <? 60)
  && (0 <=? microsecond t) && (microsecond t <? 1000000)
  && match tzinfo t with
     | None => true
     | Some off => (- day_micros <? off) && (off <? day_micros)
     end.

(** Microseconds of the wall-clock reading since the start of day 0. *)
Definition wall_micros (t : datetime) : Z :=
  (((ymd2ord (year t) (month t) (day t) * 24 + hour t) * 60 + minute t) * 60
   + second t) * 1000000 + microsecond t.

(** The instant denoted by an aware value. *)
Definition utc_micros (t : datetime) : Z :=
  wall_micros t - default 0 (tzinfo t).

(** [t.replace(tzinfo=timezone.utc)] *)
Definition replace_tz_utc (t : datetime) : datetime :=
  mk_datetime (year t) (month t) (day t) (hour t) (minute t) (second t)
              (microsecond t) (Some 0).

(** [if t.tzinfo is None: t = t.replace(tzinfo=timezone.utc)] *)
Definition ensure_aware (t : datetime) : datetime :=
  match tzinfo t with
  | None => replace_tz_utc t
  | Some _ => t
  end.

(** [a > b]: naive against aware is a [TypeError]. *)
Definition gt (a b : datetime) : result bool :=
  match tzinfo a, tzinfo b with
  | Some _, Some _ => Ok (utc_micros b <? utc_micros a)
  | None, None => Ok (wall_micros b <? wall_micros a)
  | _, _ => Raise TypeError
  end.

(** *** [isoformat] *)

Definition digit_char (d : Z) : ascii :=
  match d with
  | 0 => "0" | 1 => "1" | 2 => "2" | 3 => "3" | 4 => "4"
  | 5 => "5" | 6 => "6" | 7 => "7" | 8 => "8" | 9 => "9"
  | _ => "?"
  end%char.

(** [n] printed on exactly [w] decimal digits, as ["%0wd" % n] does for
    [0 <= n < 10^w]. *)
Fixpoint pad (w : nat) (n : Z) : string :=
  match w with
  | O => EmptyString
  | S w' => String (digit_char (n / 10 ^ Z.of_nat w' mod 10)) (pad w' n)
  end.

(** [_format_time] *)
Definition format_time (hh mm ss us : Z) : string :=
  pad 2 hh +:+ ":" +:+ pad 2 mm +:+ ":" +:+ pad 2 ss
  +:+ (if us =? 0 then "" else "." +:+ pad 6 us).

(** [_format_offset], after the sign *)
Definition format_offset_abs (a : Z) : string :=
  let hh := a / 3600000000 in
  let mm := a mod 3600000000 / 60000000 in
  let ss := a mod 60000000 / 1000000 in
  let us := a mod 1000000 in
  pad 2 hh +:+ ":" +:+ pad 2 mm
  +:+ (if (ss =? 0) && (us =? 0) then ""
       else ":" +:+ pad 2 ss
            +:+ (if us =? 0 then "" else "." +:+ pad 6 us)).

(** [_format_offset] *)
Definition format_offset (tz : option Z) : string :=
  match tz with
  | None => ""
  | Some off =>
      (if off <? 0 then "-" else "+") +:+ format_offset_abs (Z.abs off)
  end.

Definition format_date (y m d : Z) : string :=
  pad 4 y +:+ "-" +:+ pad 2 m +:+ "-" +:+ pad 2 d.

Definition isoformat (t : datetime) : string :=
  format_date (year t) (month t) (day t)
  +:+ "T" +:+ format_time (hour t) (minute t) (second t) (microsecond t)
  +:+ format_offset (tzinfo t).

(** *** [fromisoformat]

    The inverse of [isoformat], on the grammar that is documented for
    Python 3.7 to 3.10:
    [YYYY-MM-DD[*HH[:MM[:SS[.fff[fff]]]][+HH:MM[:SS[.ffffff]]]]].
    [None] stands for [ValueError], which is what a text outside the
    grammar gets here. Every version of the library reads the texts of
    this grammar in this way; later versions read more texts (a final
    [Z], dates without dashes, week dates). The statements below use the
    function on two kinds of text only, on which all versions agree: the
    texts that [isoformat] writes, and the texts that do not begin with
    the four digits of a year, which no version reads. *)

Definition char_digit (c : ascii) : option Z :=
  let n := Z.of_N (N_of_ascii c) in
  if (48 <=? n) && (n <=? 57) then Some (n - 48) else None.

(** a string of decimal digits only, read as a number *)
Fixpoint parse_digits_from (acc : Z) (s : string) : option Z :=
  match s with
  | EmptyString => Some acc
  | String c s' =>
      match char_digit c with
      | Some d => parse_digits_from (10 * acc + d) s'
      | None => None
      end
  end.

(** exactly [w] decimal digits *)
Definition parse_digits (w : nat) (s : string) : option Z :=
  if Nat.eqb (String.length s) w then parse_digits_from 0 s else None.

Definition char_at (i : nat) (s : string) : option ascii := String.get i s.

Definition is_char (c : ascii) (o : option ascii) : bool :=
  match o with
  | Some a => Ascii.eqb a c
  | None => false
  end.

(** [_parse_isoformat_date] *)
Definition parse_isoformat_date (s : string) : option (Z * Z * Z) :=
  y ← parse_digits 4 (PyStr.slice 0 4 s);
  if negb (is_char "-" (char_at 4 s)) then None else
  m ← parse_digits 2 (PyStr.slice 5 7 s);
  if negb (is_char "-" (char_at 7 s)) then None else
  d ← parse_digits 2 (PyStr.slice 8 10 s);
  Some (y, m, d).

(** the fraction of [_parse_hh_mm_ss_ff]: what follows the seconds *)
Definition parse_fraction (s : string) : option Z :=
  match s with
  | EmptyString => Some 0
  | String c f =>
      if negb (Ascii.eqb c ".") then None
      else match String.length f with
           | 3%nat => us ← parse_digits 3 f; Some (us * 1000)
           | 6%nat => parse_digits 6 f
           | _ => None
           end
  end.

(** [_parse_hh_mm_ss_ff]: [HH[:MM[:SS[.fff[fff]]]]] *)
Definition parse_hh_mm_ss_ff (s : string) : option (Z * Z * Z * Z) :=
  hh ← parse_digits 2 (PyStr.slice 0 2 s);
  match char_at 2 s with
  | None => Some (hh, 0, 0, 0)
  | Some c2 =>
      if negb (Ascii.eqb c2 ":") then None else
      mm ← parse_digits 2 (PyStr.slice 3 5 s);
      match char_at 5 s with
      | None => Some (hh, mm, 0, 0)
      | Some c5 =>
          if negb (Ascii.eqb c5 ":") then None else
          ss ← parse_digits 2 (PyStr.slice 6 8 s);
          us ← parse_fraction (PyStr.drop 8 s);
          Some (hh, mm, ss, us)
      end
  end.

(** the zone suffix of [_parse_isoformat_time], after its sign *)
Definition parse_tz (negative : bool) (s : string) : option Z :=
  match String.length s with
  | 5%nat | 8%nat | 15%nat =>
      '(hh, mm, ss, us) ← parse_hh_mm_ss_ff s;
      let off := hh * 3600000000 + mm * 60000000 + ss * 1000000 + us in
      Some (if negative then - off else off)
  | _ => None
  end.

(** [_parse_isoformat_time]: the zone starts at the first ["-"], or else
    at the first ["+"]. *)
Definition parse_isoformat_time (s : string)
  : option (Z * Z * Z * Z * option Z) :=
  if (String.length s <? 2)%nat then None else
  let tz_pos :=
    match PyStr.find "-" s with
    | Some i => Some (i, true)
    | None => match PyStr.find "+" s with
              | Some i => Some (i, false)
              | None => None
              end
    end in
  match tz_pos with
  | None =>
      '(hh, mm, ss, us) ← parse_hh_mm_ss_ff s;
      Some (hh, mm, ss, us, None)
  | Some (i, negative) =>
      '(hh, mm, ss, us) ← parse_hh_mm_ss_ff (PyStr.take i s);
      off ← parse_tz negative (PyStr.drop (S i) s);
      Some (hh, mm, ss, us, Some off)
  end.

Definition fromisoformat (s : string) : option datetime :=
  '(y, m, d) ← parse_isoformat_date (PyStr.slice 0 10 s);
  let tstr := PyStr.drop 11 s in
  '(hh, mm, ss, us, tz) ←
     (if (String.length s <=? 10)%nat then Some (0, 0, 0, 0, None)
      else parse_isoformat_time tstr);
  let t := mk_datetime y m d hh mm ss us tz in
  if valid t then Some t else None.

End Datetime.

#[global] Instance result_ret : MRet result := fun A a => Ok a.

#[global] Instance result_bind : MBind result := fun A B f r =>
  match r with
  | Ok a => f a
  | Raise e => Raise e
  end.

(** ** Python values *)

(** The values that JSON documents and the record dictionaries hold.
    JSON numbers are integers here. *)
Inductive pyval :=
| PNone
| PBool (b : bool)
| PInt (z : Z)
| PStr (s : string)
| PList (l : list pyval)
| PDict (d : gmap string pyval).

(** [bool(v)] *)
Definition truthy (v : pyval) : bool :=
  match v with
  | PNone => false
  | PBool b => b
  | PInt z => negb (z =? 0)
  | PStr s => PyStr.nonempty s
  | PList l => match l with [] => false | _ :: _ => true end
  | PDict d => match map_to_list d with [] => false | _ :: _ => true end
  end.

(** [len(s)] of a string, as a number *)
Definition py_len (s : string) : Z := Z.of_nat (String.length s).

(** [v.get(k)]: only a [dict] has the method *)
Definition py_get (v : pyval) (k : string) : result pyval :=
  match v with
  | PDict d => Ok (default PNone (d !! k))
  | _ => Raise AttributeError
  end.

(** [v[k]] for a string key *)
Definition py_getitem (v : pyval) (k : string) : result pyval :=
  match v with
  | PDict d => match d !! k with Some x => Ok x | None => Raise KeyError end
  | _ => Raise TypeError
  end.

(** [v[k] = x] for a string key *)
Definition py_setitem (v : pyval) (k : string) (x : pyval) : result pyval :=
  match v with
  | PDict d => Ok (PDict (<[k := x]> d))
  | _ => Raise TypeError
  end.

(** [v.append(x)]: only a [list] has the method *)
Definition py_append (v : pyval) (x : pyval) : result pyval :=
  match v with
  | PList l => Ok (PList (l ++ [x]))
  | _ => Raise AttributeError
  end.

(** [k in v] for a string [k] *)
Definition py_contains (v : pyval) (k : string) : result bool :=
  match v with
  | PDict d => Ok (bool_decide (is_Some (d !! k)))
  | PList l =>
      Ok (existsb (fun x => match x with
                            | PStr s => String.eqb s k
                            | _ => false
                            end) l)
  | PStr s => Ok (PyStr.contains k s)
  | PNone | PBool _ | PInt _ => Raise TypeError
  end.

(** [del v[k]] for a string key *)
Definition py_delitem (v : pyval) (k : string) : result pyval :=
  match v with
  | PDict d =>
      match d !! k with
      | Some _ => Ok (PDict (delete k d))
      | None => Raise KeyError
      end
  | _ => Raise TypeError
  end.

(** [a == b] between a stored value and a string *)
Definition py_eq_str (v : pyval) (s : string) : bool :=
  match v with
  | PStr s' => String.eqb s' s
  | _ => false
  end.

(** [except cls]: is [e] an instance of [cls]?  [JSONDecodeError] derives
    from [ValueError]. *)
Definition isinstance (e cls : exn) : bool :=
  match e, cls with
  | FileNotFoundError, FileNotFoundError
  | PermissionError, PermissionError
  | JSONDecodeError, JSONDecodeError
  | JSONDecodeError, ValueError
  | ValueError, ValueError
  | TypeError, TypeError
  | AttributeError, AttributeError
  | KeyError, KeyError
  | RequestException, RequestException
  | OtherException, OtherException => true
  | _, _ => false
  end.

(** ** The world *)

Import Datetime.

(** A JSON file on disk, by what [open] and [json.load] do on it. *)
Inductive json_file :=
| FileMissing                  (* [os.path.exists] is false *)
| FileUnreadable               (* [open] raises *)
| FileCorrupt                  (* [json.load] raises [JSONDecodeError] *)
| FileJson (v : pyval).        (* [json.load] returns [v] *)

(** [os.path.exists(path)] *)
Definition file_exists (f : json_file) : bool :=
  match f with FileMissing => false | _ => true end.

(** [with open(path, 'r') as f: json.load(f)] *)
Definition read_json (f : json_file) : result pyval :=
  match f with
  | FileMissing => Raise FileNotFoundError
  | FileUnreadable => Raise PermissionError
  | FileCorrupt => Raise JSONDecodeError
  | FileJson v => Ok v
  end.

(** The effects the trace keeps, in order. *)
Inductive event :=
| EvTimestampWrite (data : pyval) (ok : bool)
| EvPublicationsWrite (publications : pyval) (ok : bool)
| EvFetch (url : string)
| EvOdt (article : pyval).

Record world := mk_world {
  timestamp_file : json_file;        (* [data/last_check.json] *)
  timestamp_writable : bool;         (* does opening it for writing succeed *)
  publications_file : json_file;     (* [publications/news_database.json] *)
  publications_writable : bool;
  ticks : nat;                       (* readings of the clock so far *)
  trace : list event                 (* newest first *)
}.

Definition set_timestamp_file (f : json_file) (w : world) : world :=
  mk_world f (timestamp_writable w) (publications_file w)
           (publications_writable w) (ticks w) (trace w).

Definition set_publications_file (f : json_file) (w : world) : world :=
  mk_world (timestamp_file w) (timestamp_writable w) f
           (publications_writable w) (ticks w) (trace w).

Definition set_ticks (n : nat) (w : world) : world :=
  mk_world (timestamp_file w) (timestamp_writable w) (publications_file w)
           (publications_writable w) n (trace w).

Definition log (e : event) (w : world) : world :=
  mk_world (timestamp_file w) (timestamp_writable w) (publications_file w)
           (publications_writable w) (ticks w) (e :: trace w).

(** ** The state-and-exception monad *)

Definition M (A : Type) : Type := world -> result A * world.

#[global] Instance M_ret : MRet M := fun A a w => (Ok a, w).

#[global] Instance M_bind : MBind M := fun A B f m w =>
  match m w with
  | (Ok a, w') => f a w'
  | (Raise e, w') => (Raise e, w')
  end.

Definition raise {A} (e : exn) : M A := fun w => (Raise e, w).

Definition lift {A} (r : result A) : M A := fun w => (r, w).

(** [try: m  except cls: h] *)
Definition try_except {A} (m : M A) (cls : list exn) (h : exn -> M A) : M A :=
  fun w =>
    match m w with
    | (Ok a, w') => (Ok a, w')
    | (Raise e, w') =>
        if existsb (isinstance e) cls then h e w' else (Raise e, w')
    end.

(** [try: m  except Exception as e: h] *)
Definition try_except_all {A} (m : M A) (h : exn -> M A) : M A :=
  fun w =>
    match m w with
    | (Ok a, w') => (Ok a, w')
    | (Raise e, w') => h e w'
    end.

Definition modify (f : world -> world) : M unit := fun w => (Ok tt, f w).

(** [datetime.now(timezone.utc)]: the [n]-th reading of the clock. *)
Definition now (clock : nat -> datetime) : M datetime :=
  fun w => (Ok (clock (ticks w)), set_ticks (S (ticks w)) w).

(** ** [timestamp_tracker.py] *)

Module TimestampTracker.

(** The [chat_id] argument: annotated [Optional[int]], called with [str]. *)
Inductive chat_id :=
| ChatNone
| ChatInt (n : Z)
| ChatStr (s : string).

Definition chat_truthy (c : chat_id) : bool :=
  match c with
  | ChatNone => false
  | ChatInt n => negb (n =? 0)
  | ChatStr s => PyStr.nonempty s
  end.

(** [str(chat_id)] *)
Definition chat_str (c : chat_id) : string :=
  match c with
  | ChatNone => "None"
  | ChatInt n => pretty n
  | ChatStr s => s
  end.

(** [key = str(chat_id) if chat_id else "global"] *)
Definition key_of (c : chat_id) : string :=
  if chat_truthy c then chat_str c else "global".

(** A failed write is one whose [open] raises: the exception is caught and
    the file is left as it was. ([timestamp_writable] says whether the
    [open] succeeds; a write that fails after the [open] has emptied the
    file is not in the model.) *)
Definition _save_timestamp_data (data : pyval) : M unit :=
  fun w =>
    if timestamp_writable w
    then (Ok tt, log (EvTimestampWrite data true)
                     (set_timestamp_file (FileJson data) w))
    else (Ok tt, log (EvTimestampWrite data false) w).

Definition _load_timestamp_data : M pyval :=
  try_except_all
    (fun w =>
       if file_exists (timestamp_file w)
       then (read_json (timestamp_file w), w)
       else (Ok (PDict ∅), w))
    (fun _ => mret (PDict ∅)).

(** [__init__]: makes the data directory, [makedirs] being what
    [os.makedirs(data_dir, exist_ok=True)] does, and creates the file when
    it does not exist. *)
Definition init (makedirs : result unit) : M unit :=
  _ ← lift makedirs;
  ((fun w =>
      if file_exists (timestamp_file w) then (Ok tt, w)
      else _save_timestamp_data (PDict ∅) w) : M unit).

Definition get_last_check_timestamp (c : chat_id) : M (option datetime) :=
  data ← _load_timestamp_data;
  let key := key_of c in
  timestamp_str ← lift (py_get data key);
  if truthy timestamp_str then
    try_except
      match timestamp_str with
      | PStr s =>
          match fromisoformat s with
          | Some t => mret (Some t)
          | None => raise ValueError
          end
      | _ => raise TypeError
      end
      [ValueError]
      (fun _ => mret None)
  else mret None.

Definition update_last_check_timestamp (clock : nat -> datetime)
    (c : chat_id) (timestamp : option datetime) : M unit :=
  data ← _load_timestamp_data;
  timestamp ← match timestamp with
              | None => now clock
              | Some t => mret t
              end;
  let timestamp := ensure_aware timestamp in
  let key := key_of c in
  data ← lift (py_setitem data key (PStr (isoformat timestamp)));
  _save_timestamp_data data.

Definition should_process_message (message_date : datetime) (c : chat_id)
  : M bool :=
  last_check ← get_last_check_timestamp c;
  match last_check with
  | None => mret true
  | Some last_check =>
      let message_date := ensure_aware message_date in
      let last_check := ensure_aware last_check in
      lift (gt message_date last_check)
  end.

(** [reset_timestamps]: no chat id resets the file; a chat id deletes the
    entry under [str(chat_id)]. *)
Definition reset_timestamps (c : chat_id) : M unit :=
  match c with
  | ChatNone => _save_timestamp_data (PDict ∅)
  | _ =>
      data ← _load_timestamp_data;
      let key := chat_str c in
      present ← lift (py_contains data key);
      if present : bool then
        data ← lift (py_delitem data key);
        _save_timestamp_data data
      else mret tt
  end.

Section Display.

(** [t.strftime('%Y-%m-%d %H:%M:%S %Z')], the text shown to the user *)
Variable strftime : datetime -> string.

Definition get_formatted_last_check (c : chat_id) : M string :=
  last_check ← get_last_check_timestamp c;
  match last_check with
  | Some last_check => mret (strftime last_check)
  | None => mret "Never"
  end.

(** The body of the loop of [get_summary]: the entry of one key. *)
Definition summary_entry (key : string) (timestamp_str : pyval)
  : result pyval :=
  match timestamp_str with
  | PStr s =>
      match fromisoformat s with
      | Some timestamp =>
          Ok (PDict (list_to_map
            [("last_check", PStr (strftime timestamp));
             ("iso_format", timestamp_str);
             ("chat_type", PStr (if String.eqb key "global" then "global"
                                 else "chat_" +:+ key))]))
      | None =>                          (* [except ValueError] *)
          Ok (PDict (list_to_map
            [("last_check", PStr "Invalid format");
             ("iso_format", timestamp_str);
             ("chat_type", PStr "error")]))
      end
  | _ => Raise TypeError
  end.

(** [for key, timestamp_str in data.items(): summary[key] = ...] *)
Fixpoint summarize (items : list (string * pyval))
  : result (gmap string pyval) :=
  match items with
  | [] => Ok ∅
  | (key, timestamp_str) :: rest =>
      entry ← summary_entry key timestamp_str;
      summary ← summarize rest;
      Ok (<[key := entry]> summary)
  end.

Definition get_summary : M pyval :=
  data ← _load_timestamp_data;
  match data with
  | PDict d => lift (summary ← summarize (map_to_list d); Ok (PDict summary))
  | _ => raise AttributeError
  end.

End Display.

End TimestampTracker.

(** ** The enrichment service *)

Inductive provider := Anthropic | OpenAI.

Definition provider_name (p : provider) : string :=
  match p with Anthropic => "anthropic" | OpenAI => "openai" end.

(** What is sent to the service: the prompts are built from these. *)
Inductive llm_request :=
| AnalyzeArticle (url html_content : string) (basic_data : pyval)
| AnalyzeMessage (sender_name : pyval) (message_text : string).

(** The outcome of one HTTP call to a provider: an exception, or a status
    code with the text found at the reply's content path ([None] when the
    reply has another shape). *)
Inductive api_outcome :=
| ApiException
| ApiStatus (code : Z) (content : option string).

(** What is outside the program and does not change while it runs. *)
Record service := mk_service {
  api : provider -> llm_request -> api_outcome;
  (** [json.loads]; [None] stands for [JSONDecodeError] *)
  json_loads : string -> option pyval
}.

(** truth value of an optional key *)
Definition key_set (k : option string) : bool :=
  match k with Some s => PyStr.nonempty s | None => false end.

(** The fields of the fallback analysis both processors return. *)
Definition fallback_summary (message_text : string) : string :=
  if 100 <? py_len message_text
  then PyStr.take 100 message_text +:+ "..."
  else message_text.

(** [self.provider] as a stored value *)
Definition provider_value (p : option provider) : pyval :=
  match p with
  | Some p => PStr (provider_name p)
  | None => PNone
  end.

(** [basic_data['enhanced_by_llm'] = False; return basic_data] *)
Definition not_enhanced (basic_data : gmap string pyval)
  : gmap string pyval :=
  <["enhanced_by_llm" := PBool false]> basic_data.

(** [result = basic_data.copy(); result.update({...})] *)
Definition merge_enhanced (p : option provider) (basic_data : gmap string pyval)
    (enhanced_data : pyval) : result (gmap string pyval) :=
  match enhanced_data with
  | PDict e =>
      let from k dflt := default dflt (e !! k) in
      let basic k := default PNone (basic_data !! k) in
      Ok
        (<["llm_provider" := provider_value p]>
        (<["enhanced_by_llm" := PBool true]>
        (<["article_type" := from "article_type" (PStr "unknown")]>
        (<["confidence" := from "confidence" (PStr "medium")]>
        (<["key_points" := from "key_points" (PList [])]>
        (<["category" := from "category" (PStr "Unknown")]>
        (<["author" := from "author" (basic "author")]>
        (<["summary" := from "summary" (basic "summary")]>
        (<["title" := from "title" (basic "title")]>
         basic_data)))))))))
  | _ => Raise AttributeError
  end.

(** [# Fallback analysis] *)
Definition fallback_analysis (message_text : string) (sender_name : pyval)
  : pyval :=
  PDict (list_to_map
    [("summary", PStr (fallback_summary message_text));
     ("sentiment", PStr "neutral");
     ("topics", PList []);
     ("importance", PStr "medium");
     ("message_type", PStr "other");
     ("key_words", PList []);
     ("enhanced_by_llm", PBool false);
     ("original_message", PStr message_text);
     ("sender", sender_name)]).

(** The four item assignments on the parsed reply. *)
Definition tag_analysis (p : option provider) (message_text : string)
    (sender_name : pyval) (analysis : pyval) : result pyval :=
  a1 ← py_setitem analysis "enhanced_by_llm" (PBool true);
  a2 ← py_setitem a1 "llm_provider" (provider_value p);
  a3 ← py_setitem a2 "original_message" (PStr message_text);
  py_setitem a3 "sender" sender_name.

(** ** [simple_llm_processor.py] *)

Module SimpleLLMProcessor.

Record t := mk {
  openai_key : option string;
  anthropic_key : option string;
  provider_ : option provider
}.

(** [__init__] *)
Definition new : t := mk None None None.

Definition load_api_keys_direct (self : t)
    (openai anthropic : option string) (provider_preference : string)
  : t * bool :=
  let usable placeholder k :=
    key_set k
    && negb (bool_decide (k ∈ [Some placeholder; Some ""; Some "None"])) in
  let ok := if usable "YOUR_OPENAI_API_KEY_HERE" openai
            then openai else openai_key self in
  let ak := if usable "YOUR_ANTHROPIC_API_KEY_HERE" anthropic
            then anthropic else anthropic_key self in
  let p :=
    if String.eqb provider_preference "anthropic" && key_set ak
    then Some Anthropic
    else if String.eqb provider_preference "openai" && key_set ok
    then Some OpenAI
    else if String.eqb provider_preference "auto"
    then (if key_set ak then Some Anthropic
          else if key_set ok then Some OpenAI
          else provider_ self)
    else provider_ self in
  (mk ok ak p, bool_decide (is_Some p)).

Definition is_available (self : t) : bool :=
  match provider_ self with
  | Some _ => key_set (openai_key self) || key_set (anthropic_key self)
  | None => false
  end.

(** [_call_openai_api] and [_call_anthropic_api]: the stripped content of a
    200 reply, and [""] for anything else. *)
Definition _call_api (S : service) (p : provider) (req : llm_request)
  : string :=
  match api S p req with
  | ApiStatus 200 (Some content) => PyStr.strip content
  | _ => ""
  end.

Definition _call_llm (S : service) (self : t) (req : llm_request) : string :=
  if negb (is_available self) then ""
  else match provider_ self with
       | Some p => _call_api S p req
       | None => ""
       end.

Definition enhance_article_extraction (S : service) (self : t)
    (url raw_html : string) (basic_data : gmap string pyval)
  : gmap string pyval :=
  if negb (is_available self) then not_enhanced basic_data
  else
    let html_content :=
      if 8000 <? py_len raw_html then PyStr.take 8000 raw_html
      else raw_html in
    let response :=
      _call_llm S self (AnalyzeArticle url html_content (PDict basic_data)) in
    if PyStr.nonempty response then
      match json_loads S response with
      | Some enhanced_data =>
          match merge_enhanced (provider_ self) basic_data enhanced_data with
          | Ok r => r
          | Raise _ => not_enhanced basic_data
          end
      | None => not_enhanced basic_data
      end
    else not_enhanced basic_data.

(** The analysis returned when the service is not asked at all. *)
Definition unavailable_analysis (message_text : string) (sender_name : pyval)
  : pyval :=
  PDict (list_to_map
    [("summary", PStr (fallback_summary message_text));
     ("sentiment", PStr "neutral");
     ("topics", PList []);
     ("importance", PStr "medium");
     ("enhanced_by_llm", PBool false);
     ("original_message", PStr message_text);
     ("sender", sender_name)]).

Definition summarize_message (S : service) (self : t)
    (message_text : string) (sender_name : pyval) : pyval :=
  if negb (is_available self)
     || negb (PyStr.nonempty (PyStr.strip message_text))
  then unavailable_analysis message_text sender_name
  else
    let response :=
      _call_llm S self (AnalyzeMessage sender_name message_text) in
    if PyStr.nonempty response then
      match json_loads S response with
      | Some analysis =>
          match tag_analysis (provider_ self) message_text sender_name analysis with
          | Ok a => a
          | Raise _ => fallback_analysis message_text sender_name
          end
      | None => fallback_analysis message_text sender_name
      end
    else fallback_analysis message_text sender_name.

End SimpleLLMProcessor.

(** ** [llm_processor.py] *)

Module LLMProcessor.

(** The clients are kept by whether they were initialised. *)
Record t := mk {
  openai_client : bool;
  anthropic_client : bool;
  provider_ : option provider
}.

Definition is_available (self : t) : bool :=
  match provider_ self with Some _ => true | None => false end.

(** [_call_anthropic] and [_call_openai]: the stripped text of the reply,
    and [""] when the client raises. *)
Definition _call_llm (S : service) (self : t) (req : llm_request) : string :=
  match provider_ self with
  | Some p =>
      match api S p req with
      | ApiStatus 200 (Some content) => PyStr.strip content
      | _ => ""
      end
  | None => ""
  end.

Definition enhance_article_extraction (S : service) (self : t)
    (url raw_html : string) (basic_data : gmap string pyval)
  : gmap string pyval :=
  if negb (is_available self) then basic_data
  else
    let html_content :=
      if 8000 <? py_len raw_html then PyStr.take 8000 raw_html
      else raw_html in
    let response :=
      _call_llm S self (AnalyzeArticle url html_content (PDict basic_data)) in
    if PyStr.nonempty response then
      match json_loads S response with
      | Some enhanced_data =>
          match merge_enhanced (provider_ self) basic_data enhanced_data with
          | Ok r => r
          | Raise _ => not_enhanced basic_data
          end
      | None => not_enhanced basic_data
      end
    else not_enhanced basic_data.

Definition unavailable_analysis (message_text : string) : pyval :=
  PDict (list_to_map
    [("summary", PStr (fallback_summary message_text));
     ("sentiment", PStr "neutral");
     ("topics", PList []);
     ("importance", PStr "medium");
     ("enhanced_by_llm", PBool false)]).

Definition summarize_message (S : service) (self : t)
    (message_text : string) (sender_name : pyval) : pyval :=
  if negb (is_available self)
     || negb (PyStr.nonempty (PyStr.strip message_text))
  then unavailable_analysis message_text
  else
    let response :=
      _call_llm S self (AnalyzeMessage sender_name message_text) in
    if PyStr.nonempty response then
      match json_loads S response with
      | Some analysis =>
          match tag_analysis (provider_ self) message_text sender_name
                             analysis with
          | Ok a => a
          | Raise _ => fallback_analysis message_text sender_name
          end
      | None => fallback_analysis message_text sender_name
      end
    else fallback_analysis message_text sender_name.

End LLMProcessor.

(** ** The web and the chat connector *)

(** A tag of the parsed page: its name, its attributes, and its text as
    [get_text()] and as [get_text(strip=True)] return it. *)
Record element := mk_element {
  el_name : string;
  el_attrs : gmap string string;
  el_text : string;
  el_text_strip : string
}.

(** [element.get(attr, dflt)] *)
Definition el_get (e : element) (attr dflt : string) : string :=
  default dflt (el_attrs e !! attr).

(** The searches [agent.py] makes with [soup.find]. *)
Inductive query :=
| FindTag (name : string)
| FindMetaProperty (property : string)
| FindMetaName (name : string).

(** A fetched and parsed page, by what the searches return on it. *)
Record page := mk_page {
  page_text : string;                            (* [response.text] *)
  page_find : query -> option element;           (* [soup.find] *)
  page_select_one : string -> option element     (* [soup.select_one] *)
}.

(** [requests.get], [raise_for_status] and the parse: a page, or the
    exception raised ([str(e)] being its message). *)
Inductive http_response :=
| HttpPage (p : page)
| HttpError (e : exn) (message : string).

(** [message.get_sender()] *)
Inductive sender :=
| NoSender
| User (first_name : option string)
| Channel (title : string).

Record message := mk_message {
  msg_text : option string;          (* [message.text] *)
  msg_date : datetime;               (* [message.date] *)
  msg_sender : result sender         (* what [get_sender] does *)
}.

(** [getattr(sender, 'first_name', 'Unknown')] *)
Definition sender_first_name (s : sender) : pyval :=
  match s with
  | User (Some n) => PStr n
  | User None => PNone
  | NoSender | Channel _ => PStr "Unknown"
  end.

(** ** [agent_enhanced.py] *)

Module AgentEnhanced.

Import TimestampTracker.

(** The configuration and the outside of the program. *)
Record env := mk_env {
  TELEGRAM_CHAT_ID : string;
  llm_processor : SimpleLLMProcessor.t;
  llm_service : service;
  clock : nat -> datetime;
  http_get : string -> http_response;
  (** [urlparse(url)]: scheme and netloc *)
  urlparse : string -> string * string;
  (** does [create_odt_document] return (it raises otherwise) *)
  odt_writer : pyval -> bool;
  (** what [find_chat_entity] finds *)
  chat_entity : bool;
  (** [client.iter_messages], newest first *)
  chat_history : result (list message)
}.

Definition load_existing_publications : M pyval :=
  fun w =>
    if file_exists (publications_file w)
    then try_except (lift (read_json (publications_file w)))
                    [JSONDecodeError; FileNotFoundError]
                    (fun _ => mret (PList [])) w
    else (Ok (PList []), w).

(** A failed write is one whose [open] raises ([publications_writable]
    says whether it succeeds; a write that fails after the [open] has
    emptied the file is not in the model). *)
Definition save_publications (publications_list : pyval) : M bool :=
  fun w =>
    if publications_writable w
    then (Ok true, log (EvPublicationsWrite publications_list true)
                       (set_publications_file (FileJson publications_list) w))
    else (Ok false, log (EvPublicationsWrite publications_list false) w).

(** *** [extract_urls_from_text] *)

Definition code (c : ascii) : N := N_of_ascii c.

Definition in_range (lo hi : N) (c : ascii) : bool :=
  ((lo <=? code c) && (code c <=? hi))%N.

(** [\d] *)
Definition is_digit (c : ascii) : bool := in_range 48 57 c.

(** [\w] on code points below 256: letters, digits, numeric characters and
    the underscore *)
Definition is_word (c : ascii) : bool :=
  in_range 48 57 c || in_range 65 90 c || in_range 97 122 c
  || (code c =? 95)%N
  || (code c =? 170)%N || (code c =? 178)%N || (code c =? 179)%N
  || (code c =? 181)%N || (code c =? 185)%N || (code c =? 186)%N
  || in_range 188 190 c || in_range 192 214 c || in_range 216 246 c
  || in_range 248 255 c.

Definition one_of (s : string) (c : ascii) : bool :=
  existsb (Ascii.eqb c) (list_ascii_of_string s).

(** The longest prefix of characters in a class, and what follows. *)
Fixpoint span (p : ascii -> bool) (s : string) : string * string :=
  match s with
  | String c s' =>
      if p c then let '(a, b) := span p s' in (String c a, b)
      else (EmptyString, s)
  | EmptyString => (EmptyString, EmptyString)
  end.

(** [lit] followed by the longest run of the class; nothing when [lit]
    is not next: an optional group of the pattern. *)
Definition optional_group (lit : ascii) (p : ascii -> bool) (s : string)
  : string * string :=
  match s with
  | String c s' =>
      if Ascii.eqb c lit
      then let '(a, b) := span p s' in (String c a, b)
      else (EmptyString, s)
  | EmptyString => (EmptyString, EmptyString)
  end.

Definition url_pattern : string :=
  "https?://(?:[-\w.])+(?:[:\d]+)?(?:/(?:[\w/_.])*(?:\?(?:[\w&=%.])*)?(?:#(?:[\w.])*)?)?".

(** A match of [url_pattern] at the start of [s]: every quantifier is
    greedy and every group after the host is optional, so the first greedy
    attempt is the match. *)
Definition match_url (s : string) : option string :=
  let after_scheme :=
    if PyStr.startswith "https://" s then Some ("https://", PyStr.drop 8 s)
    else if PyStr.startswith "http://" s then Some ("http://", PyStr.drop 7 s)
    else None in
  match after_scheme with
  | None => None
  | Some (scheme, s1) =>
      let '(host, s2) := span (fun c => one_of "-." c || is_word c) s1 in
      if negb (PyStr.nonempty host) then None else
      let '(port, s3) := span (fun c => one_of ":" c || is_digit c) s2 in
      let '(path, s4) :=
        optional_group "/" (fun c => one_of "/_." c || is_word c) s3 in
      let '(query, s5) :=
        if PyStr.nonempty path
        then optional_group "?" (fun c => one_of "&=%." c || is_word c) s4
        else (EmptyString, s4) in
      let '(fragment, _) :=
        if PyStr.nonempty path
        then optional_group "#" (fun c => one_of "." c || is_word c) s5
        else (EmptyString, s5) in
      Some (scheme +:+ host +:+ port +:+ path +:+ query +:+ fragment)
  end.

(** [re.findall]: the matches from left to right, the search resuming
    where a match ended; [skip] characters are still inside the last
    match. *)
Fixpoint findall_from (skip : nat) (s : string) : list string :=
  match s with
  | EmptyString => []
  | String _ s' =>
      match skip with
      | S k => findall_from k s'
      | O =>
          match match_url s with
          | Some u => u :: findall_from (String.length u - 1) s'
          | None => findall_from 0 s'
          end
      end
  end.

Definition extract_urls_from_text (text : string) : list string :=
  if negb (PyStr.nonempty text) then [] else findall_from 0 text.

(** *** [extract_article_content] *)

Section Coordinator.

Variable E : env.

(** The first selector whose element has text: the title loop. *)
Fixpoint first_title (soup : page) (selectors : list string)
  : option string :=
  match selectors with
  | [] => None
  | selector :: rest =>
      match page_select_one soup selector with
      | Some element =>
          if PyStr.nonempty (el_text_strip element)
          then Some (el_text_strip element)
          else first_title soup rest
      | None => first_title soup rest
      end
  end.

(** The author loop: [author] keeps the last value assigned. *)
Fixpoint find_author (soup : page) (selectors : list string)
    (author : option string) : option string :=
  match selectors with
  | [] => author
  | selector :: rest =>
      match page_select_one soup selector with
      | Some element =>
          let author :=
            if String.eqb (el_name element) "meta"
            then el_get element "content" ""
            else el_text_strip element in
          if PyStr.nonempty author then Some author
          else find_author soup rest (Some author)
      | None => find_author soup rest author
      end
  end.

(** [# Make relative URLs absolute] *)
Definition absolute_image (url image : string) : string :=
  if PyStr.startswith "//" image then "https:" +:+ image
  else if PyStr.startswith "/" image
  then let '(scheme, netloc) := urlparse E url in
       scheme +:+ "://" +:+ netloc +:+ image
  else image.

(** The image loop. *)
Fixpoint find_image (soup : page) (url : string) (selectors : list string)
    (image : option string) : option string :=
  match selectors with
  | [] => image
  | selector :: rest =>
      match page_select_one soup selector with
      | Some element =>
          let image :=
            if String.eqb (el_name element) "meta"
            then el_get element "content" ""
            else el_get element "src" "" in
          if PyStr.nonempty image then Some (absolute_image url image)
          else find_image soup url rest (Some image)
      | None => find_image soup url rest image
      end
  end.

(** The selector [tag[attr=QvalueQ]], [Q] being the double quote. *)
Definition attr_selector (tag attr value : string) : string :=
  let q := String (ascii_of_N 34) EmptyString in
  tag +:+ "[" +:+ attr +:+ "=" +:+ q +:+ value +:+ q +:+ "]".

(** [x or dflt] for an optional string *)
Definition str_or (x : option string) (dflt : string) : pyval :=
  match x with
  | Some s => if PyStr.nonempty s then PStr s else PStr dflt
  | None => PStr dflt
  end.

Definition opt_str (x : option string) : pyval :=
  match x with Some s => PStr s | None => PNone end.

(** The body of the [try]. *)
Definition scrape (url : string) (soup : page) : M (gmap string pyval) :=
  let title :=
    first_title soup ["h1"; "title"; ".title"; ".headline"; "h1.title"] in
  let summary :=
    match page_find soup (FindMetaName "description") with
    | Some meta_desc => Some (el_get meta_desc "content" "")
    | None => None
    end in
  let author :=
    find_author soup
      [attr_selector "meta" "name" "author"; ".author"; ".byline";
       attr_selector "" "rel" "author"]
      None in
  let image :=
    find_image soup url
      [attr_selector "meta" "property" "og:image";
       attr_selector "meta" "name" "twitter:image";
       ".featured-image img"; "article img"; ".content img"] None in
  extracted_at ← now (clock E);
  let article_data : gmap string pyval :=
    list_to_map
      [("url", PStr url);
       ("title", str_or title "Unknown Title");
       ("summary", str_or summary "No summary available");
       ("author", str_or author "Unknown Author");
       ("image", opt_str image);
       ("extracted_at", PStr (isoformat extracted_at));
       ("extraction_method", PStr "web_scraping")] in
  if SimpleLLMProcessor.is_available (llm_processor E)
  then mret (SimpleLLMProcessor.enhance_article_extraction
               (llm_service E) (llm_processor E) url (page_text soup)
               article_data)
  else mret (<["enhanced_by_llm" := PBool false]> article_data).

(** The record of the [except] branch. *)
Definition failed_article (url message : string) (extracted_at : datetime)
  : gmap string pyval :=
  list_to_map
    [("url", PStr url);
     ("title", PStr ("Failed to extract: " +:+ url));
     ("summary", PStr ("Error occurred: " +:+ message));
     ("author", PStr "Unknown");
     ("image", PNone);
     ("extracted_at", PStr (isoformat extracted_at));
     ("extraction_method", PStr "error");
     ("enhanced_by_llm", PBool false)].

Definition extract_article_content (url : string) : M (gmap string pyval) :=
  _ ← modify (log (EvFetch url));
  match http_get E url with
  | HttpPage soup => scrape url soup
  | HttpError _ message =>
      extracted_at ← now (clock E);
      mret (failed_article url message extracted_at)
  end.

(** The loop of [process_urls_in_message]. *)
Fixpoint process_urls (urls : list string) (sender_name : pyval)
  : M (list (gmap string pyval)) :=
  match urls with
  | [] => mret []
  | url :: rest =>
      article ← try_except_all
                  (article_data ← extract_article_content url;
                   if truthy (PDict article_data)
                   then mret (Some (<["sender" := sender_name]> article_data))
                   else mret None)
                  (fun _ => mret None);
      articles ← process_urls rest sender_name;
      mret (match article with
            | Some a => a :: articles
            | None => articles
            end)
  end.

Definition process_urls_in_message (message_text : string)
    (sender_name : pyval) : M (list (gmap string pyval)) :=
  let urls := extract_urls_from_text message_text in
  match urls with
  | [] => mret []
  | _ => process_urls urls sender_name
  end.

Definition process_message_content (message_text : string)
    (sender_name : pyval) : M (option pyval) :=
  if negb (PyStr.nonempty (PyStr.strip message_text)) then mret None
  else if SimpleLLMProcessor.is_available (llm_processor E)
  then mret (Some (SimpleLLMProcessor.summarize_message
                     (llm_service E) (llm_processor E)
                     message_text sender_name))
  else
    analyzed_at ← now (clock E);
    mret (Some (PDict (list_to_map
      [("summary", PStr (fallback_summary message_text));
       ("sentiment", PStr "neutral");
       ("topics", PList []);
       ("importance", PStr "medium");
       ("message_type", PStr "text");
       ("enhanced_by_llm", PBool false);
       ("original_message", PStr message_text);
       ("sender", sender_name);
       ("analyzed_at", PStr (isoformat analyzed_at))]))).

(** [tracking_chat_id] *)
Definition tracking_chat_id (configured : string) : string :=
  if String.eqb (PyStr.lower configured) "me" then "me" else configured.

(** [create_odt_document] returns [None] or raises: in both cases the
    article is left as it is. *)
Definition create_odt (article : gmap string pyval) : M unit :=
  _ ← now (clock E);
  _ ← modify (log (EvOdt (PDict article)));
  try_except_all
    (if odt_writer E (PDict article) then mret tt else raise OtherException)
    (fun _ => mret tt).

(** [for article in articles: publications.append(article) ...] *)
Fixpoint append_articles (publications : pyval)
    (articles : list (gmap string pyval)) : M pyval :=
  match articles with
  | [] => mret publications
  | article :: rest =>
      publications ← lift (py_append publications (PDict article));
      _ ← create_odt article;
      append_articles publications rest
  end.

Definition handle_new_message (m : message) : M unit :=
  try_except_all
    (sender ← lift (msg_sender m);
     let sender_name := sender_first_name sender in
     let message_text := default "" (msg_text m) in
     let message_date := ensure_aware (msg_date m) in
     let tracking := tracking_chat_id (TELEGRAM_CHAT_ID E) in
     process ← should_process_message message_date (ChatStr tracking);
     if negb process then mret tt else
     publications ← load_existing_publications;
     articles ← process_urls_in_message message_text sender_name;
     publications ← append_articles publications articles;
     message_analysis ← process_message_content message_text sender_name;
     '(publications, analysed) ←
        match message_analysis with
        | Some analysis =>
            if truthy analysis then
              a ← lift (py_setitem analysis "message_date"
                          (PStr (isoformat message_date)));
              a ← lift (py_setitem a "chat_id" (PStr tracking));
              publications ← lift (py_append publications a);
              mret (publications, true)
            else mret (publications, false)
        | None => mret (publications, false)
        end;
     let new_items_added :=
       match articles with [] => analysed | _ :: _ => true end in
     _ ← (if new_items_added
          then _ ← save_publications publications; mret tt
          else mret tt);
     update_last_check_timestamp (clock E) (ChatStr tracking)
                                 (Some message_date))
    (fun _ => mret tt).

(** *** [process_recent_messages] *)

(** The scan: the messages that [should_process_message] accepts. *)
Fixpoint collect (tracking : string) (messages : list message)
  : M (list message) :=
  match messages with
  | [] => mret []
  | m :: rest =>
      accepted ← should_process_message (ensure_aware (msg_date m))
                                        (ChatStr tracking);
      collected ← collect tracking rest;
      mret (if accepted : bool then m :: collected else collected)
  end.

Fixpoint process_all (messages : list message) : M unit :=
  match messages with
  | [] => mret tt
  | m :: rest =>
      _ ← try_except_all (handle_new_message m) (fun _ => mret tt);
      process_all rest
  end.

Definition process_recent_messages (chat : string) (limit : nat) : M unit :=
  let tracking := tracking_chat_id chat in
  _ ← get_last_check_timestamp (ChatStr tracking);
  _ ← get_last_check_timestamp (ChatStr tracking);
  finished ← try_except_all
    (if negb (chat_entity E) then mret false else
     history ← lift (chat_history E);
     messages_to_process ← collect tracking (firstn limit history);
     _ ← process_all (rev messages_to_process);
     mret true)
    (fun _ => mret true);
  if finished : bool
  then update_last_check_timestamp (clock E) (ChatStr tracking) None
  else mret tt.

End Coordinator.

End AgentEnhanced.

(** ** [agent.py]: the resolver and the URL loop *)

Module Agent.

(** What the operator answers to the preview of an article. *)
Inductive decision :=
| Accept
| Reject
| Modify (new_title new_summary new_author new_image : string)
         (confirmed : bool).

Record env := mk_env {
  llm_processor : LLMProcessor.t;
  llm_service : service;
  (** local time, one reading per call *)
  clock : nat -> datetime;
  http_get : string -> http_response;
  (** the answers typed at the prompts, for the article shown *)
  operator : gmap string pyval -> decision
}.

Definition load_existing_publications : M pyval :=
  fun w =>
    if file_exists (publications_file w)
    then try_except (lift (read_json (publications_file w)))
                    [JSONDecodeError; FileNotFoundError]
                    (fun _ => mret (PList [])) w
    else (Ok (PList []), w).

(** No [try] here: a failed write raises. *)
Definition save_publications (publications : pyval) : M unit :=
  fun w =>
    if publications_writable w
    then (Ok tt, log (EvPublicationsWrite publications true)
                     (set_publications_file (FileJson publications) w))
    else (Raise PermissionError, log (EvPublicationsWrite publications false) w).

Section Resolver.

Variable E : env.

(** [a or b or ...] over the elements found *)
Fixpoint find_first (soup : page) (queries : list query) : option element :=
  match queries with
  | [] => None
  | q :: rest =>
      match page_find soup q with
      | Some e => Some e
      | None => find_first soup rest
      end
  end.

(** [strftime("%Y-%m-%d")] *)
Definition format_day (t : datetime) : string :=
  format_date (year t) (month t) (day t).

(** [strftime("%H:%M:%S")] *)
Definition format_clock (t : datetime) : string :=
  pad 2 (hour t) +:+ ":" +:+ pad 2 (minute t) +:+ ":" +:+ pad 2 (second t).

(** The body of the [try], up to [basic_data]. *)
Definition scrape_basic (url : string) (soup : page)
  : M (gmap string pyval) :=
  let title :=
    match find_first soup [FindMetaProperty "og:title"; FindMetaName "title";
                           FindTag "title"] with
    | Some title_element =>
        if String.eqb (el_name title_element) "title"
        then PyStr.strip (el_text title_element)
        else PyStr.strip (el_get title_element "content" "")
    | None => "Article Title Not Found"
    end in
  let summary :=
    match find_first soup [FindMetaProperty "og:description";
                           FindMetaName "description";
                           FindMetaName "twitter:description"] with
    | Some summary_element =>
        PyStr.strip (el_get summary_element "content" "")
    | None => "No summary available"
    end in
  let image_url :=
    match find_first soup [FindMetaProperty "og:image";
                           FindMetaName "twitter:image"] with
    | Some image_element => el_get image_element "content" ""
    | None => ""
    end in
  let image_url :=
    if negb (PyStr.nonempty image_url) then "No image available"
    else image_url in
  let author :=
    match find_first soup [FindMetaName "author";
                           FindMetaProperty "article:author"] with
    | Some author_element => el_get author_element "content" "Unknown Author"
    | None => "Unknown Author"
    end in
  today ← now (clock E);
  time ← now (clock E);
  mret (list_to_map
    [("title", PStr (PyStr.take 200 title));
     ("summary", PStr (PyStr.take 500 summary));
     ("url", PStr url);
     ("image", PStr image_url);
     ("author", PStr author);
     ("date_extracted", PStr (format_day today));
     ("time_extracted", PStr (format_clock time))]).

(** [# Return fallback data if scraping fails] *)
Definition fallback_article (url : string) (today time : datetime)
  : gmap string pyval :=
  list_to_map
    [("title", PStr "Could not extract title");
     ("summary", PStr "Could not extract summary");
     ("url", PStr url);
     ("image", PStr "No image available");
     ("author", PStr "Unknown Author");
     ("date_extracted", PStr (format_day today));
     ("time_extracted", PStr (format_clock time));
     ("enhanced_by_llm", PBool false)].

Definition extract_article_data (url : string) : M (gmap string pyval) :=
  _ ← modify (log (EvFetch url));
  match http_get E url with
  | HttpPage soup =>
      basic_data ← scrape_basic url soup;
      if LLMProcessor.is_available (llm_processor E)
      then mret (LLMProcessor.enhance_article_extraction
                   (llm_service E) (llm_processor E) url (page_text soup)
                   basic_data)
      else mret (<["enhanced_by_llm" := PBool false]> basic_data)
  | HttpError _ _ =>
      today ← now (clock E);
      time ← now (clock E);
      mret (fallback_article url today time)
  end.

(** [any(pub['url'] == url for pub in publications)] *)
Fixpoint any_url (pubs : list pyval) (url : string) : result bool :=
  match pubs with
  | [] => Ok false
  | pub :: rest =>
      u ← py_getitem pub "url";
      if py_eq_str u url then Ok true else any_url rest url
  end.

(** Iterating over what [json.load] returned. *)
Definition already_stored (publications : pyval) (url : string)
  : result bool :=
  match publications with
  | PList l => any_url l url
  | PDict d =>
      match map_to_list d with [] => Ok false | _ :: _ => Raise TypeError end
  | PStr s => if PyStr.nonempty s then Raise TypeError else Ok false
  | PNone | PBool _ | PInt _ => Raise TypeError
  end.

(** Can [', '.join(v)] be evaluated? *)
Definition joinable (v : pyval) : bool :=
  match v with
  | PStr _ | PDict _ => true
  | PList l => forallb (fun x => match x with PStr _ => true | _ => false end) l
  | PNone | PBool _ | PInt _ => false
  end.

(** [display_article_preview]: it only prints, and raises when the key
    points of an enhanced article cannot be joined. *)
Definition display_article_preview (article_data : gmap string pyval)
  : result unit :=
  if truthy (default (PBool false) (article_data !! "enhanced_by_llm"))
     && truthy (default PNone (article_data !! "key_points"))
     && negb (joinable (default PNone (article_data !! "key_points")))
  then Raise TypeError else Ok tt.

(** Can [v[:50]] be evaluated? *)
Definition sliceable (v : pyval) : bool :=
  match v with
  | PStr _ | PList _ => true
  | _ => false
  end.

(** [modify_article_data]: an empty answer keeps the field. *)
Definition modify_article_data (article_data : gmap string pyval)
    (new_title new_summary new_author new_image : string)
  : result (gmap string pyval) :=
  let set k (v : string) (d : gmap string pyval) :=
    if PyStr.nonempty (PyStr.strip v) then <[k := PStr (PyStr.strip v)]> d
    else d in
  _ ← py_getitem (PDict article_data) "title";
  let d1 := set "title" new_title article_data in
  s ← py_getitem (PDict d1) "summary";
  if negb (sliceable s) then Raise TypeError else
  let d2 := set "summary" new_summary d1 in
  _ ← py_getitem (PDict d2) "author";
  let d3 := set "author" new_author d2 in
  i ← py_getitem (PDict d3) "image";
  if negb (sliceable i) then Raise TypeError else
  Ok (set "image" new_image d3).

(** The loop of [process_urls_in_message]: [publications] is the list
    loaded once and appended to as articles are saved. *)
Fixpoint process_urls (urls : list string) (publications : pyval) : M pyval :=
  match urls with
  | [] => mret publications
  | url :: rest =>
      existing ← lift (already_stored publications url);
      if existing : bool then process_urls rest publications else
      article_data ← extract_article_data url;
      _ ← lift (display_article_preview article_data);
      accepted ←
        match operator E article_data with
        | Accept => mret (Some article_data)
        | Reject => mret None
        | Modify t s a i confirmed =>
            modified ← lift (modify_article_data article_data t s a i);
            _ ← lift (display_article_preview modified);
            mret (if confirmed then Some modified else None)
        end;
      match accepted with
      | None => process_urls rest publications
      | Some article_data =>
          publications ← lift (py_append publications (PDict article_data));
          _ ← save_publications publications;
          _ ← modify (log (EvOdt (PDict article_data)));
          process_urls rest publications
      end
  end.

Definition process_urls_in_message (urls : list string) : M unit :=
  publications ← load_existing_publications;
  _ ← process_urls urls publications;
  mret tt.

End Resolver.

End Agent.

(** ** [odt_writer.py]: the escaping of the document's text *)

Module OdtWriter.

Section Escape.

(** [str(v)] of a value that is no [str] *)
Variable py_str : pyval -> string.

Definition escape_xml (text : pyval) : string :=
  if negb (truthy text) then "" else
  let text := match text with PStr s => s | v => py_str v end in
  let text := PyStr.replace_char "&" "&amp;" text in
  let text := PyStr.replace_char "<" "&lt;" text in
  let text := PyStr.replace_char ">" "&gt;" text in
  let text := PyStr.replace_char (ascii_of_N 34) "&quot;" text in
  PyStr.replace_char "'" "&apos;" text.

End Escape.

End OdtWriter.

(** ** Notions used by the statements *)

Module Notions.
Import Datetime TimestampTracker.

(** [t <= T] and [t > T] between timestamps, a naive one being read as UTC *)
Definition not_after (t T : datetime) : Prop :=
  utc_micros (ensure_aware t) <= utc_micros (ensure_aware T).


(** The backing file is missing, unreadable or corrupt. *)
Definition degraded (f : json_file) : Prop :=
  f = FileMissing \/ f = FileUnreadable \/ f = FileCorrupt.

(** The dictionary that [_load_timestamp_data] hands to its caller. *)
Definition loaded (f : json_file) : pyval :=
  match f with
  | FileJson v => v
  | _ => PDict ∅
  end.

(** Reading the checkpoint, as a function of the loaded value. *)
Definition read_checkpoint (data : pyval) (key : string)
  : result (option datetime) :=
  match data with
  | PDict d =>
      match default PNone (d !! key) with
      | PStr s => Ok (if PyStr.nonempty s then fromisoformat s else None)
      | v => if truthy v then Raise TypeError else Ok None
      end
  | _ => Raise AttributeError
  end.

(** The entry of the checkpoint file under a key. *)
Definition stored_entry (w : world) (key : string) : option pyval :=
  match loaded (timestamp_file w) with
  | PDict d => d !! key
  | _ => None
  end.

(** The reading of the clock an update uses, and the world after it. *)
Definition stamp (clock : nat -> datetime) (ts : option datetime) (w : world)
  : datetime * world :=
  match ts with
  | Some t => (t, w)
  | None => (clock (ticks w), set_ticks (S (ticks w)) w)
  end.

(** The optional fraction of [_format_time]. *)
Definition fraction (us : Z) : string :=
  if us =? 0 then "" else "." +:+ pad 6 us.

(** An instant of 1970-01-01, [s] seconds after midnight UTC. *)
Definition at_second (s : Z) : datetime :=
  mk_datetime 1970 1 1 0 (s / 60) (s mod 60) 0 (Some 0).

(** Effects on the outside only: fetches and document writes. *)
Definition is_external (e : event) : Prop :=
  match e with
  | EvFetch _ | EvOdt _ => True
  | EvTimestampWrite _ _ | EvPublicationsWrite _ _ => False
  end.

(** [w'] is [w] after some clock readings, fetches and document writes:
    both JSON files are as they were. *)
Definition quiet (w w' : world) : Prop :=
  timestamp_file w' = timestamp_file w
  /\ timestamp_writable w' = timestamp_writable w
  /\ publications_file w' = publications_file w
  /\ publications_writable w' = publications_writable w
  /\ exists evs, trace w' = (evs ++ trace w)%list /\ Forall is_external evs.

(** The list that [load_existing_publications] returns, when it returns
    one. *)
Definition stored_publications (f : json_file) : option (list pyval) :=
  match f with
  | FileMissing | FileCorrupt => Some []
  | FileJson (PList l) => Some l
  | FileUnreadable | FileJson _ => None
  end.

(** The field of a stored record. *)
Definition field (k : string) (v : pyval) : option pyval :=
  match v with
  | PDict d => d !! k
  | _ => None
  end.

(** Does a stored record bear the url? *)
Definition has_url (url : string) (v : pyval) : bool :=
  match field "url" v with
  | Some u => py_eq_str u url
  | None => false
  end.

(** The number of stored records that bear a url. *)
Definition count_url (url : string) (l : list pyval) : nat :=
  length (List.filter (has_url url) l).

(** The store after the attempt to save a batch, when there is one. *)
Definition persist (new_items_added : bool) (publications : pyval)
    (w : world) : world :=
  if new_items_added
  then (AgentEnhanced.save_publications publications w).2
  else w.

Definition is_nil {A} (l : list A) : bool :=
  match l with [] => true | _ :: _ => false end.


(** The attempt to save a batch, as it shows in the trace. *)
Definition persist_events (new_items_added : bool) (publications : pyval)
    (w : world) : list event :=
  if new_items_added
  then [EvPublicationsWrite publications (publications_writable w)]
  else [].

(** The instant of a message, a naive date being read as UTC. *)
Definition sent_at (m : message) : datetime := ensure_aware (msg_date m).




(** The claim C1 makes about a failed store write, at one input. *)
Definition checkpoint_kept_on_failed_write (E : AgentEnhanced.env)
    (m : message) (w : world) : Prop :=
  let key :=
    key_of (ChatStr (AgentEnhanced.tracking_chat_id
                       (AgentEnhanced.TELEGRAM_CHAT_ID E))) in
  let w' := (AgentEnhanced.handle_new_message E m w).2 in
  (exists publications, In (EvPublicationsWrite publications false) (trace w'))
  -> stored_entry w' key = stored_entry w key.

(** The fetches of a url in a trace. *)
Definition count_fetch (url : string) (tr : list event) : nat :=
  length (List.filter (fun e => match e with
                                | EvFetch u => String.eqb u url
                                | _ => false
                                end) tr).

(** The records of the publication store, as they are on disk. *)
Definition store_records (w : world) : list pyval :=
  match publications_file w with
  | FileJson (PList l) => l
  | _ => []
  end.

(** The occurrences of a url among the urls of a message. *)
Definition occurrences (url : string) (urls : list string) : nat :=
  length (List.filter (String.eqb url) urls).

(** The fallback analysis of a message, its [message_type] apart. *)
Definition fallback_record (message_type message_text : string)
    (r : gmap string pyval) : Prop :=
  r !! "summary"
  = Some (PStr (if 100 <? py_len message_text
                then PyStr.take 100 message_text +:+ "..."
                else message_text))
  /\ r !! "sentiment" = Some (PStr "neutral")
  /\ r !! "topics" = Some (PList [])
  /\ r !! "importance" = Some (PStr "medium")
  /\ r !! "message_type" = Some (PStr message_type)
  /\ r !! "enhanced_by_llm" = Some (PBool false).

(** The placeholder record as C6 describes it. *)
Definition placeholder_as_claimed (r : gmap string pyval) : Prop :=
  r !! "title" = Some (PStr "Could not extract title")
  /\ r !! "extraction_method" = Some (PStr "error").




(** A key that was given and is neither empty nor a placeholder. *)
Definition real_key (placeholder : string) (k : option string) : bool :=
  match k with
  | Some s =>
      PyStr.nonempty s && negb (String.eqb s placeholder)
      && negb (String.eqb s "None")
  | None => false
  end.

(** The fields that an enrichment may set. *)
Definition enriched_keys : list string :=
  ["title"; "summary"; "author"; "category"; "key_points"; "confidence";
   "article_type"; "enhanced_by_llm"; "llm_provider"].

(** [u] occurs in [text]. *)
Definition occurs_in (u text : string) : Prop :=
  exists before after_ : string, text = before +:+ u +:+ after_.

(** No two stored records bear the same url. *)
Definition unique_urls (l : list pyval) : Prop :=
  forall u : string, (count_url u l <= 1)%nat.

(** Every stored record is a dictionary with a [url] entry. *)
Definition records_have_url (l : list pyval) : Prop :=
  Forall (fun v => is_Some (field "url" v)) l.

(** The character [c] does not occur in [s]. *)
Definition lacks (c : ascii) (s : string) : Prop :=
  Forall (fun a => a <> c) (list_ascii_of_string s).

(** The double quote. *)
Definition double_quote : ascii := ascii_of_N 34.

(** The characters that [escape_xml] replaces. *)
Definition is_markup (c : ascii) : bool :=
  existsb (Ascii.eqb c) ["&"; "<"; ">"; double_quote; "'"]%char.

(** The fields of an article record of [agent_enhanced.py]. *)
Definition article_keys : list string :=
  ["url"; "title"; "summary"; "author"; "image"; "extracted_at";
   "extraction_method"; "enhanced_by_llm"].

(** Does the text begin with the four digits of a year?  No version of
    [fromisoformat] reads a text that does not. *)
Definition begins_with_year (s : string) : bool :=
  match s with
  | String a (String b (String c (String d _))) =>
      forallb (fun x => (48 <=? N_of_ascii x)%N && (N_of_ascii x <=? 57)%N)
              [a; b; c; d]
  | _ => false
  end.

(** The characters of a host: the class [[-\w.]] of the pattern. *)
Definition host_char (c : ascii) : bool :=
  AgentEnhanced.one_of "-." c || AgentEnhanced.is_word c.

(** The text begins with a character of a host. *)
Definition begins_with_host (s : string) : Prop :=
  match s with
  | String c _ => host_char c = true
  | EmptyString => False
  end.

End Notions.

(** ** Worlds and environments of the examples *)

Module Examples.
Import Datetime TimestampTracker Notions.

(** A checkpoint file holding [20] for the chat ["me"]. *)
Definition w_checkpoint_20 : world :=
  mk_world (FileJson (PDict {["me" := PStr (isoformat (at_second 20))]}))
           true FileMissing true 0 [].

(** Nothing on disk yet. *)
Definition w_fresh : world := mk_world FileMissing true FileMissing true 0 [].

(** A checkpoint file that cannot be parsed. *)
Definition w_corrupt : world := mk_world FileCorrupt true FileMissing true 0 [].

Definition clock_100 : nat -> datetime := fun _ => at_second 100.

(** No enrichment service, and a web on which every fetch times out. *)
Definition no_service : service :=
  mk_service (fun _ _ => ApiException) (fun _ => None).

Definition m_at (s : Z) (text : string) : message :=
  mk_message (Some text) (at_second s) (Ok (User (Some "Ann"))).

Definition env_offline : AgentEnhanced.env :=
  AgentEnhanced.mk_env "me" SimpleLLMProcessor.new no_service clock_100
    (fun _ => HttpError RequestException "timed out")
    (fun _ => ("", ""))
    (fun _ => true)
    true
    (Ok [m_at 30 "third"; m_at 20 "second"; m_at 10 "first"]).

(** A page with a heading and a description. *)
Definition page_example : page :=
  mk_page "<html><h1>Title</h1></html>"
    (fun q => match q with
              | FindMetaName "description" =>
                  Some (mk_element "meta" {["content" := "About"]} "" "")
              | FindTag "title" =>
                  Some (mk_element "title" ∅ " Title " "Title")
              | _ => None
              end)
    (fun selector => if String.eqb selector "h1"
                     then Some (mk_element "h1" ∅ "Title" "Title")
                     else None).

(** No enrichment service, and a web on which every fetch succeeds. *)
Definition env_online : AgentEnhanced.env :=
  AgentEnhanced.mk_env "me" SimpleLLMProcessor.new no_service clock_100
    (fun _ => HttpPage page_example)
    (fun _ => ("http", "a.example"))
    (fun _ => true)
    true
    (Ok []).

Definition m_twice : message :=
  m_at 30 "check this out http://a.example/x and http://a.example/x".

Definition m_again : message := m_at 40 "again: http://a.example/x".

(** The interactive agent, its operator accepting every article. *)
Definition env_interactive : Agent.env :=
  Agent.mk_env (LLMProcessor.mk false false None) no_service clock_100
    (fun _ => HttpPage page_example)
    (fun _ => Agent.Accept).

(** The interactive agent on a web where every fetch times out. *)
Definition env_interactive_offline : Agent.env :=
  Agent.mk_env (LLMProcessor.mk false false None) no_service clock_100
    (fun _ => HttpError RequestException "timed out")
    (fun _ => Agent.Accept).




(** A publication store that cannot be written. *)
Definition w_store_readonly : world :=
  mk_world FileMissing true FileMissing false 0 [].

(** Checkpoints of two chats, and the global one. *)
Definition w_two_chats : world :=
  mk_world
    (FileJson (PDict (<["me" := PStr (isoformat (at_second 20))]>
                      (<["7" := PStr (isoformat (at_second 10))]>
                       {["global" := PStr (isoformat (at_second 5))]}))))
    true FileMissing true 0 [].

(** A checkpoint entry that is no date. *)
Definition w_checkpoint_unparsable : world :=
  mk_world (FileJson (PDict {["me" := PStr "yesterday"]}))
           true FileMissing true 0 [].

(** A checkpoint entry that is a number. *)
Definition w_checkpoint_number : world :=
  mk_world (FileJson (PDict {["me" := PInt 1700000000]}))
           true FileMissing true 0 [].

(** A message whose sender cannot be resolved. *)
Definition m_no_sender : message :=
  mk_message (Some "see http://a.example/x") (at_second 30)
             (Raise OtherException).

(** The chat of the configuration cannot be found. *)
Definition env_no_chat : AgentEnhanced.env :=
  AgentEnhanced.mk_env "me" SimpleLLMProcessor.new no_service clock_100
    (fun _ => HttpPage page_example)
    (fun _ => ("http", "a.example"))
    (fun _ => true)
    false
    (Ok [m_at 30 "third"]).

(** The chat is found, and listing its messages raises. *)
Definition env_no_listing : AgentEnhanced.env :=
  AgentEnhanced.mk_env "me" SimpleLLMProcessor.new no_service clock_100
    (fun _ => HttpPage page_example)
    (fun _ => ("http", "a.example"))
    (fun _ => true)
    true
    (Raise OtherException).

(** A checkpoint file holding [50] for the chat ["me"]. *)
Definition w_checkpoint_50 : world :=
  mk_world (FileJson (PDict {["me" := PStr (isoformat (at_second 50))]}))
           true FileMissing true 0 [].

(** The interactive agent, its operator rejecting every article. *)
Definition env_rejecting : Agent.env :=
  Agent.mk_env (LLMProcessor.mk false false None) no_service clock_100
    (fun _ => HttpPage page_example)
    (fun _ => Agent.Reject).

(** The text shown for a date, as far as the examples need it. *)
Definition show_date : datetime -> string := isoformat.

(** A checkpoint file with a date and a text that is none. *)
Definition w_checkpoint_mixed : world :=
  mk_world
    (FileJson (PDict (<["me" := PStr (isoformat (at_second 20))]>
                      {["7" := PStr "yesterday"]})))
    true FileMissing true 0 [].

(** A checkpoint file with an entry under ["0"] and the global one. *)
Definition w_zero_and_global : world :=
  mk_world
    (FileJson (PDict (<["0" := PStr (isoformat (at_second 10))]>
                      {["global" := PStr (isoformat (at_second 5))]})))
    true FileMissing true 0 [].

(** A publication store that holds one article. *)
Definition w_one_article : world :=
  mk_world FileMissing true
    (FileJson (PList [PDict {["url" := PStr "http://a.example/old"]}]))
    true 0 [].

End Examples.
(** * [isoformat] and [fromisoformat] *)

Module DatetimeFacts.
Import Datetime Notions.
#[local] Arguments String.append : simpl nomatch.

Lemma char_digit_digit_char d : 0 <= d < 10 -> char_digit (digit_char d) = Some d.
Proof.
  intros H.
  assert (d = 0 \/ d = 1 \/ d = 2 \/ d = 3 \/ d = 4 \/ d = 5 \/ d = 6
          \/ d = 7 \/ d = 8 \/ d = 9) as Hd by lia.
  repeat (destruct Hd as [-> | Hd]; [reflexivity |]). subst. reflexivity.
Qed.

Lemma digit_char_neq (c : ascii) d :
  char_digit c = None -> c <> "?"%char -> Ascii.eqb (digit_char d) c = false.
Proof.
  intros Hc Hq. apply Ascii.eqb_neq. intros <-.
  destruct d as [|p|p]; try (cbn in Hq; congruence); try discriminate;
  repeat (destruct p as [p|p|]; try discriminate; try (cbn in Hq; congruence)).
Qed.

Lemma parse_digits_from_pad w n acc :
  parse_digits_from acc (pad w n)
  = Some (acc * 10 ^ Z.of_nat w + n mod 10 ^ Z.of_nat w).
Proof.
  revert acc. induction w as [|w IH]; intros acc.
  - cbn. rewrite Z.mod_1_r. f_equal. lia.
  - cbn [pad parse_digits_from].
    rewrite char_digit_digit_char by (apply Z.mod_pos_bound; lia).
    rewrite IH. f_equal.
    rewrite Nat2Z.inj_succ, Z.pow_succ_r by lia.
    set (p := 10 ^ Z.of_nat w). assert (0 < p) by (apply Z.pow_pos_nonneg; lia).
    rewrite (Z.mul_comm 10 p), Z.rem_mul_r by lia. lia.
Qed.

Lemma length_pad w n : String.length (pad w n) = w.
Proof. induction w; cbn; congruence. Qed.

Lemma parse_digits_pad w n :
  0 <= n < 10 ^ Z.of_nat w -> parse_digits w (pad w n) = Some n.
Proof.
  intros H. unfold parse_digits. rewrite length_pad, Nat.eqb_refl.
  rewrite parse_digits_from_pad, Z.mod_small by lia. reflexivity.
Qed.

(** Slicing a concatenation whose first part has a known length. *)

Lemma str_length_app (a b : string) :
  String.length (a +:+ b) = (String.length a + String.length b)%nat.
Proof. induction a as [|c a IH]; simpl; [reflexivity | by rewrite IH]. Qed.

Lemma str_app_empty_r (a : string) : a +:+ "" = a.
Proof. induction a as [|c a IH]; simpl; [reflexivity | by rewrite IH]. Qed.

Lemma substring_skip (p s : string) a n :
  (String.length p <= a)%nat ->
  substring a n (p +:+ s) = substring (a - String.length p) n s.
Proof.
  revert a. induction p as [|c p IH]; intros a Ha; simpl in *.
  - by rewrite Nat.sub_0_r.
  - destruct a as [|a]; [lia |]. simpl. apply IH. lia.
Qed.

Lemma substring_here (p s : string) n :
  n = String.length p -> substring 0 n (p +:+ s) = p.
Proof.
  intros ->. induction p as [|c p IH]; simpl.
  - by destruct s.
  - by rewrite IH.
Qed.

Lemma substring_all (p : string) n :
  n = String.length p -> substring 0 n p = p.
Proof. intros H. rewrite <- (str_app_empty_r p) at 1. by apply substring_here. Qed.

Lemma take_app_ge (p s : string) n :
  (String.length p <= n)%nat ->
  PyStr.take n (p +:+ s) = p +:+ PyStr.take (n - String.length p) s.
Proof.
  unfold PyStr.take. revert n. induction p as [|c p IH]; intros n Hn; simpl in *.
  - by rewrite Nat.sub_0_r.
  - destruct n as [|n]; [lia |]. simpl. rewrite IH by lia. reflexivity.
Qed.

Lemma take_0 (s : string) : PyStr.take 0 s = "".
Proof. by destruct s. Qed.

Lemma drop_skip (p s : string) n :
  (String.length p <= n)%nat ->
  PyStr.drop n (p +:+ s) = PyStr.drop (n - String.length p) s.
Proof.
  revert n. induction p as [|c p IH]; intros n Hn; simpl in *.
  - by rewrite Nat.sub_0_r.
  - destruct n as [|n]; [lia |]. simpl. apply IH. lia.
Qed.

Lemma drop_all (p : string) n : (String.length p <= n)%nat -> PyStr.drop n p = "".
Proof.
  revert n. induction p as [|c p IH]; intros n Hn; simpl in *.
  - by destruct n.
  - destruct n as [|n]; [lia |]. simpl. apply IH. lia.
Qed.

Lemma get_skip (p s : string) i :
  (String.length p <= i)%nat ->
  char_at i (p +:+ s) = char_at (i - String.length p) s.
Proof.
  unfold char_at. revert i. induction p as [|c p IH]; intros i Hi; simpl in *.
  - by rewrite Nat.sub_0_r.
  - destruct i as [|i]; [lia |]. simpl. apply IH. lia.
Qed.

Lemma get_past (p : string) i : (String.length p <= i)%nat -> char_at i p = None.
Proof.
  unfold char_at. revert i. induction p as [|c p IH]; intros i Hi; simpl in *.
  - by destruct i.
  - destruct i as [|i]; [lia |]. apply IH. lia.
Qed.

Lemma find_app_absent c (p s : string) :
  PyStr.find c p = None ->
  PyStr.find c (p +:+ s) = (fun i => (String.length p + i)%nat) <$> PyStr.find c s.
Proof.
  induction p as [|a p IH]; simpl.
  - intros _. by destruct (PyStr.find c s).
  - destruct (Ascii.eqb a c); [discriminate |].
    destruct (PyStr.find c p) eqn:E; [discriminate |]. intros _.
    rewrite IH by reflexivity. by destruct (PyStr.find c s).
Qed.

Lemma find_absent_app c (p s : string) :
  PyStr.find c p = None -> PyStr.find c s = None -> PyStr.find c (p +:+ s) = None.
Proof. intros Hp Hs. by rewrite find_app_absent, Hs. Qed.

Lemma find_pad c w n :
  char_digit c = None -> c <> "?"%char -> PyStr.find c (pad w n) = None.
Proof.
  intros Hc Hq. induction w as [|w IH]; simpl; [reflexivity |].
  by rewrite digit_char_neq, IH.
Qed.


#[local] Arguments pad : simpl never.

Ltac len_side := rewrite ?str_length_app, ?length_pad; simpl; lia.

(** Pushes slices, indexing and drops through a concatenation. *)
Ltac str_norm :=
  unfold PyStr.slice;
  repeat first
    [ rewrite substring_here by len_side
    | rewrite substring_all by len_side
    | rewrite substring_skip by len_side
    | rewrite get_skip by len_side
    | rewrite get_past by len_side
    | rewrite drop_skip by len_side
    | rewrite drop_all by len_side
    | rewrite length_pad
    | progress simpl ].

Lemma length_format_date y m d : String.length (format_date y m d) = 10%nat.
Proof. unfold format_date. by rewrite !str_length_app, !length_pad. Qed.

Lemma parse_format_date y m d :
  0 <= y < 10000 -> 0 <= m < 100 -> 0 <= d < 100 ->
  parse_isoformat_date (format_date y m d) = Some (y, m, d).
Proof.
  intros Hy Hm Hd. unfold parse_isoformat_date, format_date.
  str_norm. by rewrite !parse_digits_pad by (simpl; lia).
Qed.

Lemma parse_fraction_fraction us :
  0 <= us < 1000000 -> parse_fraction (fraction us) = Some us.
Proof.
  intros Hus. unfold fraction. destruct (Z.eqb_spec us 0) as [-> | Hne].
  - reflexivity.
  - simpl. rewrite ?length_pad. by apply parse_digits_pad.
Qed.

Lemma length_fraction us :
  String.length (fraction us) = if us =? 0 then 0%nat else 7%nat.
Proof. unfold fraction. destruct (us =? 0); [reflexivity |]. simpl. by rewrite ?length_pad. Qed.

Lemma parse_hms_full hh mm ss us :
  0 <= hh < 100 -> 0 <= mm < 100 -> 0 <= ss < 100 -> 0 <= us < 1000000 ->
  parse_hh_mm_ss_ff (pad 2 hh +:+ ":" +:+ pad 2 mm +:+ ":" +:+ pad 2 ss +:+ fraction us)
  = Some (hh, mm, ss, us).
Proof.
  intros Hh Hm Hs Hus. unfold parse_hh_mm_ss_ff.
  str_norm. rewrite !parse_digits_pad by (simpl; lia). simpl.
  by rewrite parse_fraction_fraction.
Qed.

Lemma parse_hms_short hh mm :
  0 <= hh < 100 -> 0 <= mm < 100 ->
  parse_hh_mm_ss_ff (pad 2 hh +:+ ":" +:+ pad 2 mm) = Some (hh, mm, 0, 0).
Proof.
  intros Hh Hm. unfold parse_hh_mm_ss_ff.
  rewrite <- (str_app_empty_r (pad 2 mm)).
  str_norm. by rewrite !parse_digits_pad by (simpl; lia).
Qed.

Lemma find_one a c : a <> c -> PyStr.find c (String a "") = None.
Proof. intros H. unfold PyStr.find. apply Ascii.eqb_neq in H. by rewrite H. Qed.

Lemma find_format_time c hh mm ss us :
  char_digit c = None -> c <> "?"%char -> c <> ":"%char -> c <> "."%char ->
  PyStr.find c (format_time hh mm ss us) = None.
Proof.
  intros Hc Hq Hcolon Hdot. unfold format_time.
  repeat (apply find_absent_app;
          [first [by apply find_pad | by apply find_one] |]).
  destruct (us =? 0); [reflexivity |].
  apply find_absent_app; [by apply find_one | by apply find_pad].
Qed.

Lemma length_format_time hh mm ss us :
  String.length (format_time hh mm ss us)
  = if us =? 0 then 8%nat else 15%nat.
Proof.
  unfold format_time. rewrite !str_length_app, !length_pad.
  destruct (us =? 0); simpl; [reflexivity |]. by rewrite ?length_pad.
Qed.

Lemma parse_tz_format negative a :
  0 <= a < day_micros ->
  parse_tz negative (format_offset_abs a) = Some (if negative then - a else a).
Proof.
  intros Ha. unfold day_micros in Ha. unfold format_offset_abs.
  set (hh := a / 3600000000). set (mm := a mod 3600000000 / 60000000).
  set (ss := a mod 60000000 / 1000000). set (us := a mod 1000000).
  assert (0 <= hh < 100) by (subst hh; Z.to_euclidean_division_equations; lia).
  assert (0 <= mm < 60) by (subst mm; Z.to_euclidean_division_equations; lia).
  assert (0 <= ss < 60) by (subst ss; Z.to_euclidean_division_equations; lia).
  assert (0 <= us < 1000000) by (subst us; Z.to_euclidean_division_equations; lia).
  assert (a = hh * 3600000000 + mm * 60000000 + ss * 1000000 + us) as Ea
    by (subst hh mm ss us; Z.to_euclidean_division_equations; lia).
  assert ((if negative then - (hh * 3600000000 + mm * 60000000 + ss * 1000000 + us)
           else hh * 3600000000 + mm * 60000000 + ss * 1000000 + us)
          = if negative then - a else a) as Eoff by (by rewrite <- Ea).
  clearbody hh mm ss us. unfold parse_tz.
  destruct (Z.eqb_spec ss 0) as [-> | Hss];
    [destruct (Z.eqb_spec us 0) as [-> | Hus] |]; simpl andb; cbv iota.
  - rewrite (str_app_empty_r (pad 2 mm)).
    replace (String.length (pad 2 hh +:+ ":" +:+ pad 2 mm)) with 5%nat by len_side.
    cbv iota. rewrite parse_hms_short by lia. simpl. by rewrite <- Eoff.
  - replace ("." +:+ pad 6 us) with (fraction us)
      by (unfold fraction; by destruct (Z.eqb_spec us 0)).
    replace (String.length _) with 15%nat
      by (rewrite !str_length_app, !length_pad, length_fraction;
          by destruct (Z.eqb_spec us 0)).
    cbv iota. rewrite parse_hms_full by lia. simpl. by rewrite <- Eoff.
  - fold (fraction us).
    assert (String.length (pad 2 hh +:+ ":" +:+ pad 2 mm +:+ ":" +:+ pad 2 ss +:+ fraction us)
            = if us =? 0 then 8%nat else 15%nat) as ->
      by (rewrite !str_length_app, !length_pad, length_fraction; by destruct (us =? 0)).
    destruct (us =? 0); cbv iota; rewrite parse_hms_full by lia; simpl;
      by rewrite <- Eoff.
Qed.

Lemma find_format_offset_abs c a :
  char_digit c = None -> c <> "?"%char -> c <> ":"%char -> c <> "."%char ->
  PyStr.find c (format_offset_abs a) = None.
Proof.
  intros Hc Hq Hcolon Hdot. unfold format_offset_abs.
  repeat (apply find_absent_app;
          [first [by apply find_pad | by apply find_one] |]).
  destruct (_ && _); [reflexivity |].
  repeat (apply find_absent_app;
          [first [by apply find_pad | by apply find_one] |]).
  destruct (_ =? 0); [reflexivity |].
  apply find_absent_app; [by apply find_one | by apply find_pad].
Qed.

Lemma take_app_exact (p s : string) : PyStr.take (String.length p) (p +:+ s) = p.
Proof. by apply substring_here. Qed.

Lemma parse_time_roundtrip hh mm ss us tz :
  0 <= hh < 100 -> 0 <= mm < 100 -> 0 <= ss < 100 -> 0 <= us < 1000000 ->
  (forall off, tz = Some off -> - day_micros < off < day_micros) ->
  parse_isoformat_time (format_time hh mm ss us +:+ format_offset tz)
  = Some (hh, mm, ss, us, tz).
Proof.
  intros Hh Hm Hs Hus Htz. unfold parse_isoformat_time.
  set (ft := format_time hh mm ss us).
  assert (parse_hh_mm_ss_ff ft = Some (hh, mm, ss, us)) as Hft
    by (by apply parse_hms_full).
  assert (PyStr.find "-" ft = None) as Hminus by (by apply find_format_time).
  assert (PyStr.find "+" ft = None) as Hplus by (by apply find_format_time).
  assert (forall r, (String.length (ft +:+ r) <? 2)%nat = false) as ->.
  { intros r. subst ft. rewrite str_length_app, length_format_time.
    by destruct (us =? 0). }
  destruct tz as [off |]; unfold format_offset.
  - specialize (Htz off eq_refl).
    destruct (Z.ltb_spec off 0) as [Hneg | Hpos].
    + rewrite (find_app_absent "-" ft) by done.
      change (PyStr.find "-" ("-" +:+ format_offset_abs (Z.abs off))) with (Some 0%nat).
      cbn [fmap option_fmap option_map]. rewrite Nat.add_0_r.
      rewrite take_app_exact, Hft. cbn [mbind option_bind].
      rewrite (drop_skip ft) by lia.
      replace (S (String.length ft) - String.length ft)%nat with 1%nat by lia.
      change (PyStr.drop 1 ("-" +:+ ?x)) with x.
      rewrite parse_tz_format by lia. cbn [mbind option_bind].
      do 3 f_equal. lia.
    + rewrite (find_absent_app "-" ft)
        by (first [done
                  | apply (find_absent_app _ "+"); [done | by apply find_format_offset_abs]]).
      rewrite (find_app_absent "+" ft) by done.
      change (PyStr.find "+" ("+" +:+ format_offset_abs (Z.abs off))) with (Some 0%nat).
      cbn [fmap option_fmap option_map]. rewrite Nat.add_0_r.
      rewrite take_app_exact, Hft. cbn [mbind option_bind].
      rewrite (drop_skip ft) by lia.
      replace (S (String.length ft) - String.length ft)%nat with 1%nat by lia.
      change (PyStr.drop 1 ("+" +:+ ?x)) with x.
      rewrite parse_tz_format by lia. cbn [mbind option_bind].
      do 3 f_equal. lia.
  - rewrite str_app_empty_r.
    by rewrite Hminus, Hplus, Hft.
Qed.

Lemma valid_ranges t :
  valid t = true ->
  0 <= year t < 10000 /\ 0 <= month t < 100 /\ 0 <= day t < 100
  /\ 0 <= hour t < 100 /\ 0 <= minute t < 100 /\ 0 <= second t < 100
  /\ 0 <= microsecond t < 1000000
  /\ (forall off, tzinfo t = Some off -> - day_micros < off < day_micros).
Proof.
  destruct t as [y mo d h mi s us tz]. unfold valid. simpl.
  rewrite !andb_true_iff. intros H.
  repeat match goal with H : _ /\ _ |- _ => destruct H end.
  assert (days_in_month y mo <= 31)
    by (unfold days_in_month; repeat case_match; lia).
  repeat split; try lia; subst tz; apply andb_true_iff in H0; lia.
Qed.

(** [fromisoformat] inverts [isoformat]. *)
Theorem fromisoformat_isoformat t :
  valid t = true -> fromisoformat (isoformat t) = Some t.
Proof.
  intros Hv. destruct (valid_ranges t Hv) as (Hy & Hmo & Hd & Hh & Hmi & Hs & Hus & Htz).
  unfold fromisoformat, isoformat.
  assert (forall r, (String.length (format_date (year t) (month t) (day t)
                                    +:+ "T" +:+ r) <=? 10)%nat = false) as ->.
  { intros r. rewrite !str_length_app, length_format_date.
    apply Nat.leb_gt. simpl. lia. }
  unfold PyStr.slice. rewrite substring_here by (by rewrite length_format_date).
  rewrite parse_format_date by done. cbn [mbind option_bind].
  rewrite drop_skip by (rewrite length_format_date; lia).
  rewrite length_format_date.
  change (PyStr.drop (11 - 10) ("T" +:+ ?x)) with x.
  rewrite parse_time_roundtrip by done. cbn [mbind option_bind].
  destruct t; simpl in *. by rewrite Hv.
Qed.

End DatetimeFacts.

(** * The checkpoint store *)

Module TrackerFacts.
Import Datetime TimestampTracker Notions DatetimeFacts.

(** Unfolding one sequencing step of [M]. *)
Lemma bind_run {A B} (m : M A) (k : A -> M B) (w : world) :
  (m ≫= k) w = match m w with
               | (Ok a, w') => k a w'
               | (Raise e, w') => (Raise e, w')
               end.
Proof. reflexivity. Qed.

Lemma bind_ok {A B} (m : M A) (k : A -> M B) (w w' : world) (a : A) :
  m w = (Ok a, w') -> (m ≫= k) w = k a w'.
Proof. intros H. by rewrite bind_run, H. Qed.

Lemma bind_raise {A B} (m : M A) (k : A -> M B) (w w' : world) (e : exn) :
  m w = (Raise e, w') -> (m ≫= k) w = (Raise e, w').
Proof. intros H. by rewrite bind_run, H. Qed.

Lemma bind_lift_ok {A B} (a : A) (k : A -> M B) (w : world) :
  (lift (Ok a) ≫= k) w = k a w.
Proof. reflexivity. Qed.

Lemma bind_lift_raise {A B} (e : exn) (k : A -> M B) (w : world) :
  (lift (Raise e) ≫= k) w = (Raise e, w).
Proof. reflexivity. Qed.

Lemma bind_mret {A B} (a : A) (k : A -> M B) (w : world) :
  (mret a ≫= k) w = k a w.
Proof. reflexivity. Qed.

Lemma load_run w : _load_timestamp_data w = (Ok (loaded (timestamp_file w)), w).
Proof.
  unfold _load_timestamp_data, try_except_all, loaded.
  by destruct (timestamp_file w).
Qed.

Lemma get_run c w :
  get_last_check_timestamp c w
  = (read_checkpoint (loaded (timestamp_file w)) (key_of c), w).
Proof.
  unfold get_last_check_timestamp. rewrite (bind_ok _ _ _ _ _ (load_run w)).
  unfold read_checkpoint. destruct (loaded (timestamp_file w)) as [| | | | |d];
    try reflexivity.
  rewrite bind_run. unfold lift, py_get, try_except.
  destruct (default PNone (d !! key_of c)) as [|b|z|s|l|d'] eqn:E;
    try reflexivity.
  - by destruct b.
  - simpl. by destruct (z =? 0).
  - simpl. destruct s; [reflexivity |]. by destruct (fromisoformat _).
  - simpl. by destruct l.
  - simpl. by destruct (map_to_list d').
Qed.

Lemma read_checkpoint_insert d key s :
  read_checkpoint (PDict (<[key := PStr s]> d)) key
  = Ok (if PyStr.nonempty s then fromisoformat s else None).
Proof. unfold read_checkpoint. by rewrite lookup_insert_eq. Qed.

Lemma read_checkpoint_insert_ne d key key' v :
  key <> key' ->
  read_checkpoint (PDict (<[key := v]> d)) key' = read_checkpoint (PDict d) key'.
Proof. intros H. unfold read_checkpoint. by rewrite lookup_insert_ne. Qed.

(** Reading never changes the world. *)
Lemma get_read_only c w : (get_last_check_timestamp c w).2 = w.
Proof. by rewrite get_run. Qed.

Lemma should_process_run t c w :
  should_process_message t c w
  = (match read_checkpoint (loaded (timestamp_file w)) (key_of c) with
     | Ok None => Ok true
     | Ok (Some last) => gt (ensure_aware t) (ensure_aware last)
     | Raise e => Raise e
     end, w).
Proof.
  unfold should_process_message. rewrite bind_run, get_run.
  destruct (read_checkpoint _ _) as [[last |] | e]; reflexivity.
Qed.

Lemma ensure_aware_tz t : tzinfo (ensure_aware t) <> None.
Proof. unfold ensure_aware. by destruct (tzinfo t) eqn:E; simpl; rewrite ?E. Qed.

Lemma ensure_aware_id t : tzinfo t <> None -> ensure_aware t = t.
Proof. unfold ensure_aware. by destruct (tzinfo t). Qed.

Lemma ensure_aware_idem t : ensure_aware (ensure_aware t) = ensure_aware t.
Proof. apply ensure_aware_id, ensure_aware_tz. Qed.

Lemma gt_aware a b :
  gt (ensure_aware a) (ensure_aware b)
  = Ok (utc_micros (ensure_aware b) <? utc_micros (ensure_aware a)).
Proof.
  unfold gt. pose proof (ensure_aware_tz a). pose proof (ensure_aware_tz b).
  destruct (tzinfo (ensure_aware a)), (tzinfo (ensure_aware b)); done.
Qed.

Lemma valid_ensure_aware t : valid t = true -> valid (ensure_aware t) = true.
Proof.
  unfold ensure_aware. destruct (tzinfo t) eqn:E; [done |].
  unfold valid, replace_tz_utc. simpl. rewrite E, andb_true_r.
  intros ->. reflexivity.
Qed.

Lemma nonempty_isoformat t : PyStr.nonempty (isoformat t) = true.
Proof. unfold isoformat, format_date. reflexivity. Qed.

(** What [update_last_check_timestamp] does to a world whose timestamp
    file can be written. *)
Lemma update_run clock c t w d :
  loaded (timestamp_file w) = PDict d ->
  update_last_check_timestamp clock c (Some t) w
  = _save_timestamp_data
      (PDict (<[key_of c := PStr (isoformat (ensure_aware t))]> d)) w.
Proof.
  intros Hd. unfold update_last_check_timestamp.
  rewrite (bind_ok _ _ _ _ _ (load_run w)), Hd. reflexivity.
Qed.

Lemma update_run_any clock c ts w :
  update_last_check_timestamp clock c ts w
  = match loaded (timestamp_file w) with
    | PDict d =>
        _save_timestamp_data
          (PDict (<[key_of c :=
                     PStr (isoformat (ensure_aware (stamp clock ts w).1))]> d))
          (stamp clock ts w).2
    | _ => (Raise TypeError, (stamp clock ts w).2)
    end.
Proof.
  unfold update_last_check_timestamp.
  rewrite (bind_ok _ _ _ _ _ (load_run w)).
  destruct ts as [t |]; rewrite bind_run; unfold stamp, now; simpl;
    by destruct (loaded (timestamp_file w)).
Qed.

(** An update leaves the entries under other keys as they were. *)
Lemma update_other_key clock c ts w key :
  key <> key_of c ->
  stored_entry (update_last_check_timestamp clock c ts w).2 key
  = stored_entry w key.
Proof.
  intros Hne. rewrite update_run_any. unfold stored_entry.
  assert (timestamp_file (stamp clock ts w).2 = timestamp_file w) as Hf
    by (by destruct ts).
  assert (timestamp_writable (stamp clock ts w).2 = timestamp_writable w) as Hw
    by (by destruct ts).
  destruct (loaded (timestamp_file w)) as [| | | | |d] eqn:Hd; simpl;
    rewrite ?Hf, ?Hd; try reflexivity.
  unfold _save_timestamp_data. rewrite Hw.
  destruct (timestamp_writable w); simpl; rewrite ?Hf, ?Hd; [| reflexivity].
  by rewrite lookup_insert_ne.
Qed.

End TrackerFacts.

(** * The coordinator *)

Module CoordinatorFacts.
Import Datetime TimestampTracker AgentEnhanced Notions DatetimeFacts TrackerFacts.

Lemma quiet_refl w : quiet w w.
Proof. repeat split. exists []. by split. Qed.

Lemma quiet_trans w1 w2 w3 : quiet w1 w2 -> quiet w2 w3 -> quiet w1 w3.
Proof.
  intros (a1 & b1 & c1 & d1 & evs1 & t1 & F1) (a2 & b2 & c2 & d2 & evs2 & t2 & F2).
  repeat split; try congruence.
  exists (evs2 ++ evs1)%list. split.
  - by rewrite t2, t1, app_assoc.
  - by apply Forall_app.
Qed.

Lemma quiet_ticks n w : quiet w (set_ticks n w).
Proof. repeat split. exists []. by split. Qed.

Lemma quiet_log e w : is_external e -> quiet w (log e w).
Proof. intros H. repeat split. exists [e]. split; [done |]. by constructor. Qed.

Lemma now_run clock w :
  now clock w = (Ok (clock (ticks w)), set_ticks (S (ticks w)) w).
Proof. reflexivity. Qed.

(** A dictionary with an entry is a true value. *)
Lemma truthy_dict (d : gmap string pyval) k v :
  d !! k = Some v -> truthy (PDict d) = true.
Proof.
  intros H. simpl. destruct (map_to_list d) eqn:E; [| done].
  apply map_to_list_empty_iff in E. subst. by rewrite lookup_empty in H.
Qed.

Section Facts.

Variable E : env.

(** Enrichment keeps the url of the record. *)
Lemma merge_keeps_url p (basic r : gmap string pyval) e :
  merge_enhanced p basic e = Ok r -> r !! "url" = basic !! "url".
Proof.
  unfold merge_enhanced. destruct e; try discriminate.
  intros [= <-]. by rewrite !lookup_insert_ne.
Qed.

Lemma enhance_keeps_url S P url html (basic : gmap string pyval) :
  SimpleLLMProcessor.enhance_article_extraction S P url html basic !! "url"
  = basic !! "url".
Proof.
  unfold SimpleLLMProcessor.enhance_article_extraction, not_enhanced.
  destruct (negb _); [by rewrite lookup_insert_ne |].
  destruct (PyStr.nonempty _); [| by rewrite lookup_insert_ne].
  destruct (json_loads _ _) as [e |]; [| by rewrite lookup_insert_ne].
  destruct (merge_enhanced _ _ _) as [r | ?] eqn:Hm;
    [| by rewrite lookup_insert_ne].
  by apply merge_keeps_url in Hm.
Qed.

(** The resolver never raises, and its record bears the url. *)
Lemma extract_article_content_run url w :
  exists r w',
    extract_article_content E url w = (Ok r, w')
    /\ quiet w w'
    /\ r !! "url" = Some (PStr url).
Proof.
  unfold extract_article_content. rewrite bind_run. unfold modify.
  assert (quiet w (log (EvFetch url) w)) as Hq by (by apply quiet_log).
  destruct (http_get E url) as [soup | e message].
  - unfold scrape. rewrite bind_run, now_run.
    set (w1 := set_ticks _ _).
    assert (quiet w w1) as Hq1
      by (eapply quiet_trans; [exact Hq | apply quiet_ticks]).
    destruct (SimpleLLMProcessor.is_available (llm_processor E)).
    + eexists _, _. split; [reflexivity |]. split; [exact Hq1 |].
      by rewrite enhance_keeps_url.
    + eexists _, _. split; [reflexivity |]. split; [exact Hq1 |].
      by rewrite lookup_insert_ne.
  - rewrite bind_run, now_run.
    eexists _, _. split; [reflexivity |]. split; [| done].
    eapply quiet_trans; [exact Hq | apply quiet_ticks].
Qed.

(** One record per extracted url, in order, none dropped. *)
Lemma process_urls_run urls sender_name w :
  exists arts w',
    process_urls E urls sender_name w = (Ok arts, w')
    /\ quiet w w'
    /\ Forall2 (fun u a => a !! "url" = Some (PStr u)
                          /\ a !! "sender" = Some sender_name) urls arts.
Proof.
  revert w. induction urls as [| url rest IH]; intros w.
  - exists [], w. split; [reflexivity |]. split; [apply quiet_refl | constructor].
  - destruct (extract_article_content_run url w) as (r & w1 & Hr & Hq1 & Hurl).
    destruct (IH w1) as (arts & w2 & Hrest & Hq2 & Hall).
    exists (<["sender" := sender_name]> r :: arts), w2.
    split; [| split].
    + cbn [process_urls]. rewrite bind_run. unfold try_except_all.
      rewrite bind_run, Hr. rewrite (truthy_dict _ _ _ Hurl).
      unfold mret, M_ret. rewrite bind_run, Hrest. reflexivity.
    + by eapply quiet_trans.
    + constructor; [| exact Hall]. split.
      * by rewrite lookup_insert_ne.
      * by rewrite lookup_insert_eq.
Qed.

Lemma process_urls_in_message_run text sender_name w :
  exists arts w',
    process_urls_in_message E text sender_name w = (Ok arts, w')
    /\ quiet w w'
    /\ Forall2 (fun u a => a !! "url" = Some (PStr u)
                          /\ a !! "sender" = Some sender_name)
               (extract_urls_from_text text) arts.
Proof.
  unfold process_urls_in_message.
  destruct (extract_urls_from_text text) as [| u urls] eqn:Hu.
  - exists [], w. split; [reflexivity |]. split; [apply quiet_refl | constructor].
  - apply process_urls_run.
Qed.

Lemma create_odt_run article w :
  exists w', create_odt E article w = (Ok tt, w') /\ quiet w w'.
Proof.
  unfold create_odt. rewrite bind_run, now_run, bind_run. unfold modify.
  unfold try_except_all.
  eexists. split.
  - destruct (odt_writer E (PDict article)); reflexivity.
  - eapply quiet_trans; [apply quiet_ticks | by apply quiet_log].
Qed.

(** Every article is appended to a list. *)
Lemma append_articles_run l arts w :
  exists w',
    append_articles E (PList l) arts w
    = (Ok (PList (l ++ map PDict arts)), w')
    /\ quiet w w'.
Proof.
  revert l w. induction arts as [| a rest IH]; intros l w.
  - exists w. split; [| apply quiet_refl]. simpl. by rewrite app_nil_r.
  - destruct (create_odt_run a w) as (w1 & Hodt & Hq1).
    destruct (IH (l ++ [PDict a]) w1) as (w2 & Hrest & Hq2).
    exists w2. split; [| by eapply quiet_trans].
    cbn [append_articles]. simpl py_append. rewrite bind_lift_ok.
    rewrite bind_run, Hodt, Hrest. by rewrite <- app_assoc.
Qed.

(** The analysis of a message is a dictionary that holds the flag. *)
Lemma summarize_message_dict S P text sender_name :
  exists d,
    SimpleLLMProcessor.summarize_message S P text sender_name = PDict d
    /\ is_Some (d !! "enhanced_by_llm").
Proof.
  unfold SimpleLLMProcessor.summarize_message.
  destruct (_ || _); [by eexists |].
  destruct (PyStr.nonempty _); [| by eexists].
  destruct (json_loads _ _) as [a |]; [| by eexists].
  destruct (tag_analysis _ _ _ a) as [r | ?] eqn:Ht; [| by eexists].
  unfold tag_analysis in Ht. destruct a; try discriminate.
  simpl in Ht. injection Ht as <-. eexists. split; [reflexivity |].
  rewrite !lookup_insert_ne by done. by rewrite lookup_insert_eq.
Qed.

Lemma process_message_content_run text sender_name w :
  exists o w',
    process_message_content E text sender_name w = (Ok o, w')
    /\ quiet w w'
    /\ (PyStr.nonempty (PyStr.strip text) = false -> o = None)
    /\ (PyStr.nonempty (PyStr.strip text) = true ->
        exists d, o = Some (PDict d) /\ is_Some (d !! "enhanced_by_llm")).
Proof.
  unfold process_message_content.
  destruct (PyStr.nonempty (PyStr.strip text)); cbn [negb].
  - destruct (SimpleLLMProcessor.is_available (llm_processor E)); cbn [negb].
    + destruct (summarize_message_dict (llm_service E) (llm_processor E)
                  text sender_name) as (d & -> & Hd).
      eexists _, w. split; [reflexivity |]. split; [apply quiet_refl |].
      split; [done |]. intros _. by exists d.
    + rewrite bind_run, now_run.
      eexists _, _. split; [reflexivity |]. split; [apply quiet_ticks |].
      split; [done |]. intros _. eexists. split; [reflexivity | by eexists].
  - exists None, w. split; [reflexivity |]. split; [apply quiet_refl |].
    split; [done | discriminate].
Qed.

Lemma load_existing_publications_run w l :
  stored_publications (publications_file w) = Some l ->
  load_existing_publications w = (Ok (PList l), w).
Proof.
  unfold stored_publications, load_existing_publications, try_except.
  destruct (publications_file w) as [| | | []];
    intros [= <-] || discriminate; reflexivity.
Qed.

(** The save of the batch, when there is one, then the checkpoint. *)
Lemma save_then_update new_items_added publications c date w :
  ((if new_items_added : bool
    then save_publications publications ≫= fun _ => mret tt
    else mret tt)
   ≫= fun _ => update_last_check_timestamp (clock E) c (Some date)) w
  = update_last_check_timestamp (clock E) c (Some date)
      (persist new_items_added publications w).
Proof.
  unfold persist. destruct new_items_added; [| reflexivity].
  rewrite !bind_run. unfold save_publications.
  by destruct (publications_writable w).
Qed.

Lemma save_then_update_true publications c date w :
  ((save_publications publications ≫= fun _ => mret tt)
   ≫= fun _ => update_last_check_timestamp (clock E) c (Some date)) w
  = update_last_check_timestamp (clock E) c (Some date)
      (persist true publications w).
Proof. apply (save_then_update true). Qed.

(** The handler swallows whatever its body raises. *)
Lemma swallow (r : result unit * world) :
  (let (x, w') := r in
   match x with
   | Ok a => (Ok a, w')
   | Raise _ => (mret tt : M unit) w'
   end) = (Ok tt, r.2).
Proof. by destruct r as [[[] | e] w']. Qed.

(** What the handler does with a message that passes the filter, in a
    world whose publication store loads as a list. *)
Lemma handle_accepted m w s l :
  let tracking := tracking_chat_id (TELEGRAM_CHAT_ID E) in
  let date := ensure_aware (msg_date m) in
  let text := default "" (msg_text m) in
  msg_sender m = Ok s ->
  should_process_message date (ChatStr tracking) w = (Ok true, w) ->
  stored_publications (publications_file w) = Some l ->
  exists w1 arts analysis,
    quiet w w1
    /\ Forall2 (fun u a => a !! "url" = Some (PStr u)
                          /\ a !! "sender" = Some (sender_first_name s))
               (extract_urls_from_text text) arts
    /\ (PyStr.nonempty (PyStr.strip text) = false -> analysis = [])
    /\ (PyStr.nonempty (PyStr.strip text) = true ->
        exists d, analysis = [PDict d]
                  /\ d !! "message_date" = Some (PStr (isoformat date)))
    /\ handle_new_message E m w
       = (Ok tt,
          (update_last_check_timestamp (clock E) (ChatStr tracking) (Some date)
             (persist (negb (is_nil arts && is_nil analysis))
                      (PList (l ++ map PDict arts ++ analysis)) w1)).2).
Proof.
  intros tracking date text Hs Hacc Hl.
  destruct (process_urls_in_message_run text (sender_first_name s) w)
    as (arts & w1 & Harts & Hq1 & Hall).
  destruct (append_articles_run l arts w1) as (w2 & Happ & Hq2).
  destruct (process_message_content_run text (sender_first_name s) w2)
    as (o & w3 & Hpmc & Hq3 & Hnone & Hsome).
  assert (quiet w w3) as Hq by (eauto using quiet_trans).
  assert (load_existing_publications w = (Ok (PList l), w)) as Hload
    by (by apply load_existing_publications_run).
  unfold handle_new_message, try_except_all.
  rewrite Hs, bind_lift_ok.
  fold tracking date text.
  rewrite (bind_ok _ _ _ _ _ Hacc). cbn [negb].
  rewrite (bind_ok _ _ _ _ _ Hload).
  rewrite (bind_ok _ _ _ _ _ Harts).
  rewrite (bind_ok _ _ _ _ _ Happ).
  rewrite (bind_ok _ _ _ _ _ Hpmc).
  destruct (PyStr.nonempty (PyStr.strip text)) eqn:Hstrip.
  - destruct (Hsome eq_refl) as (d & -> & Hd).
    destruct Hd as [v Hd].
    set (a := PDict (<["chat_id" := PStr tracking]>
                      (<["message_date" := PStr (isoformat date)]> d))).
    match goal with |- context [mbind ?k ?step w3] =>
      assert (step w3 = (Ok (PList ((l ++ map PDict arts) ++ [a]), true), w3))
        as Hstep by (by rewrite (truthy_dict _ _ _ Hd))
    end.
    rewrite (bind_ok _ _ _ _ _ Hstep). cbv beta iota.
    exists w3, arts, [a].
    split; [exact Hq |]. split; [exact Hall |]. split; [done |].
    split.
    + intros _. eexists. split; [reflexivity |].
      by rewrite lookup_insert_ne, lookup_insert_eq.
    + replace (match arts with [] => true | _ :: _ => true end) with true
        by (by destruct arts).
      rewrite save_then_update_true, swallow.
      rewrite andb_false_r. cbn [negb]. by rewrite <- app_assoc.
  - rewrite (Hnone eq_refl), bind_mret. cbv beta iota.
    exists w3, arts, []. split; [exact Hq |]. split; [exact Hall |].
    split; [done |]. split; [discriminate |].
    rewrite !app_nil_r.
    destruct arts as [| a arts]; cbn [is_nil andb negb].
    + by rewrite bind_mret, swallow.
    + by rewrite save_then_update_true, swallow.
Qed.

(** A message that does not pass the filter leaves the world as it is. *)
Lemma handle_filtered m w s :
  msg_sender m = Ok s ->
  should_process_message (ensure_aware (msg_date m))
    (ChatStr (tracking_chat_id (TELEGRAM_CHAT_ID E))) w = (Ok false, w) ->
  handle_new_message E m w = (Ok tt, w).
Proof.
  intros Hs Hskip. unfold handle_new_message, try_except_all.
  by rewrite Hs, bind_lift_ok, (bind_ok _ _ _ _ _ Hskip).
Qed.

Lemma persist_run new_items_added publications w :
  timestamp_file (persist new_items_added publications w) = timestamp_file w
  /\ timestamp_writable (persist new_items_added publications w)
     = timestamp_writable w
  /\ publications_writable (persist new_items_added publications w)
     = publications_writable w
  /\ ticks (persist new_items_added publications w) = ticks w
  /\ trace (persist new_items_added publications w)
     = persist_events new_items_added publications w ++ trace w
  /\ publications_file (persist new_items_added publications w)
     = if new_items_added && publications_writable w
       then FileJson publications else publications_file w.
Proof.
  unfold persist, persist_events, save_publications.
  destruct new_items_added; [| done].
  destruct (publications_writable w) eqn:Hw; cbn; rewrite ?Hw; done.
Qed.

(** A filter that answered read a JSON object, or nothing. *)
Lemma should_process_loaded t c w b :
  should_process_message t c w = (Ok b, w) ->
  exists d, loaded (timestamp_file w) = PDict d.
Proof.
  rewrite should_process_run. unfold read_checkpoint.
  destruct (loaded (timestamp_file w)); try discriminate. by eexists.
Qed.


(** *** Every occurrence of a url is appended *)

Lemma count_url_app u l1 l2 :
  count_url u (l1 ++ l2) = (count_url u l1 + count_url u l2)%nat.
Proof. unfold count_url. by rewrite List.filter_app, List.length_app. Qed.

Lemma count_url_articles u urls (arts : list (gmap string pyval)) :
  Forall2 (fun u a => a !! "url" = Some (PStr u)) urls arts ->
  count_url u (map PDict arts) = occurrences u urls.
Proof.
  unfold count_url, occurrences.
  induction 1 as [| u' a urls arts Ha _ IH]; [reflexivity |].
  cbn [map List.filter]. unfold has_url at 1. cbn [field]. rewrite Ha.
  cbn [py_eq_str]. rewrite (String.eqb_sym u' u).
  destruct (String.eqb u u'); cbn [length]; by rewrite IH.
Qed.

Lemma update_keeps_publications c ts w :
  publications_file (update_last_check_timestamp (clock E) c ts w).2
  = publications_file w.
Proof.
  rewrite update_run_any.
  assert (publications_file (stamp (clock E) ts w).2 = publications_file w)
    as Hf by (by destruct ts).
  destruct (loaded (timestamp_file w)); try exact Hf.
  unfold _save_timestamp_data.
  by destruct (timestamp_writable _).
Qed.

(** With a store that can be written, an accepted message leaves one more
    record for every occurrence of a url in its text, whatever the store
    already held. *)
Lemma handle_appends_every_occurrence m w s l u :
  msg_sender m = Ok s ->
  should_process_message (sent_at m)
    (ChatStr (tracking_chat_id (TELEGRAM_CHAT_ID E))) w = (Ok true, w) ->
  stored_publications (publications_file w) = Some l ->
  publications_writable w = true ->
  In u (extract_urls_from_text (default "" (msg_text m))) ->
  (count_url u l
   + occurrences u (extract_urls_from_text (default "" (msg_text m)))
   <= count_url u (store_records (handle_new_message E m w).2))%nat.
Proof.
  intros Hs Hacc Hl Hw Hin.
  destruct (handle_accepted m w s l Hs Hacc Hl)
    as (w1 & arts & analysis & Hq & Hall & _ & _ & Hrun).
  rewrite Hrun. cbn [snd]. unfold store_records.
  rewrite update_keeps_publications.
  destruct Hq as (_ & _ & _ & Hq4 & _).
  destruct (persist_run (negb (is_nil arts && is_nil analysis))
              (PList (l ++ map PDict arts ++ analysis)) w1)
    as (_ & _ & _ & _ & _ & ->).
  assert (arts <> []) as Harts.
  { intros ->. apply Forall2_nil_inv_r in Hall. rewrite Hall in Hin.
    destruct Hin. }
  destruct arts as [| a arts]; [done |]. cbn [is_nil andb negb].
  rewrite Hq4, Hw. rewrite !count_url_app.
  rewrite (count_url_articles u
             (extract_urls_from_text (default "" (msg_text m))) (a :: arts));
    [lia |].
  eapply Forall2_impl; [exact Hall |]. by intros ? ? [? _].
Qed.

(** *** The backfill scan *)






End Facts.

End CoordinatorFacts.

(** * The claims about the checkpoint store *)

Import Datetime TimestampTracker Notions Examples DatetimeFacts TrackerFacts.



(** C7. When the checkpoint backing file is missing, unreadable or
    corrupt, reading the checkpoint raises nothing and finds no
    checkpoint, so that [should_process_message] answers true for every
    message timestamp. *)
Theorem C7_degraded_file_reads_as_no_checkpoint (c : chat_id) (w : world) :
  degraded (timestamp_file w) ->
  get_last_check_timestamp c w = (Ok None, w)
  /\ forall t : datetime, should_process_message t c w = (Ok true, w).
Proof.
  intros Hdeg.
  assert (loaded (timestamp_file w) = PDict ∅) as Hload
    by (by destruct Hdeg as [-> | [-> | ->]]).
  split.
  - rewrite get_run, Hload. unfold read_checkpoint.
    by rewrite lookup_empty.
  - intros t. rewrite should_process_run, Hload. unfold read_checkpoint.
    by rewrite lookup_empty.
Qed.

Lemma C7_witness :
  degraded (timestamp_file w_corrupt)
  /\ get_last_check_timestamp (ChatStr "me") w_corrupt = (Ok None, w_corrupt)
  /\ should_process_message (at_second 5) (ChatStr "me") w_corrupt
     = (Ok true, w_corrupt).
Proof.
  assert (degraded (timestamp_file w_corrupt)) as H
    by (right; right; reflexivity).
  split; [exact H |].
  split; [exact (proj1 (C7_degraded_file_reads_as_no_checkpoint _ _ H)) |].
  exact (proj2 (C7_degraded_file_reads_as_no_checkpoint _ _ H) _).
Defined.



(** C10. In every checkpoint-store operation a falsy chat id, that is
    [None], [0] or the empty string, is mapped to the key ["global"]:
    [get_last_check_timestamp] and [should_process_message] read the entry
    ["global"] of the file and no other (an entry under ["0"] is never
    looked at), and [update_last_check_timestamp] writes the entry
    ["global"] and no other. So the chat whose numeric id is 0 shares its
    checkpoint with the global scope: what is written for one falsy id is
    read back for every falsy id, and no update made for chat 0 creates
    or changes an entry of its own. *)
Theorem C10_falsy_chat_id_is_global (c : chat_id) (w : world)
    (d : gmap string pyval) :
  c = ChatNone \/ c = ChatInt 0 \/ c = ChatStr "" ->
  loaded (timestamp_file w) = PDict d ->
  (forall T : datetime,
     valid T = true ->
     d !! "global" = Some (PStr (isoformat T)) ->
     get_last_check_timestamp c w = (Ok (Some T), w)
     /\ forall t : datetime,
          should_process_message t c w
          = (Ok (utc_micros (ensure_aware T) <? utc_micros (ensure_aware t)),
             w))
  /\ (d !! "global" = None ->
      get_last_check_timestamp c w = (Ok None, w)
      /\ forall t : datetime, should_process_message t c w = (Ok true, w))
  /\ (forall (clock : nat -> datetime) (t : datetime),
        valid t = true ->
        timestamp_writable w = true ->
        exists w' : world,
          update_last_check_timestamp clock c (Some t) w = (Ok tt, w')
          /\ stored_entry w' "global"
             = Some (PStr (isoformat (ensure_aware t)))
          /\ (forall k : string,
                k <> "global" -> stored_entry w' k = stored_entry w k)
          /\ forall c' : chat_id,
               c' = ChatNone \/ c' = ChatInt 0 \/ c' = ChatStr "" ->
               get_last_check_timestamp c' w'
               = (Ok (Some (ensure_aware t)), w')).
Proof.
  intros Hc Hd.
  assert (forall c', c' = ChatNone \/ c' = ChatInt 0 \/ c' = ChatStr "" ->
                     key_of c' = "global") as Hkey
    by (by intros c' [-> | [-> | ->]]).
  split; [| split].
  - intros T HT Hglobal.
    assert (read_checkpoint (PDict d) "global" = Ok (Some T)) as Hread.
    { unfold read_checkpoint. rewrite Hglobal. cbn [default id].
      by rewrite nonempty_isoformat, fromisoformat_isoformat. }
    split.
    + by rewrite get_run, Hd, (Hkey c Hc), Hread.
    + intros t. rewrite should_process_run, Hd, (Hkey c Hc), Hread.
      by rewrite gt_aware.
  - intros Hglobal.
    assert (read_checkpoint (PDict d) "global" = Ok None) as Hread
      by (unfold read_checkpoint; by rewrite Hglobal).
    split.
    + by rewrite get_run, Hd, (Hkey c Hc), Hread.
    + intros t. by rewrite should_process_run, Hd, (Hkey c Hc), Hread.
  - intros clock t Ht Hw.
    rewrite (update_run clock c t w d Hd), (Hkey c Hc).
    unfold _save_timestamp_data. rewrite Hw.
    eexists. split; [reflexivity |].
    unfold stored_entry. cbn [timestamp_file log set_timestamp_file loaded].
    split; [by rewrite lookup_insert_eq |]. split.
    + intros k Hk. rewrite Hd. by rewrite lookup_insert_ne.
    + intros c' Hc'. rewrite get_run, (Hkey c' Hc').
      cbn [timestamp_file log set_timestamp_file loaded].
      rewrite read_checkpoint_insert, nonempty_isoformat.
      rewrite fromisoformat_isoformat; [reflexivity |].
      by apply valid_ensure_aware.
Qed.

Lemma C10_witness :
  (ChatInt 0 = ChatNone \/ ChatInt 0 = ChatInt 0 \/ ChatInt 0 = ChatStr "")
  /\ loaded (timestamp_file w_zero_and_global)
     = PDict (<["0" := PStr (isoformat (at_second 10))]>
              {["global" := PStr (isoformat (at_second 5))]})
  /\ get_last_check_timestamp (ChatInt 0) w_zero_and_global
     = (Ok (Some (at_second 5)), w_zero_and_global)
  /\ should_process_message (at_second 7) (ChatInt 0) w_zero_and_global
     = (Ok true, w_zero_and_global)
  /\ should_process_message (at_second 5) (ChatInt 0) w_zero_and_global
     = (Ok false, w_zero_and_global)
  /\ exists w' : world,
       update_last_check_timestamp clock_100 (ChatInt 0)
         (Some (at_second 40)) w_zero_and_global = (Ok tt, w')
       /\ stored_entry w' "global" = Some (PStr (isoformat (at_second 40)))
       /\ stored_entry w' "0" = Some (PStr (isoformat (at_second 10)))
       /\ get_last_check_timestamp ChatNone w'
          = (Ok (Some (at_second 40)), w').
Proof.
  assert (ChatInt 0 = ChatNone \/ ChatInt 0 = ChatInt 0
          \/ ChatInt 0 = ChatStr "") as Hc by (right; by left).
  destruct (C10_falsy_chat_id_is_global (ChatInt 0) w_zero_and_global _
              Hc eq_refl) as (Hread & _ & Hwrite).
  destruct (Hread (at_second 5) eq_refl eq_refl) as [Hget Hsp].
  destruct (Hwrite clock_100 (at_second 40) eq_refl eq_refl)
    as (w' & Hrun & Hglobal & Hframe & Hshared).
  split; [exact Hc |]. split; [reflexivity |]. split; [exact Hget |].
  split; [exact (Hsp (at_second 7)) |]. split; [exact (Hsp (at_second 5)) |].
  exists w'. split; [exact Hrun |]. split; [exact Hglobal |].
  split; [| exact (Hshared ChatNone (or_introl eq_refl))].
  rewrite (Hframe "0"); [reflexivity | discriminate].
Defined.

(** * The claims about the coordinator and the backfill scanner *)

Import AgentEnhanced CoordinatorFacts.

(** C1, as stated, fails: with a publication store that cannot be
    written, the handler accepts the message, the write of its batch
    fails, and the checkpoint is advanced all the same. *)
Lemma C1_counterexample :
  should_process_message (sent_at (m_at 30 "hello")) (ChatStr "me")
    w_store_readonly = (Ok true, w_store_readonly)
  /\ ~ checkpoint_kept_on_failed_write env_offline (m_at 30 "hello")
         w_store_readonly.
Proof.
  split; [vm_compute; reflexivity |].
  unfold checkpoint_kept_on_failed_write. intros H.
  assert (exists publications,
            In (EvPublicationsWrite publications false)
               (trace (handle_new_message env_offline (m_at 30 "hello")
                         w_store_readonly).2)) as Hfailed.
  { eexists. vm_compute. right. left. reflexivity. }
  specialize (H Hfailed). vm_compute in H. discriminate H.
Qed.

(** C1, amended. For every message accepted by the coordinator whose
    processing raises nothing (its sender resolves, the publication store
    loads as a list) and with a checkpoint file that can be written: the
    batch of the message is one record for each url of its text and one
    analysis record when the text is not blank; when the batch is not
    empty the handler attempts one write of the stored list followed by
    the batch (and the store holds exactly that when the write
    succeeds); and then, as its last effect and whether that write
    succeeded or failed, it updates the checkpoint of the message's chat
    key to the message's [sent_at]. *)
Theorem C1_checkpoint_follows_persist_attempt (E : env) (m : message)
    (w : world) (s : sender) (l : list pyval) :
  msg_sender m = Ok s ->
  valid (msg_date m) = true ->
  should_process_message (sent_at m)
    (ChatStr (tracking_chat_id (TELEGRAM_CHAT_ID E))) w = (Ok true, w) ->
  stored_publications (publications_file w) = Some l ->
  timestamp_writable w = true ->
  exists (w' : world) (arts : list (gmap string pyval))
         (analysis : list pyval) (external : list event) (data : pyval),
    handle_new_message E m w = (Ok tt, w')
    /\ Forall2 (fun u a => a !! "url" = Some (PStr u))
         (extract_urls_from_text (default "" (msg_text m))) arts
    /\ length analysis
       = (if PyStr.nonempty (PyStr.strip (default "" (msg_text m)))
          then 1 else 0)%nat
    /\ Forall is_external external
    /\ trace w'
       = EvTimestampWrite data true
         :: (if is_nil arts && is_nil analysis then []
             else [EvPublicationsWrite
                     (PList (l ++ map PDict arts ++ analysis))
                     (publications_writable w)])
         ++ external ++ trace w
    /\ field (key_of (ChatStr (tracking_chat_id (TELEGRAM_CHAT_ID E)))) data
       = Some (PStr (isoformat (sent_at m)))
    /\ get_last_check_timestamp
         (ChatStr (tracking_chat_id (TELEGRAM_CHAT_ID E))) w'
       = (Ok (Some (sent_at m)), w')
    /\ (publications_writable w = true ->
        is_nil arts && is_nil analysis = false ->
        publications_file w'
        = FileJson (PList (l ++ map PDict arts ++ analysis))).
Proof.
  intros Hs Hv Hacc Hl Hw.
  destruct (should_process_loaded _ _ _ _ Hacc) as [d0 Hd].
  destruct (handle_accepted E m w s l Hs Hacc Hl)
    as (w1 & arts & analysis & Hq & Hall & Hblank & Htext & Hrun).
  destruct Hq as (Hq1 & Hq2 & Hq3 & Hq4 & external & Hq5 & Hext).
  set (key := key_of (ChatStr (tracking_chat_id (TELEGRAM_CHAT_ID E)))) in *.
  set (new_items_added := negb (is_nil arts && is_nil analysis)) in *.
  set (publications := PList (l ++ map PDict arts ++ analysis)) in *.
  destruct (persist_run new_items_added publications w1)
    as (Hp1 & Hp2 & Hp3 & _ & Hp5 & Hp6).
  set (w2 := persist new_items_added publications w1) in *.
  assert (loaded (timestamp_file w2) = PDict d0) as Hd2 by congruence.
  rewrite (update_run _ _ _ _ _ Hd2), ensure_aware_idem in Hrun.
  unfold _save_timestamp_data in Hrun.
  replace (timestamp_writable w2) with true in Hrun by congruence.
  cbn [snd] in Hrun. fold key in Hrun. fold (sent_at m) in Hrun.
  eexists _, arts, analysis, external, _.
  split; [exact Hrun |].
  split; [eapply Forall2_impl; [exact Hall |]; by intros ? ? [? _] |].
  split.
  { destruct (PyStr.nonempty _).
    - by destruct (Htext eq_refl) as (d & -> & _).
    - by rewrite Hblank. }
  split; [exact Hext |].
  cbn [trace log set_timestamp_file timestamp_file publications_file field].
  split; [| split; [| split]].
  - rewrite Hp5, Hq5. unfold persist_events, new_items_added.
    rewrite Hq4. by destruct (is_nil arts && is_nil analysis).
  - unfold field. by rewrite lookup_insert_eq.
  - rewrite get_run. cbn [loaded timestamp_file log set_timestamp_file].
    fold key. rewrite read_checkpoint_insert. unfold sent_at.
    rewrite nonempty_isoformat, fromisoformat_isoformat; [reflexivity |].
    by apply valid_ensure_aware.
  - intros Hwritable Hbatch. rewrite Hp6, Hq4, Hwritable.
    unfold new_items_added. by rewrite Hbatch.
Qed.

Lemma C1_witness :
  msg_sender (m_at 30 "hello") = Ok (User (Some "Ann"))
  /\ valid (msg_date (m_at 30 "hello")) = true
  /\ should_process_message (sent_at (m_at 30 "hello"))
       (ChatStr (tracking_chat_id (TELEGRAM_CHAT_ID env_offline)))
       w_store_readonly = (Ok true, w_store_readonly)
  /\ stored_publications (publications_file w_store_readonly) = Some []
  /\ timestamp_writable w_store_readonly = true
  /\ exists (w' : world) (arts : list (gmap string pyval))
            (analysis : list pyval) (external : list event) (data : pyval),
       handle_new_message env_offline (m_at 30 "hello") w_store_readonly
       = (Ok tt, w')
       /\ length analysis = 1%nat
       /\ trace w'
          = EvTimestampWrite data true
            :: (if is_nil arts && is_nil analysis then []
                else [EvPublicationsWrite
                        (PList ([] ++ map PDict arts ++ analysis)) false])
            ++ external ++ trace w_store_readonly
       /\ get_last_check_timestamp
            (ChatStr (tracking_chat_id (TELEGRAM_CHAT_ID env_offline))) w'
          = (Ok (Some (sent_at (m_at 30 "hello"))), w').
Proof.
  assert (should_process_message (sent_at (m_at 30 "hello"))
            (ChatStr (tracking_chat_id (TELEGRAM_CHAT_ID env_offline)))
            w_store_readonly = (Ok true, w_store_readonly)) as Hacc
    by (vm_compute; reflexivity).
  split; [reflexivity |]. split; [reflexivity |]. split; [exact Hacc |].
  split; [reflexivity |]. split; [reflexivity |].
  destruct (C1_checkpoint_follows_persist_attempt env_offline
              (m_at 30 "hello") w_store_readonly (User (Some "Ann")) []
              eq_refl eq_refl Hacc eq_refl eq_refl)
    as (w' & arts & analysis & external & data
        & Hrun & _ & Hlen & _ & Htrace & _ & Hget & _).
  exists w', arts, analysis, external, data.
  split; [exact Hrun |]. split; [exact Hlen |].
  split; [exact Htrace | exact Hget].
Defined.




(** * The claims about URL uniqueness and the records *)

(** C3 at its failing input: the coordinator of [agent_enhanced.py],
    given one message that holds the same url twice and an empty store,
    fetches the url twice and stores two records that bear it; a later
    message with the same url has it fetched and stored once more. *)
Theorem C3_same_url_is_stored_again :
  extract_urls_from_text (default "" (msg_text m_twice))
  = ["http://a.example/x"; "http://a.example/x"]
  /\ store_records w_fresh = []
  /\ count_url "http://a.example/x"
       (store_records (handle_new_message env_online m_twice w_fresh).2)
     = 2%nat
  /\ count_fetch "http://a.example/x"
       (trace (handle_new_message env_online m_twice w_fresh).2)
     = 2%nat
  /\ count_url "http://a.example/x"
       (store_records
          (handle_new_message env_online m_again
             (handle_new_message env_online m_twice w_fresh).2).2)
     = 3%nat
  /\ count_fetch "http://a.example/x"
       (trace
          (handle_new_message env_online m_again
             (handle_new_message env_online m_twice w_fresh).2).2)
     = 3%nat.
Proof.
  split; [vm_compute; reflexivity |]. split; [reflexivity |].
  split; [vm_compute; reflexivity |]. split; [vm_compute; reflexivity |].
  split; vm_compute; reflexivity.
Qed.

(** The sibling loop of [agent.py] does what the coordinator misses: the
    second occurrence of the url is found in the list and skipped, so one
    fetch is made and one record stored. *)
Lemma agent_py_skips_a_stored_url :
  count_url "http://a.example/x"
    (store_records
       (Agent.process_urls_in_message env_interactive
          ["http://a.example/x"; "http://a.example/x"] w_fresh).2)
  = 1%nat
  /\ count_fetch "http://a.example/x"
       (trace
          (Agent.process_urls_in_message env_interactive
             ["http://a.example/x"; "http://a.example/x"] w_fresh).2)
     = 1%nat.
Proof. split; vm_compute; reflexivity. Qed.

(** C5, as stated, fails: with no enrichment service the coordinator
    labels the fallback analysis ["text"], not ["other"]. *)
Lemma C5_counterexample :
  SimpleLLMProcessor.is_available (llm_processor env_offline) = false
  /\ PyStr.nonempty (PyStr.strip "hi") = true
  /\ exists r w',
       process_message_content env_offline "hi" (PStr "Ann") w_fresh
       = (Ok (Some (PDict r)), w')
       /\ r !! "message_type" = Some (PStr "text")
       /\ ~ fallback_record "other" "hi" r.
Proof.
  split; [reflexivity |]. split; [reflexivity |].
  eexists _, _. split; [reflexivity |]. split; [reflexivity |].
  intros (_ & _ & _ & _ & Htype & _). vm_compute in Htype. discriminate Htype.
Qed.

(** C5, amended. Whenever no enrichment service is available, or the
    service call fails or returns malformed JSON, classifying a message
    whose trimmed text is non-empty succeeds and yields the fallback
    record: summary [text[:100] + "..."] if [len(text) > 100] else the
    text unchanged, sentiment neutral, no topics, importance medium, the
    enhanced flag false; its [message_type] is ["other"] when the service
    was asked, and ["text"] when no service is available. *)
Theorem C5_fallback_analysis (E : env) (message_text : string)
    (sender_name : pyval) (w : world) :
  PyStr.nonempty (PyStr.strip message_text) = true ->
  SimpleLLMProcessor.is_available (llm_processor E) = false
  \/ SimpleLLMProcessor._call_llm (llm_service E) (llm_processor E)
       (AnalyzeMessage sender_name message_text) = ""
  \/ json_loads (llm_service E)
       (SimpleLLMProcessor._call_llm (llm_service E) (llm_processor E)
          (AnalyzeMessage sender_name message_text)) = None ->
  exists r w',
    process_message_content E message_text sender_name w
    = (Ok (Some (PDict r)), w')
    /\ fallback_record
         (if SimpleLLMProcessor.is_available (llm_processor E)
          then "other" else "text")
         message_text r.
Proof.
  intros Hstrip Hcase. unfold process_message_content.
  rewrite Hstrip. cbn [negb].
  destruct (SimpleLLMProcessor.is_available (llm_processor E)) eqn:Havail.
  - unfold SimpleLLMProcessor.summarize_message.
    rewrite Havail, Hstrip. cbn [negb orb].
    destruct Hcase as [? | [Hresp | Hjson]]; [discriminate | |].
    + rewrite Hresp. cbn [PyStr.nonempty].
      eexists _, _. split; [reflexivity |]. by repeat split.
    + rewrite Hjson.
      destruct (PyStr.nonempty (SimpleLLMProcessor._call_llm _ _ _));
        (eexists _, _; split; [reflexivity |]; by repeat split).
  - rewrite bind_run, now_run.
    eexists _, _. split; [reflexivity |]. by repeat split.
Qed.

Lemma C5_witness :
  PyStr.nonempty (PyStr.strip "hi") = true
  /\ SimpleLLMProcessor.is_available (llm_processor env_offline) = false
  /\ exists r w',
       process_message_content env_offline "hi" (PStr "Ann") w_fresh
       = (Ok (Some (PDict r)), w')
       /\ fallback_record
            (if SimpleLLMProcessor.is_available (llm_processor env_offline)
             then "other" else "text")
            "hi" r.
Proof.
  split; [reflexivity |]. split; [reflexivity |].
  exact (C5_fallback_analysis env_offline "hi" (PStr "Ann") w_fresh
           eq_refl (or_introl eq_refl)).
Defined.

(** C6, as stated, fails in both programs: the placeholder of
    [agent_enhanced.py] is titled after the url, and the placeholder of
    [agent.py], which has the title of the claim, carries no extraction
    outcome. *)
Lemma C6_counterexample :
  (exists r w',
     extract_article_content env_offline "http://a.example/x" w_fresh
     = (Ok r, w')
     /\ r !! "title" = Some (PStr "Failed to extract: http://a.example/x")
     /\ ~ placeholder_as_claimed r)
  /\ (exists r w',
        Agent.extract_article_data env_interactive_offline
          "http://a.example/x" w_fresh = (Ok r, w')
        /\ r !! "extraction_method" = None
        /\ ~ placeholder_as_claimed r).
Proof.
  split; eexists _, _; (split; [reflexivity |]); (split; [reflexivity |]).
  - intros [Htitle _]. vm_compute in Htitle. discriminate Htitle.
  - intros [_ Hmethod]. vm_compute in Hmethod. discriminate Hmethod.
Qed.

Lemma agent_extract_article_data_run (E : Agent.env) url w :
  exists r w', Agent.extract_article_data E url w = (Ok r, w').
Proof.
  unfold Agent.extract_article_data. rewrite bind_run. unfold modify.
  destruct (Agent.http_get E url).
  - unfold Agent.scrape_basic. rewrite !bind_run, !now_run.
    destruct (LLMProcessor.is_available _); by eexists _, _.
  - rewrite !bind_run, !now_run. by eexists _, _.
Qed.

(** C6, amended. Article resolution never raises outward: whatever the
    fetch does, both resolvers return a record, and a fetch or parse
    exception is converted into a placeholder. In [agent_enhanced.py] the
    placeholder has extraction method ["error"] and the title
    ["Failed to extract: "] followed by the url, and it is appended to
    the publication list rather than dropped; in [agent.py] it has the
    title ["Could not extract title"] and no extraction outcome, and it
    is appended and saved when the operator accepts it. *)
Theorem C6_fetch_failure_becomes_placeholder (E : env) (E' : Agent.env)
    (url : string) (sender_name : pyval) (l : list pyval) (w : world) :
  (exists r w', extract_article_content E url w = (Ok r, w'))
  /\ (exists r w', Agent.extract_article_data E' url w = (Ok r, w'))
  /\ (forall e message,
        http_get E url = HttpError e message ->
        exists r w1 w2,
          extract_article_content E url w = (Ok r, w1)
          /\ r !! "url" = Some (PStr url)
          /\ r !! "title" = Some (PStr ("Failed to extract: " +:+ url))
          /\ r !! "extraction_method" = Some (PStr "error")
          /\ process_urls E [url] sender_name w
             = (Ok [<["sender" := sender_name]> r], w1)
          /\ append_articles E (PList l) [<["sender" := sender_name]> r] w1
             = (Ok (PList (l ++ [PDict (<["sender" := sender_name]> r)])), w2))
  /\ (forall e message,
        Agent.http_get E' url = HttpError e message ->
        exists r w1,
          Agent.extract_article_data E' url w = (Ok r, w1)
          /\ r !! "url" = Some (PStr url)
          /\ r !! "title" = Some (PStr "Could not extract title")
          /\ r !! "extraction_method" = None
          /\ (Agent.already_stored (PList l) url = Ok false ->
              Agent.operator E' r = Agent.Accept ->
              publications_writable w = true ->
              exists w2,
                Agent.process_urls E' [url] (PList l) w
                = (Ok (PList (l ++ [PDict r])), w2)
                /\ publications_file w2 = FileJson (PList (l ++ [PDict r])))).
Proof.
  split; [| split; [| split]].
  - destruct (extract_article_content_run E url w) as (r & w' & H & _).
    by exists r, w'.
  - apply agent_extract_article_data_run.
  - intros e message Hfetch.
    assert (exists r w1,
              extract_article_content E url w = (Ok r, w1)
              /\ r !! "url" = Some (PStr url)
              /\ r !! "title" = Some (PStr ("Failed to extract: " +:+ url))
              /\ r !! "extraction_method" = Some (PStr "error"))
      as (r & w1 & Hrun & Hurl & Htitle & Hmethod).
    { unfold extract_article_content. rewrite bind_run. unfold modify.
      rewrite Hfetch, bind_run, now_run. by eexists _, _. }
    destruct (append_articles_run E l [<["sender" := sender_name]> r] w1)
      as (w2 & Happend & _).
    exists r, w1, w2. repeat (split; [assumption |]). split; [| exact Happend].
    cbn [process_urls]. rewrite bind_run. unfold try_except_all.
    rewrite bind_run, Hrun, (truthy_dict _ _ _ Hurl). reflexivity.
  - intros e message Hfetch.
    set (w0 := log (EvFetch url) w).
    set (w1 := set_ticks (S (S (ticks w0))) w0).
    set (r := Agent.fallback_article url (Agent.clock E' (ticks w0))
                (Agent.clock E' (S (ticks w0)))).
    assert (Agent.extract_article_data E' url w = (Ok r, w1)) as Hrun.
    { unfold Agent.extract_article_data. rewrite bind_run. unfold modify.
      by rewrite Hfetch, !bind_run, !now_run. }
    exists r, w1. split; [exact Hrun |]. do 3 (split; [reflexivity |]).
    intros Hnew Haccept Hwritable.
    eexists. cbn [Agent.process_urls].
    rewrite Hnew, bind_lift_ok, (bind_ok _ _ _ _ _ Hrun).
    assert (Agent.display_article_preview r = Ok tt) as -> by reflexivity.
    rewrite bind_lift_ok, Haccept, bind_mret.
    cbn [py_append]. rewrite bind_lift_ok, bind_run.
    unfold Agent.save_publications.
    assert (publications_writable w1 = true) as -> by exact Hwritable.
    rewrite bind_run. unfold modify. split; reflexivity.
Qed.

Lemma C6_witness :
  http_get env_offline "http://a.example/x"
  = HttpError RequestException "timed out"
  /\ Agent.http_get env_interactive_offline "http://a.example/x"
     = HttpError RequestException "timed out"
  /\ (exists r w1 w2,
        extract_article_content env_offline "http://a.example/x" w_fresh
        = (Ok r, w1)
        /\ r !! "extraction_method" = Some (PStr "error")
        /\ append_articles env_offline (PList [])
             [<["sender" := PStr "Ann"]> r] w1
           = (Ok (PList [PDict (<["sender" := PStr "Ann"]> r)]), w2))
  /\ (exists r w1 w2,
        Agent.extract_article_data env_interactive_offline
          "http://a.example/x" w_fresh = (Ok r, w1)
        /\ r !! "title" = Some (PStr "Could not extract title")
        /\ Agent.process_urls env_interactive_offline
             ["http://a.example/x"] (PList []) w_fresh
           = (Ok (PList [PDict r]), w2)).
Proof.
  destruct (C6_fetch_failure_becomes_placeholder env_offline
              env_interactive_offline "http://a.example/x" (PStr "Ann") []
              w_fresh) as (_ & _ & Henhanced & Hbasic).
  split; [reflexivity |]. split; [reflexivity |]. split.
  - destruct (Henhanced _ _ eq_refl)
      as (r & w1 & w2 & Hrun & _ & _ & Hmethod & _ & Happend).
    exists r, w1, w2. split; [exact Hrun |]. split; [exact Hmethod |].
    exact Happend.
  - destruct (Hbasic _ _ eq_refl) as (r & w1 & Hrun & _ & Htitle & _ & Hsave).
    destruct (Hsave eq_refl eq_refl eq_refl) as (w2 & Hloop & _).
    exists r, w1, w2. split; [exact Hrun |]. split; [exact Htitle |].
    exact Hloop.
Defined.





(** * Further properties of the checkpoint store *)

(** The checkpoint file after an update. *)
Lemma update_timestamp_file clock c ts w :
  timestamp_file (update_last_check_timestamp clock c ts w).2
  = match loaded (timestamp_file w) with
    | PDict d =>
        if timestamp_writable w
        then FileJson
               (PDict (<[key_of c :=
                          PStr (isoformat (ensure_aware (stamp clock ts w).1))]>
                         d))
        else timestamp_file w
    | _ => timestamp_file w
    end.
Proof.
  rewrite update_run_any.
  assert (timestamp_file (stamp clock ts w).2 = timestamp_file w) as Hf
    by (by destruct ts).
  assert (timestamp_writable (stamp clock ts w).2 = timestamp_writable w) as Hw
    by (by destruct ts).
  destruct (loaded (timestamp_file w)); try exact Hf.
  unfold _save_timestamp_data. rewrite Hw.
  by destruct (timestamp_writable w).
Qed.

(** X1. With a checkpoint file that can be written, updating the
    checkpoint of one chat leaves the checkpoint of every chat that has
    another key as it was, whatever the file holds. *)
Theorem X1_update_keeps_other_chats (clock : nat -> datetime)
    (c c' : chat_id) (ts : option datetime) (w : world) :
  timestamp_writable w = true ->
  key_of c' <> key_of c ->
  (get_last_check_timestamp c'
     (update_last_check_timestamp clock c ts w).2).1
  = (get_last_check_timestamp c' w).1.
Proof.
  intros Hw Hne. rewrite !get_run. cbn [fst].
  rewrite update_timestamp_file, Hw.
  destruct (loaded (timestamp_file w)) as [| | | | |d] eqn:Hd;
    try (by rewrite Hd).
  cbn [loaded]. apply read_checkpoint_insert_ne. congruence.
Qed.

Lemma X1_witness :
  timestamp_writable w_checkpoint_20 = true
  /\ key_of (ChatStr "me") <> key_of (ChatInt 7)
  /\ stored_entry
       (update_last_check_timestamp clock_100 (ChatInt 7)
          (Some (at_second 50)) w_checkpoint_20).2 "7"
     = Some (PStr (isoformat (at_second 50)))
  /\ (get_last_check_timestamp (ChatStr "me")
        (update_last_check_timestamp clock_100 (ChatInt 7)
           (Some (at_second 50)) w_checkpoint_20).2).1
     = Ok (Some (at_second 20)).
Proof.
  assert (key_of (ChatStr "me") <> key_of (ChatInt 7)) as H
    by (vm_compute; discriminate).
  split; [reflexivity |]. split; [exact H |].
  split; [vm_compute; reflexivity |].
  exact (X1_update_keeps_other_chats clock_100 (ChatInt 7) (ChatStr "me")
           (Some (at_second 50)) w_checkpoint_20 eq_refl H).
Defined.

(** X3. Constructing the tracker: when the data directory cannot be
    made, [__init__] raises and touches nothing; otherwise it leaves an
    existing checkpoint file as it is, and creates a missing one with
    the empty object when the file can be written, after which no chat
    has a checkpoint. In no case is a checkpoint lost: every chat's
    checkpoint reads after [__init__] as it did before. *)
Theorem X3_init_creates_the_file_and_keeps_checkpoints
    (makedirs : result unit) (c : chat_id) (w : world) :
  (forall e : exn, makedirs = Raise e -> init makedirs w = (Raise e, w))
  /\ (makedirs = Ok tt ->
      (file_exists (timestamp_file w) = true -> init makedirs w = (Ok tt, w))
      /\ (file_exists (timestamp_file w) = false ->
          timestamp_writable w = true ->
          (init makedirs w).1 = Ok tt
          /\ timestamp_file (init makedirs w).2 = FileJson (PDict ∅)
          /\ exists data ok,
               trace (init makedirs w).2
               = EvTimestampWrite data ok :: trace w))
  /\ (get_last_check_timestamp c (init makedirs w).2).1
     = (get_last_check_timestamp c w).1.
Proof.
  unfold init. split; [| split].
  - by intros e ->.
  - intros ->. rewrite bind_lift_ok. split.
    + by intros ->.
    + intros -> Hw. unfold _save_timestamp_data. rewrite Hw.
      split; [reflexivity |]. split; [reflexivity |]. by eexists _, _.
  - destruct makedirs as [[] | e]; [| reflexivity].
    rewrite bind_lift_ok.
    destruct (file_exists (timestamp_file w)) eqn:He; [reflexivity |].
    assert (timestamp_file w = FileMissing) as Hf
      by (by destruct (timestamp_file w)).
    unfold _save_timestamp_data.
    destruct (timestamp_writable w); rewrite !get_run; cbn; by rewrite Hf.
Qed.

(** The checkpoint file after a reset of everything. *)
Lemma reset_all_run w :
  reset_timestamps ChatNone w = _save_timestamp_data (PDict ∅) w.
Proof. reflexivity. Qed.

(** X4. With a checkpoint file that can be written,
    [reset_timestamps()] leaves no checkpoint for any chat, so every
    message is to be processed again. *)
Theorem X4_reset_all_forgets_every_chat (w : world) :
  timestamp_writable w = true ->
  (reset_timestamps ChatNone w).1 = Ok tt
  /\ forall (c : chat_id) (t : datetime),
       (get_last_check_timestamp c (reset_timestamps ChatNone w).2).1
       = Ok None
       /\ (should_process_message t c (reset_timestamps ChatNone w).2).1
          = Ok true.
Proof.
  intros Hw. rewrite reset_all_run. unfold _save_timestamp_data. rewrite Hw.
  split; [reflexivity |]. intros c t.
  rewrite get_run, should_process_run. cbn.
  unfold read_checkpoint. by rewrite lookup_empty.
Qed.

Lemma X4_witness :
  timestamp_writable w_checkpoint_20 = true
  /\ (get_last_check_timestamp (ChatStr "me")
        (reset_timestamps ChatNone w_checkpoint_20).2).1 = Ok None.
Proof.
  split; [reflexivity |].
  exact (proj1 (proj2 (X4_reset_all_forgets_every_chat w_checkpoint_20 eq_refl)
                  (ChatStr "me") (at_second 0))).
Defined.

(** What the reset of one chat does on a file that holds a JSON
    object. *)
Lemma reset_one_run c w d :
  c <> ChatNone ->
  loaded (timestamp_file w) = PDict d ->
  reset_timestamps c w
  = if bool_decide (is_Some (d !! chat_str c))
    then _save_timestamp_data (PDict (delete (chat_str c) d)) w
    else (Ok tt, w).
Proof.
  intros Hc Hd.
  assert (reset_timestamps c w
          = (data ← _load_timestamp_data;
             present ← lift (py_contains data (chat_str c));
             if present : bool then
               data ← lift (py_delitem data (chat_str c));
               _save_timestamp_data data
             else mret tt) w) as -> by (by destruct c).
  rewrite (bind_ok _ _ _ _ _ (load_run w)), Hd.
  cbn [py_contains]. rewrite bind_lift_ok.
  destruct (bool_decide (is_Some (d !! chat_str c))) eqn:Hin; [| reflexivity].
  apply bool_decide_eq_true in Hin as [v Hv].
  cbn [py_delitem]. by rewrite Hv, bind_lift_ok.
Qed.

(** X5. With a checkpoint file that holds a JSON object and can be
    written, [reset_timestamps(chat_id)] deletes the entry under
    [str(chat_id)] and nothing else: a chat with a true id has no
    checkpoint afterwards, and every chat whose key is another reads its
    checkpoint as before. *)
Theorem X5_reset_one_chat (c : chat_id) (w : world) (d : gmap string pyval) :
  c <> ChatNone ->
  timestamp_writable w = true ->
  loaded (timestamp_file w) = PDict d ->
  (reset_timestamps c w).1 = Ok tt
  /\ (chat_truthy c = true ->
      (get_last_check_timestamp c (reset_timestamps c w).2).1 = Ok None)
  /\ forall c' : chat_id,
       key_of c' <> chat_str c ->
       (get_last_check_timestamp c' (reset_timestamps c w).2).1
       = (get_last_check_timestamp c' w).1.
Proof.
  intros Hc Hw Hd. rewrite (reset_one_run c w d Hc Hd).
  unfold _save_timestamp_data. rewrite Hw.
  destruct (bool_decide (is_Some (d !! chat_str c))) eqn:Hin.
  - split; [reflexivity |]. split.
    + intros Ht. rewrite get_run. cbn. unfold key_of. rewrite Ht.
      unfold read_checkpoint. by rewrite lookup_delete_eq.
    + intros c' Hne. rewrite !get_run. cbn. rewrite Hd.
      unfold read_checkpoint. by rewrite lookup_delete_ne.
  - apply bool_decide_eq_false in Hin.
    split; [reflexivity |]. split; [| reflexivity].
    intros Ht. rewrite get_run. cbn. rewrite Hd. unfold key_of. rewrite Ht.
    unfold read_checkpoint.
    destruct (d !! chat_str c) eqn:Hk; [| reflexivity].
    exfalso. apply Hin. by eexists.
Qed.

Lemma X5_witness :
  ChatStr "me" <> ChatNone
  /\ timestamp_writable w_two_chats = true
  /\ (get_last_check_timestamp (ChatStr "me")
        (reset_timestamps (ChatStr "me") w_two_chats).2).1 = Ok None
  /\ key_of (ChatInt 7) <> chat_str (ChatStr "me")
  /\ (get_last_check_timestamp (ChatInt 7)
        (reset_timestamps (ChatStr "me") w_two_chats).2).1
     = Ok (Some (at_second 10)).
Proof.
  assert (ChatStr "me" <> ChatNone) as Hc by discriminate.
  assert (key_of (ChatInt 7) <> chat_str (ChatStr "me")) as Hne
    by (vm_compute; discriminate).
  destruct (X5_reset_one_chat (ChatStr "me") w_two_chats _ Hc eq_refl eq_refl)
    as (_ & Hnone & Hother).
  split; [exact Hc |]. split; [reflexivity |].
  split; [exact (Hnone eq_refl) |]. split; [exact Hne |].
  exact (Hother (ChatInt 7) Hne).
Defined.

(** The checkpoint file after the reset of one chat, whatever it held. *)
Lemma reset_timestamp_file c w :
  c <> ChatNone ->
  timestamp_file (reset_timestamps c w).2
  = match loaded (timestamp_file w) with
    | PDict d =>
        if bool_decide (is_Some (d !! chat_str c)) && timestamp_writable w
        then FileJson (PDict (delete (chat_str c) d))
        else timestamp_file w
    | _ => timestamp_file w
    end.
Proof.
  intros Hc.
  destruct (loaded (timestamp_file w)) as [| | | s | l | d] eqn:Hd.
  6: { rewrite (reset_one_run c w d Hc Hd). unfold _save_timestamp_data.
       by destruct (bool_decide _), (timestamp_writable w). }
  all: assert (reset_timestamps c w
               = (data ← _load_timestamp_data;
                  present ← lift (py_contains data (chat_str c));
                  if present : bool then
                    data ← lift (py_delitem data (chat_str c));
                    _save_timestamp_data data
                  else mret tt) w) as -> by (by destruct c).
  all: rewrite (bind_ok _ _ _ _ _ (load_run w)), Hd; try reflexivity.
  - cbn [py_contains]. rewrite bind_lift_ok.
    by destruct (PyStr.contains _ _).
  - cbn [py_contains]. rewrite bind_lift_ok.
    by destruct (existsb _ _).
Qed.

(** X6. [reset_timestamps] does not map a false chat id to the global
    key as the other operations do: for the chat id [0] or the empty
    string it deletes the entry ["0"] or [""], and the checkpoint that
    reads and updates use for that chat, the global one, is as it was. *)
Theorem X6_reset_of_false_id_keeps_global :
  forall (c : chat_id) (w : world),
    (c = ChatInt 0 \/ c = ChatStr "") ->
    key_of c = "global"
    /\ (get_last_check_timestamp c (reset_timestamps c w).2).1
       = (get_last_check_timestamp c w).1.
Proof.
  intros c w Hc.
  assert (c <> ChatNone) as Hnone by (by destruct Hc as [-> | ->]).
  assert (key_of c = "global") as Hkey by (by destruct Hc as [-> | ->]).
  assert (chat_str c <> "global") as Hne by (by destruct Hc as [-> | ->]).
  split; [exact Hkey |].
  rewrite !get_run. cbn [fst]. rewrite (reset_timestamp_file c w Hnone), Hkey.
  destruct (loaded (timestamp_file w)) as [| | | | | d] eqn:Hd;
    try (by rewrite Hd).
  destruct (_ && _); [| by rewrite Hd].
  cbn [loaded]. unfold read_checkpoint. by rewrite lookup_delete_ne.
Qed.

Lemma X6_witness :
  (ChatInt 0 = ChatInt 0 \/ ChatInt 0 = ChatStr "")
  /\ (get_last_check_timestamp (ChatInt 0)
        (reset_timestamps (ChatInt 0)
           (update_last_check_timestamp clock_100 (ChatInt 0)
              (Some (at_second 40)) w_fresh).2).2).1
     = Ok (Some (at_second 40)).
Proof.
  split; [by left |].
  exact (proj2 (X6_reset_of_false_id_keeps_global (ChatInt 0)
                  (update_last_check_timestamp clock_100 (ChatInt 0)
                     (Some (at_second 40)) w_fresh).2
                  (or_introl eq_refl))).
Defined.

(** A character that [char_digit] reads is a decimal digit. *)
Lemma char_digit_some x z :
  char_digit x = Some z ->
  ((48 <=? N_of_ascii x)%N && (N_of_ascii x <=? 57)%N) = true.
Proof.
  unfold char_digit.
  destruct ((48 <=? Z.of_N (N_of_ascii x))
            && (Z.of_N (N_of_ascii x) <=? 57)) eqn:E; [| discriminate].
  intros _. apply andb_true_iff in E as [E1 E2].
  apply Z.leb_le in E1, E2. apply andb_true_iff.
  split; apply N.leb_le; lia.
Qed.

(** A text that does not begin with a year is no date. *)
Lemma fromisoformat_without_year s :
  begins_with_year s = false -> fromisoformat s = None.
Proof.
  intros Hs. unfold fromisoformat, parse_isoformat_date.
  assert (parse_digits 4 (PyStr.slice 0 4 (PyStr.slice 0 10 s)) = None)
    as ->; [| reflexivity].
  unfold PyStr.slice, parse_digits.
  destruct s as [| a [| b [| c [| d s]]]]; try reflexivity.
  assert (forall x, substring 0 0 x = "") as H00 by (by intros []).
  cbn [substring Nat.sub]. rewrite H00.
  cbn [String.length Nat.eqb parse_digits_from].
  cbn [begins_with_year forallb] in Hs.
  destruct (char_digit a) eqn:Ea; [| reflexivity].
  destruct (char_digit b) eqn:Eb; [| reflexivity].
  destruct (char_digit c) eqn:Ec; [| reflexivity].
  destruct (char_digit d) eqn:Ed; [| reflexivity].
  rewrite (char_digit_some _ _ Ea), (char_digit_some _ _ Eb),
    (char_digit_some _ _ Ec), (char_digit_some _ _ Ed) in Hs.
  discriminate Hs.
Qed.

(** X7. A stored checkpoint that is a string but cannot be a date, as
    it does not begin with the four digits of a year, reads as no
    checkpoint: [fromisoformat] raises [ValueError], which is caught,
    and every message of the chat is to be processed. *)
Theorem X7_unparsable_checkpoint_reads_as_none (c : chat_id) (w : world)
    (d : gmap string pyval) (s : string) :
  loaded (timestamp_file w) = PDict d ->
  d !! key_of c = Some (PStr s) ->
  begins_with_year s = false ->
  get_last_check_timestamp c w = (Ok None, w)
  /\ forall t : datetime, should_process_message t c w = (Ok true, w).
Proof.
  intros Hd Hs Hyear.
  assert (read_checkpoint (loaded (timestamp_file w)) (key_of c) = Ok None)
    as Hread.
  { rewrite Hd. unfold read_checkpoint. rewrite Hs. cbn [default id].
    by rewrite (fromisoformat_without_year s Hyear), Tauto.if_same. }
  split.
  - by rewrite get_run, Hread.
  - intros t. by rewrite should_process_run, Hread.
Qed.

Lemma X7_witness :
  loaded (timestamp_file w_checkpoint_unparsable)
  = PDict {["me" := PStr "yesterday"]}
  /\ begins_with_year "yesterday" = false
  /\ get_last_check_timestamp (ChatStr "me") w_checkpoint_unparsable
     = (Ok None, w_checkpoint_unparsable)
  /\ should_process_message (at_second 1) (ChatStr "me")
       w_checkpoint_unparsable
     = (Ok true, w_checkpoint_unparsable).
Proof.
  destruct (X7_unparsable_checkpoint_reads_as_none (ChatStr "me")
              w_checkpoint_unparsable _ "yesterday" eq_refl eq_refl eq_refl)
    as [Hget Hsp].
  split; [reflexivity |]. split; [reflexivity |].
  split; [exact Hget | exact (Hsp (at_second 1))].
Defined.

(** * Further properties of the coordinator and the scan *)

(** The handler on a message it does not get to process. *)
Lemma handle_stopped (E : env) m w (r : result bool) :
  r <> Ok true ->
  should_process_message (ensure_aware (msg_date m))
    (ChatStr (tracking_chat_id (TELEGRAM_CHAT_ID E))) w = (r, w) ->
  handle_new_message E m w = (Ok tt, w).
Proof.
  intros Hr Hsp.
  unfold handle_new_message, try_except_all.
  destruct (msg_sender m) as [s | e]; [| reflexivity].
  rewrite bind_lift_ok, bind_run, Hsp.
  destruct r as [[] | e]; done.
Qed.

(** X8. A checkpoint entry that is a true value but no string (a JSON
    number, say) is not handled as a corrupt file is: reading it raises
    [TypeError]. The handler swallows the exception and drops every
    message of the chat with no effect at all, and the scan raises the
    exception to its caller. *)
Theorem X8_checkpoint_of_wrong_type_raises (E : env) (m : message)
    (limit : nat) (w : world) (d : gmap string pyval) (v : pyval) :
  loaded (timestamp_file w) = PDict d ->
  d !! key_of (ChatStr (tracking_chat_id (TELEGRAM_CHAT_ID E))) = Some v ->
  truthy v = true ->
  (forall s, v <> PStr s) ->
  get_last_check_timestamp
    (ChatStr (tracking_chat_id (TELEGRAM_CHAT_ID E))) w
  = (Raise TypeError, w)
  /\ handle_new_message E m w = (Ok tt, w)
  /\ process_recent_messages E (TELEGRAM_CHAT_ID E) limit w
     = (Raise TypeError, w).
Proof.
  intros Hd Hv Htrue Hstr.
  set (c := ChatStr (tracking_chat_id (TELEGRAM_CHAT_ID E))) in *.
  assert (read_checkpoint (loaded (timestamp_file w)) (key_of c)
          = Raise TypeError) as Hread.
  { rewrite Hd. unfold read_checkpoint. rewrite Hv. cbn [default id].
    destruct v; rewrite ?Htrue; try reflexivity. by destruct (Hstr s). }
  assert (get_last_check_timestamp c w = (Raise TypeError, w)) as Hget
    by (by rewrite get_run, Hread).
  split; [exact Hget |]. split.
  - apply (handle_stopped E m w (Raise TypeError)); [done |].
    fold c. by rewrite should_process_run, Hread.
  - unfold process_recent_messages. fold c.
    by rewrite (bind_raise _ _ _ _ _ Hget).
Qed.

Lemma X8_witness :
  loaded (timestamp_file w_checkpoint_number)
  = PDict {["me" := PInt 1700000000]}
  /\ truthy (PInt 1700000000) = true
  /\ get_last_check_timestamp
       (ChatStr (tracking_chat_id (TELEGRAM_CHAT_ID env_offline)))
       w_checkpoint_number
     = (Raise TypeError, w_checkpoint_number)
  /\ handle_new_message env_offline (m_at 30 "hello") w_checkpoint_number
     = (Ok tt, w_checkpoint_number)
  /\ process_recent_messages env_offline (TELEGRAM_CHAT_ID env_offline) 3
       w_checkpoint_number
     = (Raise TypeError, w_checkpoint_number).
Proof.
  split; [reflexivity |]. split; [reflexivity |].
  exact (X8_checkpoint_of_wrong_type_raises env_offline (m_at 30 "hello") 3
           w_checkpoint_number _ (PInt 1700000000) eq_refl eq_refl eq_refl
           (fun s H => eq_ind (PInt 1700000000)
                         (fun v => match v with PInt _ => True | _ => False end)
                         I (PStr s) H)).
Defined.

(** The filter's answer on a message that is not after the checkpoint. *)
Lemma should_process_old t c w T :
  get_last_check_timestamp c w = (Ok (Some T), w) ->
  not_after t T ->
  should_process_message t c w = (Ok false, w).
Proof.
  intros Hget Hold. rewrite get_run in Hget. rewrite should_process_run.
  assert (read_checkpoint (loaded (timestamp_file w)) (key_of c)
          = Ok (Some T)) as -> by congruence.
  rewrite gt_aware. unfold not_after in Hold. do 2 f_equal. lia.
Qed.

(** X9. A message that is not after the checkpoint of its chat is
    skipped with no effect at all: nothing is fetched, neither file is
    written, and the checkpoint stays where it was. *)
Theorem X9_old_message_has_no_effect (E : env) (m : message) (w : world)
    (T : datetime) :
  get_last_check_timestamp
    (ChatStr (tracking_chat_id (TELEGRAM_CHAT_ID E))) w = (Ok (Some T), w) ->
  not_after (sent_at m) T ->
  handle_new_message E m w = (Ok tt, w).
Proof.
  intros Hget Hold.
  apply (handle_stopped E m w (Ok false)); [discriminate |].
  by apply (should_process_old _ _ _ T).
Qed.

Lemma X9_witness :
  get_last_check_timestamp
    (ChatStr (tracking_chat_id (TELEGRAM_CHAT_ID env_online)))
    w_checkpoint_20
  = (Ok (Some (at_second 20)), w_checkpoint_20)
  /\ not_after (sent_at (m_at 20 "see http://a.example/x")) (at_second 20)
  /\ handle_new_message env_online (m_at 20 "see http://a.example/x")
       w_checkpoint_20
     = (Ok tt, w_checkpoint_20).
Proof.
  assert (get_last_check_timestamp
            (ChatStr (tracking_chat_id (TELEGRAM_CHAT_ID env_online)))
            w_checkpoint_20
          = (Ok (Some (at_second 20)), w_checkpoint_20)) as Hget
    by (vm_compute; reflexivity).
  assert (not_after (sent_at (m_at 20 "see http://a.example/x"))
            (at_second 20)) as Hold
    by (unfold not_after; vm_compute; discriminate).
  split; [exact Hget |]. split; [exact Hold |].
  exact (X9_old_message_has_no_effect env_online
           (m_at 20 "see http://a.example/x") w_checkpoint_20 (at_second 20)
           Hget Hold).
Defined.

(** X10. A message whose sender cannot be resolved is dropped by the
    handler with no effect, its text not even looked at, and a scan goes
    on with the messages that follow it. *)
Theorem X10_unresolved_sender_drops_the_message (E : env) (m : message)
    (rest : list message) (w : world) (e : exn) :
  msg_sender m = Raise e ->
  handle_new_message E m w = (Ok tt, w)
  /\ process_all E (m :: rest) w = process_all E rest w.
Proof.
  intros Hs.
  assert (handle_new_message E m w = (Ok tt, w)) as Hrun
    by (unfold handle_new_message, try_except_all; by rewrite Hs).
  split; [exact Hrun |].
  cbn [process_all]. rewrite bind_run. unfold try_except_all.
  by rewrite Hrun.
Qed.

Lemma X10_witness :
  msg_sender m_no_sender = Raise OtherException
  /\ handle_new_message env_online m_no_sender w_fresh = (Ok tt, w_fresh)
  /\ process_all env_online [m_no_sender; m_at 30 "hello"] w_fresh
     = process_all env_online [m_at 30 "hello"] w_fresh.
Proof.
  split; [reflexivity |].
  exact (X10_unresolved_sender_drops_the_message env_online m_no_sender
           [m_at 30 "hello"] w_fresh OtherException eq_refl).
Defined.

(** The handler raises nothing. *)
Lemma handle_new_message_ok (E : env) m w :
  (handle_new_message E m w).1 = Ok tt.
Proof.
  unfold handle_new_message, try_except_all.
  match goal with |- context [match ?body with _ => _ end] =>
    by destruct body as [[[] | e] w']
  end.
Qed.

(** The handler only ever adds records at the end of the stored list. *)
Lemma handle_extends_store (E : env) m w l :
  stored_publications (publications_file w) = Some l ->
  exists new,
    stored_publications (publications_file (handle_new_message E m w).2)
    = Some (l ++ new).
Proof.
  intros Hl.
  assert (exists new, stored_publications (publications_file w)
                      = Some (l ++ new)) as Hsame
    by (exists []; by rewrite app_nil_r).
  destruct (msg_sender m) as [s | e] eqn:Hs.
  2: { unfold handle_new_message, try_except_all. by rewrite Hs. }
  pose proof (should_process_run (ensure_aware (msg_date m))
                (ChatStr (tracking_chat_id (TELEGRAM_CHAT_ID E))) w) as Hsp.
  destruct (match read_checkpoint _ _ with Ok None => _ | _ => _ end)
    as [[] | e] eqn:Hr.
  - destruct (handle_accepted E m w s l Hs Hsp Hl)
      as (w1 & arts & analysis & Hq & _ & _ & _ & ->).
    cbn [snd]. rewrite update_keeps_publications.
    destruct (persist_run (negb (is_nil arts && is_nil analysis))
                (PList (l ++ map PDict arts ++ analysis)) w1)
      as (_ & _ & _ & _ & _ & ->).
    destruct Hq as (_ & _ & Hq3 & _).
    destruct (_ && _); [by eexists | by rewrite Hq3].
  - by rewrite (handle_stopped E m w (Ok false)).
  - by rewrite (handle_stopped E m w (Raise e)).
Qed.

Lemma process_all_extends_store (E : env) ms : forall w l,
  stored_publications (publications_file w) = Some l ->
  (process_all E ms w).1 = Ok tt
  /\ exists new,
       stored_publications (publications_file (process_all E ms w).2)
       = Some (l ++ new).
Proof.
  induction ms as [| m ms IH]; intros w l Hl.
  - split; [reflexivity |]. exists []. by rewrite app_nil_r.
  - cbn [process_all]. rewrite bind_run. unfold try_except_all.
    pose proof (handle_new_message_ok E m w) as Hok.
    destruct (handle_extends_store E m w l Hl) as [new1 Hnew1].
    destruct (handle_new_message E m w) as [r w1]. cbn in Hok, Hnew1.
    subst r.
    destruct (IH w1 _ Hnew1) as [Hok2 [new2 Hnew2]].
    split; [exact Hok2 |]. exists (new1 ++ new2). by rewrite app_assoc.
Qed.

(** The scan's filter pass reads and writes nothing. *)
Lemma collect_read_only tracking ms w : (collect tracking ms w).2 = w.
Proof.
  induction ms as [| m ms IH]; [reflexivity |].
  cbn [collect]. rewrite bind_run, should_process_run.
  destruct (match read_checkpoint _ _ with Ok None => _ | _ => _ end);
    [| reflexivity].
  rewrite bind_run. destruct (collect tracking ms w) as [[] ?]; exact IH.
Qed.

(** X11. With a publication store that can be written, the store is
    append-only: whatever the message, the state of the checkpoint file
    and the outcome of the fetches, the handler leaves the stored list as
    it was or longer at its end, and so does a whole scan; no stored
    record is removed, changed or moved. *)
Theorem X11_store_is_append_only (E : env) (m : message) (chat : string)
    (limit : nat) (w : world) (l : list pyval) :
  publications_writable w = true ->
  stored_publications (publications_file w) = Some l ->
  (exists new,
     stored_publications (publications_file (handle_new_message E m w).2)
     = Some (l ++ new))
  /\ (exists new,
        stored_publications
          (publications_file (process_recent_messages E chat limit w).2)
        = Some (l ++ new)).
Proof.
  intros _ Hl. split; [by apply handle_extends_store |].
  assert (exists new, stored_publications (publications_file w)
                      = Some (l ++ new)) as Hsame
    by (exists []; by rewrite app_nil_r).
  unfold process_recent_messages.
  set (c := ChatStr (tracking_chat_id chat)).
  rewrite bind_run, get_run.
  destruct (read_checkpoint _ _) as [last | e]; [| exact Hsame].
  rewrite bind_run, get_run.
  destruct (read_checkpoint _ _) as [last' | e]; [| exact Hsame].
  rewrite bind_run. unfold try_except_all.
  destruct (chat_entity E); cbn [negb]; [| exact Hsame].
  destruct (chat_history E) as [history | e].
  2: { rewrite bind_lift_raise. cbv beta iota.
       unfold mret at 1, M_ret at 1. cbv beta iota.
       by rewrite update_keeps_publications. }
  rewrite bind_lift_ok, bind_run.
  pose proof (collect_read_only (tracking_chat_id chat)
                (firstn limit history) w) as Hro.
  destruct (collect _ _ w) as [[ms | e] w0]; cbn in Hro; subst w0.
  2: { unfold mret at 1, M_ret at 1. cbv beta iota.
       by rewrite update_keeps_publications. }
  rewrite bind_run.
  destruct (process_all_extends_store E (rev ms) w l Hl) as [Hok Hnew].
  destruct (process_all E (rev ms) w) as [r w1]. cbn in Hok, Hnew. subst r.
  unfold mret at 1, M_ret at 1. cbv beta iota.
  by rewrite update_keeps_publications.
Qed.

Lemma X11_witness :
  publications_writable w_one_article = true
  /\ stored_publications (publications_file w_one_article)
     = Some [PDict {["url" := PStr "http://a.example/old"]}]
  /\ (exists new,
        stored_publications
          (publications_file
             (handle_new_message env_online m_twice w_one_article).2)
        = Some ([PDict {["url" := PStr "http://a.example/old"]}] ++ new)
        /\ length new = 3%nat)
  /\ (exists new,
        stored_publications
          (publications_file
             (process_recent_messages env_offline "me" 3 w_one_article).2)
        = Some ([PDict {["url" := PStr "http://a.example/old"]}] ++ new)
        /\ length new = 3%nat).
Proof.
  split; [reflexivity |]. split; [reflexivity |].
  assert (forall (o : option (list pyval)) x new,
            length (default [] o) = 4%nat ->
            o = Some ([x] ++ new) -> length new = 3%nat) as Hlen
    by (intros o x new H ->; by injection H).
  destruct (X11_store_is_append_only env_online m_twice "me" 3
              w_one_article _ eq_refl eq_refl) as [[new1 H1] _].
  destruct (X11_store_is_append_only env_offline m_twice "me" 3
              w_one_article _ eq_refl eq_refl) as [_ [new2 H2]].
  split.
  - exists new1. split; [exact H1 |].
    eapply Hlen; [| exact H1]. vm_compute. reflexivity.
  - exists new2. split; [exact H2 |].
    eapply Hlen; [| exact H2]. vm_compute. reflexivity.
Defined.

(** X12. With a store that can be written, an accepted message adds
    exactly one record for every url occurrence in its text, in the order
    of the text, each bearing its url, and after them one analysis record
    when the text is not blank; the records stored before stay in front. *)
Theorem X12_accepted_message_appends_its_batch (E : env) (m : message)
    (w : world) (s : sender) (l : list pyval) :
  msg_sender m = Ok s ->
  should_process_message (sent_at m)
    (ChatStr (tracking_chat_id (TELEGRAM_CHAT_ID E))) w = (Ok true, w) ->
  stored_publications (publications_file w) = Some l ->
  publications_writable w = true ->
  exists (arts : list (gmap string pyval)) (analysis : list pyval),
    store_records (handle_new_message E m w).2
    = l ++ map PDict arts ++ analysis
    /\ Forall2 (fun u a => a !! "url" = Some (PStr u))
               (extract_urls_from_text (default "" (msg_text m))) arts
    /\ length analysis
       = (if PyStr.nonempty (PyStr.strip (default "" (msg_text m)))
          then 1 else 0)%nat.
Proof.
  intros Hs Hacc Hl Hw.
  destruct (handle_accepted E m w s l Hs Hacc Hl)
    as (w1 & arts & analysis & Hq & Hall & Hblank & Htext & ->).
  exists arts, analysis. split; [| split].
  - cbn [snd]. unfold store_records. rewrite update_keeps_publications.
    destruct (persist_run (negb (is_nil arts && is_nil analysis))
                (PList (l ++ map PDict arts ++ analysis)) w1)
      as (_ & _ & _ & _ & _ & ->).
    destruct Hq as (_ & _ & Hq3 & Hq4 & _). rewrite Hq4, Hw, andb_true_r.
    destruct arts as [| a arts], analysis as [| x analysis];
      cbn [is_nil andb negb]; try reflexivity.
    rewrite Hq3. cbn [map app]. rewrite app_nil_r.
    unfold stored_publications in Hl.
    by destruct (publications_file w) as [| | | []]; simplify_eq.
  - eapply Forall2_impl; [exact Hall |]. by intros ? ? [? _].
  - destruct (PyStr.nonempty _).
    + by destruct (Htext eq_refl) as (d & -> & _).
    + by rewrite Hblank.
Qed.

Lemma X12_witness :
  msg_sender m_twice = Ok (User (Some "Ann"))
  /\ should_process_message (sent_at m_twice)
       (ChatStr (tracking_chat_id (TELEGRAM_CHAT_ID env_online))) w_fresh
     = (Ok true, w_fresh)
  /\ stored_publications (publications_file w_fresh) = Some []
  /\ publications_writable w_fresh = true
  /\ exists (arts : list (gmap string pyval)) (analysis : list pyval),
       store_records (handle_new_message env_online m_twice w_fresh).2
       = [] ++ map PDict arts ++ analysis
       /\ Forall2 (fun u a => a !! "url" = Some (PStr u))
                  (extract_urls_from_text (default "" (msg_text m_twice)))
                  arts
       /\ length analysis
          = (if PyStr.nonempty (PyStr.strip (default "" (msg_text m_twice)))
             then 1 else 0)%nat.
Proof.
  assert (should_process_message (sent_at m_twice)
            (ChatStr (tracking_chat_id (TELEGRAM_CHAT_ID env_online))) w_fresh
          = (Ok true, w_fresh)) as Hacc by (vm_compute; reflexivity).
  split; [reflexivity |]. split; [exact Hacc |].
  split; [reflexivity |]. split; [reflexivity |].
  exact (X12_accepted_message_appends_its_batch env_online m_twice w_fresh
           (User (Some "Ann")) [] eq_refl Hacc eq_refl eq_refl).
Defined.

(** X13. [process_urls_in_message] raises nothing and returns exactly
    one record for each url found in the text, in the same order, bearing
    that url and the sender; a fetch that fails gives its record too. It
    writes neither the checkpoint file nor the publication store. *)
Theorem X13_one_record_per_url (E : env) (message_text : string)
    (sender_name : pyval) (w : world) :
  exists (arts : list (gmap string pyval)) (w' : world),
    process_urls_in_message E message_text sender_name w = (Ok arts, w')
    /\ Forall2 (fun u a => a !! "url" = Some (PStr u)
                          /\ a !! "sender" = Some sender_name)
               (extract_urls_from_text message_text) arts
    /\ timestamp_file w' = timestamp_file w
    /\ publications_file w' = publications_file w.
Proof.
  destruct (process_urls_in_message_run E message_text sender_name w)
    as (arts & w' & Hrun & Hq & Hall).
  exists arts, w'. destruct Hq as (Hq1 & _ & Hq3 & _). by repeat split.
Qed.

(** X14. When the chat cannot be found, a scan does nothing: no message
    is read, and the checkpoint is not moved to the current time. *)
Theorem X14_scan_without_chat_changes_nothing (E : env) (chat : string)
    (limit : nat) (w : world) (last : option datetime) :
  chat_entity E = false ->
  get_last_check_timestamp (ChatStr (tracking_chat_id chat)) w
  = (Ok last, w) ->
  process_recent_messages E chat limit w = (Ok tt, w).
Proof.
  intros Hentity Hget. unfold process_recent_messages.
  rewrite (bind_ok _ _ _ _ _ Hget), (bind_ok _ _ _ _ _ Hget).
  rewrite bind_run. unfold try_except_all. by rewrite Hentity.
Qed.

Lemma X14_witness :
  chat_entity env_no_chat = false
  /\ get_last_check_timestamp (ChatStr (tracking_chat_id "me"))
       w_checkpoint_20
     = (Ok (Some (at_second 20)), w_checkpoint_20)
  /\ process_recent_messages env_no_chat "me" 3 w_checkpoint_20
     = (Ok tt, w_checkpoint_20).
Proof.
  assert (get_last_check_timestamp (ChatStr (tracking_chat_id "me"))
            w_checkpoint_20
          = (Ok (Some (at_second 20)), w_checkpoint_20)) as Hget
    by (vm_compute; reflexivity).
  split; [reflexivity |]. split; [exact Hget |].
  exact (X14_scan_without_chat_changes_nothing env_no_chat "me" 3
           w_checkpoint_20 _ eq_refl Hget).
Defined.

(** X15. When the listing of the chat's messages raises, the scan
    swallows the exception and still marks the chat as checked: it does
    exactly what an update of the checkpoint to the current time does,
    so the messages it could not list are not looked at by the next
    scan either. *)
Theorem X15_failed_listing_still_moves_checkpoint (E : env) (chat : string)
    (limit : nat) (w : world) (last : option datetime) (e : exn) :
  chat_entity E = true ->
  chat_history E = Raise e ->
  get_last_check_timestamp (ChatStr (tracking_chat_id chat)) w
  = (Ok last, w) ->
  process_recent_messages E chat limit w
  = update_last_check_timestamp (clock E) (ChatStr (tracking_chat_id chat))
      None w.
Proof.
  intros Hentity Hhistory Hget. unfold process_recent_messages.
  rewrite (bind_ok _ _ _ _ _ Hget), (bind_ok _ _ _ _ _ Hget).
  rewrite bind_run. unfold try_except_all.
  by rewrite Hentity, Hhistory.
Qed.

Lemma X15_witness :
  chat_entity env_no_listing = true
  /\ chat_history env_no_listing = Raise OtherException
  /\ get_last_check_timestamp (ChatStr (tracking_chat_id "me"))
       w_checkpoint_20
     = (Ok (Some (at_second 20)), w_checkpoint_20)
  /\ process_recent_messages env_no_listing "me" 3 w_checkpoint_20
     = update_last_check_timestamp (clock env_no_listing)
         (ChatStr (tracking_chat_id "me")) None w_checkpoint_20
  /\ (get_last_check_timestamp (ChatStr "me")
        (process_recent_messages env_no_listing "me" 3 w_checkpoint_20).2).1
     = Ok (Some (at_second 100)).
Proof.
  assert (get_last_check_timestamp (ChatStr (tracking_chat_id "me"))
            w_checkpoint_20
          = (Ok (Some (at_second 20)), w_checkpoint_20)) as Hget
    by (vm_compute; reflexivity).
  pose proof (X15_failed_listing_still_moves_checkpoint env_no_listing "me" 3
                w_checkpoint_20 _ OtherException eq_refl eq_refl Hget) as H.
  split; [reflexivity |]. split; [reflexivity |]. split; [exact Hget |].
  split; [exact H |]. rewrite H. vm_compute. reflexivity.
Defined.

(** Messages that are not after the checkpoint are all left out. *)
Lemma collect_old tracking ms w T :
  get_last_check_timestamp (ChatStr tracking) w = (Ok (Some T), w) ->
  Forall (fun m => not_after (sent_at m) T) ms ->
  collect tracking ms w = (Ok [], w).
Proof.
  intros Hget. induction 1 as [| m ms Hm _ IH]; [reflexivity |].
  cbn [collect].
  rewrite (bind_ok _ _ _ _ _ (should_process_old _ _ _ T Hget Hm)).
  by rewrite (bind_ok _ _ _ _ _ IH).
Qed.

(** X16. A scan that finds no message after the checkpoint processes
    nothing (no fetch, no write of the store) and moves the checkpoint to
    the current time: it does exactly what an update of the checkpoint
    to now does. *)
Theorem X16_scan_with_nothing_new_marks_now (E : env) (chat : string)
    (limit : nat) (w : world) (T : datetime) (history : list message) :
  chat_entity E = true ->
  chat_history E = Ok history ->
  get_last_check_timestamp (ChatStr (tracking_chat_id chat)) w
  = (Ok (Some T), w) ->
  Forall (fun m => not_after (sent_at m) T) (firstn limit history) ->
  process_recent_messages E chat limit w
  = update_last_check_timestamp (clock E) (ChatStr (tracking_chat_id chat))
      None w.
Proof.
  intros Hentity Hhistory Hget Hold. unfold process_recent_messages.
  rewrite (bind_ok _ _ _ _ _ Hget), (bind_ok _ _ _ _ _ Hget).
  rewrite bind_run. unfold try_except_all.
  rewrite Hentity, Hhistory. cbn [negb]. rewrite bind_lift_ok.
  by rewrite (bind_ok _ _ _ _ _ (collect_old _ _ _ T Hget Hold)).
Qed.

Lemma X16_witness :
  chat_entity env_offline = true
  /\ chat_history env_offline
     = Ok [m_at 30 "third"; m_at 20 "second"; m_at 10 "first"]
  /\ get_last_check_timestamp (ChatStr (tracking_chat_id "me"))
       w_checkpoint_50
     = (Ok (Some (at_second 50)), w_checkpoint_50)
  /\ Forall (fun m => not_after (sent_at m) (at_second 50))
       (firstn 3 [m_at 30 "third"; m_at 20 "second"; m_at 10 "first"])
  /\ process_recent_messages env_offline "me" 3 w_checkpoint_50
     = update_last_check_timestamp (clock env_offline)
         (ChatStr (tracking_chat_id "me")) None w_checkpoint_50.
Proof.
  assert (get_last_check_timestamp (ChatStr (tracking_chat_id "me"))
            w_checkpoint_50
          = (Ok (Some (at_second 50)), w_checkpoint_50)) as Hget
    by (vm_compute; reflexivity).
  assert (Forall (fun m => not_after (sent_at m) (at_second 50))
            (firstn 3 [m_at 30 "third"; m_at 20 "second"; m_at 10 "first"]))
    as Hold
    by (repeat constructor; unfold not_after; vm_compute; discriminate).
  split; [reflexivity |]. split; [reflexivity |]. split; [exact Hget |].
  split; [exact Hold |].
  exact (X16_scan_with_nothing_new_marks_now env_offline "me" 3
           w_checkpoint_50 (at_second 50) _ eq_refl eq_refl Hget Hold).
Defined.

(** * Further properties of the enrichment processor *)

(** The filter of [load_api_keys_direct] keeps the real keys. *)
Lemma usable_real_key placeholder (k : option string) :
  key_set k
  && negb (bool_decide (k ∈ [Some placeholder; Some ""; Some "None"]))
  = real_key placeholder k.
Proof.
  destruct k as [s |]; [| reflexivity]. cbn [key_set real_key].
  destruct (PyStr.nonempty s) eqn:Hs; [| reflexivity]. cbn [andb].
  destruct (String.eqb_spec s placeholder) as [-> | Hp].
  { rewrite bool_decide_eq_true_2; [reflexivity | by left]. }
  destruct (String.eqb_spec s "None") as [-> | Hn].
  { rewrite bool_decide_eq_true_2; [reflexivity |]. by right; right; left. }
  rewrite bool_decide_eq_false_2; [reflexivity |].
  rewrite !elem_of_cons, elem_of_nil.
  intros [[= ?] | [[= ->] | [[= ?] | []]]]; done.
Qed.

(** X17. On a fresh processor, [load_api_keys_direct] answers true
    exactly when the processor is then available. A key that is empty,
    ["None"] or the placeholder counts as no key. With the preference
    ["anthropic"] or ["openai"] only that provider's key is looked at
    (there is no fallback to the other provider), and with ["auto"]
    Anthropic is taken before OpenAI. *)
Theorem X17_provider_selection (openai anthropic : option string)
    (provider_preference : string) :
  let loaded_ :=
    SimpleLLMProcessor.load_api_keys_direct SimpleLLMProcessor.new
      openai anthropic provider_preference in
  let real_openai := real_key "YOUR_OPENAI_API_KEY_HERE" openai in
  let real_anthropic := real_key "YOUR_ANTHROPIC_API_KEY_HERE" anthropic in
  loaded_.2 = SimpleLLMProcessor.is_available loaded_.1
  /\ SimpleLLMProcessor.provider_ loaded_.1
     = (if String.eqb provider_preference "anthropic"
        then (if real_anthropic then Some Anthropic else None)
        else if String.eqb provider_preference "openai"
        then (if real_openai then Some OpenAI else None)
        else if String.eqb provider_preference "auto"
        then (if real_anthropic then Some Anthropic
              else if real_openai then Some OpenAI else None)
        else None).
Proof.
  cbv zeta. unfold SimpleLLMProcessor.load_api_keys_direct.
  rewrite !usable_real_key.
  cbn [SimpleLLMProcessor.new SimpleLLMProcessor.openai_key
       SimpleLLMProcessor.anthropic_key SimpleLLMProcessor.provider_
       fst snd].
  unfold SimpleLLMProcessor.is_available.
  cbn [SimpleLLMProcessor.openai_key SimpleLLMProcessor.anthropic_key
       SimpleLLMProcessor.provider_].
  assert (forall p k, real_key p k = true -> key_set k = true) as Hreal.
  { intros p [s |]; [| discriminate]. cbn. by destruct (PyStr.nonempty s). }
  destruct (String.eqb_spec provider_preference "anthropic") as [-> | _];
    [| destruct (String.eqb_spec provider_preference "openai") as [-> | _]];
    cbn [String.eqb Ascii.eqb Bool.eqb andb];
    destruct (real_key _ openai) eqn:Ho, (real_key _ anthropic) eqn:Ha;
    rewrite ?(Hreal _ _ Ho), ?(Hreal _ _ Ha); cbn [key_set andb orb];
    rewrite ?andb_true_r, ?andb_false_r, ?orb_true_r;
    try destruct (String.eqb provider_preference "auto");
    split; reflexivity.
Qed.

(** A merge sets the enrichment fields and no other. *)
Lemma merge_sets_enriched_keys p (basic r : gmap string pyval) e k :
  merge_enhanced p basic e = Ok r ->
  k ∉ enriched_keys ->
  r !! k = basic !! k.
Proof.
  unfold merge_enhanced, enriched_keys. destruct e; try discriminate.
  intros [= <-] Hk.
  rewrite !elem_of_cons, elem_of_nil in Hk.
  rewrite !lookup_insert_ne; [reflexivity | ..]; intros <-; tauto.
Qed.

(** What a merge records about itself. *)
Lemma merge_flags p (basic r : gmap string pyval) e :
  merge_enhanced p basic e = Ok r ->
  r !! "enhanced_by_llm" = Some (PBool true)
  /\ r !! "llm_provider" = Some (provider_value p).
Proof.
  unfold merge_enhanced. destruct e; try discriminate. intros [= <-].
  split; [by rewrite lookup_insert_ne, lookup_insert_eq |].
  by rewrite lookup_insert_eq.
Qed.

(** The two outcomes of an enrichment: the basic record, flagged, or a
    merge of the service's reply into it. *)
Lemma enhance_cases S P url html (basic : gmap string pyval) :
  SimpleLLMProcessor.enhance_article_extraction S P url html basic
  = <["enhanced_by_llm" := PBool false]> basic
  \/ exists e r,
       merge_enhanced (SimpleLLMProcessor.provider_ P) basic e = Ok r
       /\ SimpleLLMProcessor.enhance_article_extraction S P url html basic = r
       /\ SimpleLLMProcessor.is_available P = true.
Proof.
  unfold SimpleLLMProcessor.enhance_article_extraction, not_enhanced.
  destruct (SimpleLLMProcessor.is_available P); cbn [negb]; [| by left].
  destruct (PyStr.nonempty _); [| by left].
  destruct (json_loads S _) as [e |]; [| by left].
  destruct (merge_enhanced _ _ e) as [r | ?] eqn:Hm; [| by left].
  right. by exists e, r.
Qed.

(** X18. [enhance_article_extraction] never loses what was scraped:
    every field of the basic record that is no enrichment field (the url,
    the image, the extraction time and method) is returned as it was.
    The result is either the basic record with the flag
    [enhanced_by_llm] false, its title, summary and author untouched, or
    a record flagged true that names the provider. *)
Theorem X18_enrichment_keeps_the_scraped_fields (S : service)
    (P : SimpleLLMProcessor.t) (url raw_html : string)
    (basic_data : gmap string pyval) :
  (forall k : string,
     k ∉ enriched_keys ->
     SimpleLLMProcessor.enhance_article_extraction S P url raw_html
       basic_data !! k
     = basic_data !! k)
  /\ (SimpleLLMProcessor.enhance_article_extraction S P url raw_html
        basic_data
      = <["enhanced_by_llm" := PBool false]> basic_data
      \/ (SimpleLLMProcessor.is_available P = true
          /\ SimpleLLMProcessor.enhance_article_extraction S P url raw_html
               basic_data !! "enhanced_by_llm" = Some (PBool true)
          /\ SimpleLLMProcessor.enhance_article_extraction S P url raw_html
               basic_data !! "llm_provider"
             = Some (provider_value (SimpleLLMProcessor.provider_ P)))).
Proof.
  destruct (enhance_cases S P url raw_html basic_data)
    as [-> | (e & r & Hmerge & -> & Havail)].
  - split; [| by left]. intros k Hk. apply lookup_insert_ne. intros <-.
    apply Hk. unfold enriched_keys. rewrite !elem_of_cons. tauto.
  - split.
    + intros k Hk. by apply (merge_sets_enriched_keys _ _ _ _ _ Hmerge).
    + right. split; [exact Havail |]. by apply (merge_flags _ _ _ _ Hmerge).
Qed.

Ltac not_enhanced_case :=
  eexists _, false; split; [reflexivity |];
  repeat (split; [reflexivity |]); discriminate.

(** X19. [summarize_message] of the direct-call processor raises
    nothing and always returns a dictionary that carries the message
    text under [original_message], the sender under [sender] and a
    boolean flag [enhanced_by_llm]; the flag is true only when the
    processor is available and the text is not blank, and then the
    record names the provider. *)
Theorem X19_analysis_always_carries_its_message (S : service)
    (P : SimpleLLMProcessor.t) (message_text : string)
    (sender_name : pyval) :
  exists (d : gmap string pyval) (b : bool),
    SimpleLLMProcessor.summarize_message S P message_text sender_name
    = PDict d
    /\ d !! "original_message" = Some (PStr message_text)
    /\ d !! "sender" = Some sender_name
    /\ d !! "enhanced_by_llm" = Some (PBool b)
    /\ (b = true ->
        SimpleLLMProcessor.is_available P = true
        /\ PyStr.nonempty (PyStr.strip message_text) = true
        /\ d !! "llm_provider"
           = Some (provider_value (SimpleLLMProcessor.provider_ P))).
Proof.
  unfold SimpleLLMProcessor.summarize_message.
  destruct (SimpleLLMProcessor.is_available P) eqn:Havail; cbn [negb orb];
    [| not_enhanced_case].
  destruct (PyStr.nonempty (PyStr.strip message_text)) eqn:Hstrip;
    cbn [negb]; [| not_enhanced_case].
  destruct (PyStr.nonempty (SimpleLLMProcessor._call_llm _ _ _));
    [| not_enhanced_case].
  destruct (json_loads S _) as [analysis |]; [| not_enhanced_case].
  destruct (tag_analysis _ _ _ analysis) as [a | e] eqn:Htag;
    [| not_enhanced_case].
  unfold tag_analysis in Htag. destruct analysis; try discriminate.
  simpl in Htag. injection Htag as <-.
  eexists _, true. split; [reflexivity |].
  split; [by rewrite lookup_insert_ne, lookup_insert_eq |].
  split; [by rewrite lookup_insert_eq |].
  split; [rewrite !lookup_insert_ne by done; by rewrite lookup_insert_eq |].
  intros _. split; [reflexivity |]. split; [reflexivity |].
  rewrite lookup_insert_ne by done. rewrite lookup_insert_ne by done.
  by rewrite lookup_insert_eq.
Qed.

(** * Further properties of the url scanner *)

#[local] Arguments String.append : simpl nomatch.

Lemma append_assoc3 (a b c : string) : (a +:+ b) +:+ c = a +:+ (b +:+ c).
Proof. induction a as [| x a IH]; simpl; by rewrite ?IH. Qed.

(** [span] cuts its argument in two. *)
Lemma span_app p s a b : span p s = (a, b) -> s = a +:+ b.
Proof.
  revert a b. induction s as [| c s IH]; intros a b; cbn [span].
  - by intros [= <- <-].
  - destruct (p c); [| by intros [= <- <-]].
    destruct (span p s) as [a' b'] eqn:Hs. intros [= <- <-].
    simpl. by rewrite (IH a' b').
Qed.

Lemma optional_group_app lit p s a b :
  optional_group lit p s = (a, b) -> s = a +:+ b.
Proof.
  destruct s as [| c s]; cbn [optional_group]; [by intros [= <- <-] |].
  destruct (Ascii.eqb c lit); [| by intros [= <- <-]].
  destruct (span p s) as [a' b'] eqn:Hs. intros [= <- <-].
  simpl. by rewrite (span_app _ _ _ _ Hs).
Qed.

(** What [span] takes is in the class. *)
Lemma span_head p s c a b : span p s = (String c a, b) -> p c = true.
Proof.
  destruct s as [| x s]; cbn [span]; [discriminate |].
  destruct (p x) eqn:Hx; [| discriminate].
  destruct (span p s). by intros [= <- _ _].
Qed.

(** A string that starts with [p] is [p] and the rest. *)
Lemma startswith_drop p s :
  PyStr.startswith p s = true -> s = p +:+ PyStr.drop (String.length p) s.
Proof.
  unfold PyStr.startswith. revert s.
  induction p as [| x p IH]; intros s; [reflexivity |].
  destruct s as [| c s]; cbn [String.prefix]; [discriminate |].
  destruct (ascii_dec x c) as [-> |]; [| discriminate].
  intros H. simpl.
  by rewrite <- (IH s H).
Qed.

Lemma startswith_app p s : PyStr.startswith p (p +:+ s) = true.
Proof.
  unfold PyStr.startswith. induction p as [| x p IH]; cbn; [by destruct s |].
  by destruct (ascii_dec x x).
Qed.

(** A match of the pattern is a prefix of the text that begins with one
    of the two schemes and has a host of one character at least. *)
Lemma match_url_prefix s u :
  match_url s = Some u ->
  (exists rest, s = u +:+ rest)
  /\ exists scheme tail,
       (scheme = "http://" \/ scheme = "https://")
       /\ u = scheme +:+ tail /\ begins_with_host tail.
Proof.
  unfold match_url.
  set (host_class := fun c => one_of "-." c || is_word c).
  assert (forall scheme s1,
            s = scheme +:+ s1 ->
            (scheme = "http://" \/ scheme = "https://") ->
            (let '(host, s2) := span host_class s1 in
             if negb (PyStr.nonempty host) then None else
             let '(port, s3) := span (fun c => one_of ":" c || is_digit c) s2 in
             let '(path, s4) :=
               optional_group "/" (fun c => one_of "/_." c || is_word c) s3 in
             let '(query, s5) :=
               if PyStr.nonempty path
               then optional_group "?"
                      (fun c => one_of "&=%." c || is_word c) s4
               else (EmptyString, s4) in
             let '(fragment, _) :=
               if PyStr.nonempty path
               then optional_group "#" (fun c => one_of "." c || is_word c) s5
               else (EmptyString, s5) in
             Some (scheme +:+ host +:+ port +:+ path +:+ query +:+ fragment))
            = Some u ->
            (exists rest, s = u +:+ rest)
            /\ exists scheme tail,
                 (scheme = "http://" \/ scheme = "https://")
                 /\ u = scheme +:+ tail /\ begins_with_host tail) as Hbody.
  { intros scheme s1 Hs Hscheme.
    destruct (span host_class s1) as [host s2] eqn:H1.
    destruct (PyStr.nonempty host) eqn:Hhost; cbn [negb]; [| discriminate].
    destruct (span _ s2) as [port s3] eqn:H2.
    destruct (optional_group "/" _ s3) as [path s4] eqn:H3.
    pose proof H1 as Hhead.
    apply span_app in H1, H2. apply optional_group_app in H3.
    assert (forall (query s5 fragment s6 : string),
              s4 = query +:+ s5 -> s5 = fragment +:+ s6 ->
              Some (scheme +:+ host +:+ port +:+ path +:+ query +:+ fragment)
              = Some u ->
              (exists rest, s = u +:+ rest)
              /\ exists scheme tail,
                   (scheme = "http://" \/ scheme = "https://")
                   /\ u = scheme +:+ tail /\ begins_with_host tail)
      as Hend.
    { intros query s5 fragment s6 H4 H5 [= <-]. split.
      - exists s6. rewrite Hs, H1, H2, H3, H4, H5.
        by rewrite !append_assoc3.
      - exists scheme, (host +:+ port +:+ path +:+ query +:+ fragment).
        split; [exact Hscheme |]. split; [reflexivity |].
        destruct host as [| c host]; [discriminate |].
        exact (span_head _ _ _ _ _ Hhead). }
    destruct (PyStr.nonempty path).
    - destruct (optional_group "?" _ s4) as [query s5] eqn:H4.
      destruct (optional_group "#" _ s5) as [fragment s6] eqn:H5.
      apply optional_group_app in H4, H5. by apply (Hend query s5 fragment s6).
    - by apply (Hend "" s4 "" s4). }
  destruct (PyStr.startswith "https://" s) eqn:Hs.
  - apply startswith_drop in Hs. apply (Hbody "https://" _ Hs). by right.
  - destruct (PyStr.startswith "http://" s) eqn:Hs'; [| discriminate].
    apply startswith_drop in Hs'. apply (Hbody "http://" _ Hs'). by left.
Qed.

Lemma occurs_in_cons c u s : occurs_in u s -> occurs_in u (String c s).
Proof. intros (a & b & ->). by exists (String c a), b. Qed.

Lemma findall_from_sound s : forall skip u,
  In u (findall_from skip s) ->
  occurs_in u s
  /\ exists scheme tail,
       (scheme = "http://" \/ scheme = "https://")
       /\ u = scheme +:+ tail /\ begins_with_host tail.
Proof.
  induction s as [| c s IH]; intros skip u; cbn [findall_from]; [done |].
  assert (forall k, In u (findall_from k s) ->
                    occurs_in u (String c s)
                    /\ exists scheme tail,
                         (scheme = "http://" \/ scheme = "https://")
                         /\ u = scheme +:+ tail
                         /\ begins_with_host tail) as Hrest.
  { intros k Hin. destruct (IH k u Hin) as [Hocc Hscheme].
    split; [by apply occurs_in_cons | exact Hscheme]. }
  destruct skip as [| k]; [| apply Hrest].
  destruct (match_url (String c s)) as [u0 |] eqn:Hm; [| apply Hrest].
  intros [<- | Hin]; [| by apply (Hrest _ Hin)].
  destruct (match_url_prefix _ _ Hm) as [[rest Hpre] Hscheme].
  split; [| exact Hscheme]. by exists "", rest.
Qed.

(** X20. [extract_urls_from_text] invents nothing: every url it
    returns is a piece of the text, and it is [http://] or [https://]
    followed by at least one character of a host (a letter, a digit, an
    underscore, a dash or a dot). *)
Theorem X20_urls_are_pieces_of_the_text (text u : string) :
  In u (extract_urls_from_text text) ->
  occurs_in u text
  /\ exists scheme tail : string,
       (scheme = "http://" \/ scheme = "https://")
       /\ u = scheme +:+ tail
       /\ begins_with_host tail.
Proof.
  unfold extract_urls_from_text.
  destruct (PyStr.nonempty text); cbn [negb]; [| done].
  apply findall_from_sound.
Qed.

Lemma X20_witness :
  In "http://a.example/x"
     (extract_urls_from_text "see http://a.example/x, then reply")
  /\ occurs_in "http://a.example/x" "see http://a.example/x, then reply"
  /\ exists scheme tail : string,
       (scheme = "http://" \/ scheme = "https://")
       /\ "http://a.example/x" = scheme +:+ tail
       /\ begins_with_host tail.
Proof.
  assert (In "http://a.example/x"
            (extract_urls_from_text "see http://a.example/x, then reply"))
    as Hin by (vm_compute; by left).
  split; [exact Hin |].
  exact (X20_urls_are_pieces_of_the_text _ _ Hin).
Defined.

(** * Further properties of the interactive agent *)

(** The lookup of a url in the loaded list. *)
Lemma any_url_false l url :
  Agent.any_url l url = Ok false -> count_url url l = 0%nat.
Proof.
  induction l as [| pub l IH]; [reflexivity |].
  cbn [Agent.any_url]. unfold count_url, has_url at 1. cbn [List.filter].
  destruct pub as [| | | | | d]; try discriminate.
  cbn [py_getitem field]. destruct (d !! "url") as [u |]; [| discriminate].
  cbn [mbind result_bind].
  destruct (py_eq_str u url); [discriminate |]. exact IH.
Qed.

Lemma any_url_true l url :
  records_have_url l ->
  (0 < count_url url l)%nat ->
  Agent.any_url l url = Ok true.
Proof.
  induction 1 as [| pub l [u Hu] _ IH]; [cbn; lia |].
  cbn [Agent.any_url]. unfold count_url, has_url at 1. cbn [List.filter].
  destruct pub as [| | | | | d]; try discriminate.
  cbn [py_getitem field] in *. rewrite Hu. cbn [mbind result_bind].
  destruct (py_eq_str u url); [reflexivity |]. exact IH.
Qed.

(** Enrichment with the client processor keeps the url. *)
Lemma client_enhance_keeps_url S P url html (basic : gmap string pyval) :
  LLMProcessor.enhance_article_extraction S P url html basic !! "url"
  = basic !! "url".
Proof.
  unfold LLMProcessor.enhance_article_extraction, not_enhanced.
  destruct (negb _); [reflexivity |].
  destruct (PyStr.nonempty _); [| by rewrite lookup_insert_ne].
  destruct (json_loads _ _) as [e |]; [| by rewrite lookup_insert_ne].
  destruct (merge_enhanced _ _ _) as [r | ?] eqn:Hm;
    [| by rewrite lookup_insert_ne].
  unfold merge_enhanced in Hm. destruct e; try discriminate.
  injection Hm as <-. by rewrite !lookup_insert_ne.
Qed.

(** The resolver of [agent.py] raises nothing, touches no file, makes
    one fetch, and its record bears the url. *)
Lemma agent_extract_run (E : Agent.env) url w :
  exists r w1,
    Agent.extract_article_data E url w = (Ok r, w1)
    /\ r !! "url" = Some (PStr url)
    /\ publications_file w1 = publications_file w
    /\ publications_writable w1 = publications_writable w
    /\ timestamp_file w1 = timestamp_file w
    /\ trace w1 = EvFetch url :: trace w.
Proof.
  unfold Agent.extract_article_data. rewrite bind_run. unfold modify.
  destruct (Agent.http_get E url) as [soup | e message].
  - unfold Agent.scrape_basic. rewrite !bind_run, !now_run.
    destruct (LLMProcessor.is_available _).
    + eexists _, _. split; [reflexivity |].
      split; [by rewrite client_enhance_keeps_url | done].
    + eexists _, _. split; [reflexivity |].
      split; [by rewrite lookup_insert_ne | done].
  - rewrite !bind_run, !now_run. eexists _, _. by repeat split.
Qed.

(** The operator's changes leave the url as it is. *)
Lemma modify_keeps_url (d d' : gmap string pyval) t s a i :
  Agent.modify_article_data d t s a i = Ok d' -> d' !! "url" = d !! "url".
Proof.
  unfold Agent.modify_article_data.
  destruct (py_getitem (PDict d) "title"); [| discriminate].
  cbn [mbind result_bind].
  destruct (py_getitem _ "summary") as [x |]; [| discriminate].
  cbn [mbind result_bind].
  destruct (negb (Agent.sliceable x)); [discriminate |].
  destruct (py_getitem _ "author"); [| discriminate].
  cbn [mbind result_bind].
  destruct (py_getitem _ "image") as [y |]; [| discriminate].
  cbn [mbind result_bind].
  destruct (negb (Agent.sliceable y)); [discriminate |].
  intros [= <-].
  repeat match goal with
         | |- context [if ?b then _ else _] => destruct b
         end;
    by rewrite ?lookup_insert_ne.
Qed.

Lemma count_url_one u url (a : gmap string pyval) :
  a !! "url" = Some (PStr url) ->
  count_url u [PDict a] = if String.eqb url u then 1%nat else 0%nat.
Proof.
  intros Ha. unfold count_url, has_url. cbn [List.filter field].
  rewrite Ha. cbn [py_eq_str]. by destruct (String.eqb url u).
Qed.

Lemma unique_urls_snoc l url (a : gmap string pyval) :
  unique_urls l ->
  count_url url l = 0%nat ->
  a !! "url" = Some (PStr url) ->
  unique_urls (l ++ [PDict a]).
Proof.
  intros Hl Hnew Ha u. rewrite count_url_app, (count_url_one u url a Ha).
  destruct (String.eqb_spec url u) as [<- | _]; [lia |].
  specialize (Hl u). lia.
Qed.

(** X21. The url loop of [agent.py] keeps the urls of the publication
    store unique: if no url is borne by two records of the list it is
    given and of the list on disk, the same holds of the list on disk
    after the loop and of the list it returns, whatever the operator
    answers, whatever the fetches and the enrichment give, and whether or
    not a write fails. *)
Theorem X21_interactive_loop_keeps_urls_unique (E : Agent.env)
    (urls : list string) (l : list pyval) (w : world) :
  unique_urls l ->
  unique_urls (store_records w) ->
  unique_urls (store_records (Agent.process_urls E urls (PList l) w).2)
  /\ forall v : pyval,
       (Agent.process_urls E urls (PList l) w).1 = Ok v ->
       exists l', v = PList l' /\ unique_urls l'.
Proof.
  revert l w. induction urls as [| url rest IH]; intros l w Hl Hw.
  - split; [exact Hw |]. intros v [= <-]. by exists l.
  - cbn [Agent.process_urls Agent.already_stored].
    destruct (Agent.any_url l url) as [[] | e] eqn:Hany.
    + rewrite bind_lift_ok. by apply IH.
    + rewrite bind_lift_ok.
      destruct (agent_extract_run E url w)
        as (r & w1 & Hrun & Hurl & Hfile & Hwritable & _ & _).
      rewrite (bind_ok _ _ _ _ _ Hrun).
      assert (unique_urls (store_records w1)) as Hw1
        by (unfold store_records; by rewrite Hfile).
      assert (forall a : gmap string pyval,
                a !! "url" = Some (PStr url) ->
                unique_urls
                  (store_records
                     ((publications ← lift (py_append (PList l) (PDict a));
                       _ ← Agent.save_publications publications;
                       _ ← modify (log (EvOdt (PDict a)));
                       Agent.process_urls E rest publications) w1).2)
                /\ forall v,
                     ((publications ← lift (py_append (PList l) (PDict a));
                       _ ← Agent.save_publications publications;
                       _ ← modify (log (EvOdt (PDict a)));
                       Agent.process_urls E rest publications) w1).1 = Ok v ->
                     exists l', v = PList l' /\ unique_urls l') as Hsave.
      { intros a Ha. cbn [py_append]. rewrite bind_lift_ok, bind_run.
        unfold Agent.save_publications.
        destruct (publications_writable w1); [| split; [exact Hw1 | done]].
        rewrite bind_run. unfold modify.
        assert (unique_urls (l ++ [PDict a])) as Hl'
          by (apply (unique_urls_snoc l url a Hl); [by apply any_url_false | done]).
        by apply IH. }
      destruct (Agent.display_article_preview r);
        [rewrite bind_lift_ok | by rewrite bind_lift_raise].
      destruct (Agent.operator E r) as [| | nt ns na ni confirmed].
      * rewrite bind_mret. by apply Hsave.
      * rewrite bind_mret. by apply IH.
      * rewrite bind_run.
        destruct (Agent.modify_article_data r nt ns na ni) as [modified | e] eqn:Hm;
          [rewrite bind_lift_ok | by rewrite bind_lift_raise].
        destruct (Agent.display_article_preview modified);
          [rewrite bind_lift_ok | by rewrite bind_lift_raise].
        unfold mret at 1, M_ret at 1. cbv beta iota.
        destruct confirmed; [| by apply IH].
        apply Hsave. by rewrite (modify_keeps_url _ _ _ _ _ _ Hm).
    + by rewrite bind_lift_raise.
Qed.

Lemma unique_urls_nil : unique_urls [].
Proof. intros u. cbn. lia. Qed.

Lemma X21_witness :
  unique_urls []
  /\ unique_urls (store_records w_fresh)
  /\ unique_urls
       (store_records
          (Agent.process_urls env_interactive
             ["http://a.example/x"; "http://a.example/y";
              "http://a.example/x"] (PList []) w_fresh).2)
  /\ length
       (store_records
          (Agent.process_urls env_interactive
             ["http://a.example/x"; "http://a.example/y";
              "http://a.example/x"] (PList []) w_fresh).2) = 2%nat.
Proof.
  split; [exact unique_urls_nil |]. split; [exact unique_urls_nil |].
  split; [| vm_compute; reflexivity].
  exact (proj1 (X21_interactive_loop_keeps_urls_unique env_interactive
                  ["http://a.example/x"; "http://a.example/y";
                   "http://a.example/x"] [] w_fresh
                  unique_urls_nil unique_urls_nil)).
Defined.

(** X22. A url that a record of the loaded list bears is skipped by the
    loop of [agent.py]: it is not fetched again, nothing is asked of the
    operator and nothing is written. *)
Theorem X22_stored_url_is_not_fetched_again (E : Agent.env) (url : string)
    (rest : list string) (l : list pyval) (w : world) :
  records_have_url l ->
  (0 < count_url url l)%nat ->
  Agent.process_urls E (url :: rest) (PList l) w
  = Agent.process_urls E rest (PList l) w
  /\ Agent.process_urls E [url] (PList l) w = (Ok (PList l), w).
Proof.
  intros Hl Hin. cbn [Agent.process_urls Agent.already_stored].
  by rewrite (any_url_true l url Hl Hin), !bind_lift_ok.
Qed.

Lemma X22_witness :
  records_have_url [PDict {["url" := PStr "http://a.example/x"]}]
  /\ (0 < count_url "http://a.example/x"
            [PDict {["url" := PStr "http://a.example/x"]}])%nat
  /\ Agent.process_urls env_interactive ["http://a.example/x"]
       (PList [PDict {["url" := PStr "http://a.example/x"]}]) w_fresh
     = (Ok (PList [PDict {["url" := PStr "http://a.example/x"]}]), w_fresh).
Proof.
  assert (records_have_url [PDict {["url" := PStr "http://a.example/x"]}])
    as Hl by (repeat constructor; by eexists).
  assert (0 < count_url "http://a.example/x"
                [PDict {["url" := PStr "http://a.example/x"]}])%nat
    as Hin by (vm_compute; lia).
  split; [exact Hl |]. split; [exact Hin |].
  exact (proj2 (X22_stored_url_is_not_fetched_again env_interactive
                  "http://a.example/x" [] _ w_fresh Hl Hin)).
Defined.

(** X23. An article that the operator rejects is fetched but not
    stored: the list and the file are as they were, so the url is not
    remembered and a later message that holds it has it fetched again. *)
Theorem X23_rejected_article_is_not_remembered (E : Agent.env)
    (url : string) (l : list pyval) (w w1 : world)
    (r : gmap string pyval) :
  Agent.already_stored (PList l) url = Ok false ->
  Agent.extract_article_data E url w = (Ok r, w1) ->
  Agent.display_article_preview r = Ok tt ->
  Agent.operator E r = Agent.Reject ->
  Agent.process_urls E [url] (PList l) w = (Ok (PList l), w1)
  /\ publications_file w1 = publications_file w
  /\ trace w1 = EvFetch url :: trace w.
Proof.
  intros Hnew Hrun Hshow Hreject.
  destruct (agent_extract_run E url w)
    as (r' & w1' & Hrun' & _ & Hfile & _ & _ & Htrace).
  rewrite Hrun in Hrun'. injection Hrun' as <- <-.
  split; [| by split].
  cbn [Agent.process_urls]. rewrite Hnew, bind_lift_ok.
  rewrite (bind_ok _ _ _ _ _ Hrun), Hshow, bind_lift_ok, Hreject.
  reflexivity.
Qed.

Lemma X23_witness :
  Agent.already_stored (PList []) "http://a.example/x" = Ok false
  /\ (Agent.process_urls env_rejecting ["http://a.example/x"] (PList [])
        w_fresh).1 = Ok (PList [])
  /\ publications_file
       (Agent.process_urls env_rejecting ["http://a.example/x"] (PList [])
          w_fresh).2 = publications_file w_fresh.
Proof.
  split; [reflexivity |].
  pose (r := match (Agent.extract_article_data env_rejecting
                      "http://a.example/x" w_fresh).1 with
             | Ok r => r
             | Raise _ => ∅
             end).
  pose (w1 := (Agent.extract_article_data env_rejecting
                 "http://a.example/x" w_fresh).2).
  assert (Agent.extract_article_data env_rejecting "http://a.example/x"
            w_fresh = (Ok r, w1)) as Hrun by (vm_compute; reflexivity).
  assert (Agent.display_article_preview r = Ok tt) as Hshow
    by (vm_compute; reflexivity).
  destruct (X23_rejected_article_is_not_remembered env_rejecting
              "http://a.example/x" [] w_fresh w1 r eq_refl Hrun Hshow eq_refl)
    as (Hloop & Hfile & _).
  rewrite Hloop. split; [reflexivity | exact Hfile].
Defined.

(** X24. [agent.py] does not catch a failed write of the store: when an
    article is accepted and the file cannot be written, the loop raises
    [PermissionError] to its caller, the file is as it was, and the urls
    that follow in the message are not processed. *)
Theorem X24_failed_write_stops_the_interactive_loop (E : Agent.env)
    (url : string) (rest : list string) (l : list pyval) (w w1 : world)
    (r : gmap string pyval) :
  Agent.already_stored (PList l) url = Ok false ->
  Agent.extract_article_data E url w = (Ok r, w1) ->
  Agent.display_article_preview r = Ok tt ->
  Agent.operator E r = Agent.Accept ->
  publications_writable w = false ->
  (Agent.process_urls E (url :: rest) (PList l) w).1 = Raise PermissionError
  /\ publications_file (Agent.process_urls E (url :: rest) (PList l) w).2
     = publications_file w
  /\ trace (Agent.process_urls E (url :: rest) (PList l) w).2
     = EvPublicationsWrite (PList (l ++ [PDict r])) false
       :: EvFetch url :: trace w.
Proof.
  intros Hnew Hrun Hshow Haccept Hw.
  destruct (agent_extract_run E url w)
    as (r' & w1' & Hrun' & _ & Hfile & Hwritable & _ & Htrace).
  rewrite Hrun in Hrun'. injection Hrun' as <- <-.
  cbn [Agent.process_urls]. rewrite Hnew, bind_lift_ok.
  rewrite (bind_ok _ _ _ _ _ Hrun), Hshow, bind_lift_ok, Haccept, bind_mret.
  cbn [py_append]. rewrite bind_lift_ok, bind_run.
  unfold Agent.save_publications. rewrite Hwritable, Hw. cbn.
  by rewrite Hfile, Htrace.
Qed.

Lemma X24_witness :
  Agent.already_stored (PList []) "http://a.example/x" = Ok false
  /\ publications_writable w_store_readonly = false
  /\ (Agent.process_urls env_interactive
        ["http://a.example/x"; "http://a.example/y"] (PList [])
        w_store_readonly).1 = Raise PermissionError
  /\ publications_file
       (Agent.process_urls env_interactive
          ["http://a.example/x"; "http://a.example/y"] (PList [])
          w_store_readonly).2 = publications_file w_store_readonly.
Proof.
  split; [reflexivity |]. split; [reflexivity |].
  pose (r := match (Agent.extract_article_data env_interactive
                      "http://a.example/x" w_store_readonly).1 with
             | Ok r => r
             | Raise _ => ∅
             end).
  pose (w1 := (Agent.extract_article_data env_interactive
                 "http://a.example/x" w_store_readonly).2).
  assert (Agent.extract_article_data env_interactive "http://a.example/x"
            w_store_readonly = (Ok r, w1)) as Hrun
    by (vm_compute; reflexivity).
  assert (Agent.display_article_preview r = Ok tt) as Hshow
    by (vm_compute; reflexivity).
  destruct (X24_failed_write_stops_the_interactive_loop env_interactive
              "http://a.example/x" ["http://a.example/y"] [] w_store_readonly
              w1 r eq_refl Hrun Hshow eq_refl eq_refl)
    as (Hraise & Hfile & _).
  split; [exact Hraise | exact Hfile].
Defined.

(** * The escaping of the document's text *)

Lemma chars_app (a b : string) :
  list_ascii_of_string (a +:+ b)
  = list_ascii_of_string a ++ list_ascii_of_string b.
Proof. induction a as [| x a IH]; simpl; by rewrite ?IH. Qed.

(** A replacement keeps what holds of every character of the text and of
    the replacing string. *)
Lemma replace_char_Forall (P : ascii -> Prop) c by_ s :
  Forall P (list_ascii_of_string by_) ->
  Forall P (list_ascii_of_string s) ->
  Forall P (list_ascii_of_string (PyStr.replace_char c by_ s)).
Proof.
  intros Hby. induction s as [| a s IH]; simpl; [done |].
  intros Hs. apply Forall_cons in Hs as [Ha Hs].
  destruct (Ascii.eqb a c).
  - rewrite chars_app. apply Forall_app. split; [exact Hby | by apply IH].
  - simpl. constructor; [exact Ha | by apply IH].
Qed.

(** A replacement by a string without the character removes it. *)
Lemma replace_char_lacks c by_ s :
  lacks c by_ -> lacks c (PyStr.replace_char c by_ s).
Proof.
  unfold lacks. intros Hby. induction s as [| a s IH]; simpl; [done |].
  destruct (Ascii.eqb_spec a c) as [-> | Hne].
  - rewrite chars_app. apply Forall_app. by split.
  - simpl. by constructor.
Qed.

(** A text without the character is left as it is. *)
Lemma replace_char_absent c by_ s :
  lacks c s -> PyStr.replace_char c by_ s = s.
Proof.
  unfold lacks. induction s as [| a s IH]; simpl; [done |].
  intros Hs. apply Forall_cons in Hs as [Ha Hs].
  destruct (Ascii.eqb_spec a c) as [-> | _]; [done |]. by rewrite IH.
Qed.

Lemma lacks_literal c s :
  forallb (fun a => negb (Ascii.eqb a c)) (list_ascii_of_string s) = true ->
  lacks c s.
Proof.
  unfold lacks. induction (list_ascii_of_string s) as [| a l IH]; simpl;
    [done |].
  intros [Ha Hl]%andb_true_iff. constructor; [| by apply IH].
  intros ->. by rewrite Ascii.eqb_refl in Ha.
Qed.

(** X25. Whatever value it is given, [escape_xml] returns a text in
    which none of [<], [>], the double quote and the apostrophe is left;
    a false value (None, the empty string) gives the empty text, and a
    string that holds none of the five markup characters is returned
    unchanged. *)
Theorem X25_escape_xml_leaves_no_markup (py_str : pyval -> string)
    (text : pyval) :
  (lacks "<" (OdtWriter.escape_xml py_str text)
   /\ lacks ">" (OdtWriter.escape_xml py_str text)
   /\ lacks double_quote (OdtWriter.escape_xml py_str text)
   /\ lacks "'" (OdtWriter.escape_xml py_str text))
  /\ (truthy text = false -> OdtWriter.escape_xml py_str text = "")
  /\ (forall s : string,
        text = PStr s ->
        Forall (fun c => is_markup c = false) (list_ascii_of_string s) ->
        OdtWriter.escape_xml py_str text = s).
Proof.
  unfold OdtWriter.escape_xml. fold double_quote.
  split; [| split].
  - destruct (truthy text); cbn [negb]; [| repeat split; constructor].
    set (s := match text with PStr s => s | _ => py_str text end).
    repeat split.
    + do 3 (apply replace_char_Forall; [by apply lacks_literal |]).
      apply replace_char_lacks. by apply lacks_literal.
    + do 2 (apply replace_char_Forall; [by apply lacks_literal |]).
      apply replace_char_lacks. by apply lacks_literal.
    + apply replace_char_Forall; [by apply lacks_literal |].
      apply replace_char_lacks. by apply lacks_literal.
    + apply replace_char_lacks. by apply lacks_literal.
  - by intros ->.
  - intros s -> Hs.
    assert (forall c, is_markup c = true -> lacks c s) as Hlacks.
    { intros c Hc. unfold lacks. eapply Forall_impl; [exact Hs |].
      intros a Ha ->. congruence. }
    destruct (truthy (PStr s)) eqn:Ht; cbn [negb].
    + rewrite (replace_char_absent "&") by (by apply Hlacks).
      rewrite (replace_char_absent "<") by (by apply Hlacks).
      rewrite (replace_char_absent ">") by (by apply Hlacks).
      rewrite (replace_char_absent double_quote) by (by apply Hlacks).
      by rewrite (replace_char_absent "'") by (by apply Hlacks).
    + by destruct s.
Qed.

(** * The summary of the checkpoints *)

(** The entry that the loop of [get_summary] stores for a string. *)
Lemma summary_entry_str strftime key s :
  exists e : gmap string pyval,
    summary_entry strftime key (PStr s) = Ok (PDict e)
    /\ e !! "iso_format" = Some (PStr s)
    /\ e !! "chat_type"
       = Some (PStr match fromisoformat s with
                    | Some _ => if String.eqb key "global" then "global"
                                else "chat_" +:+ key
                    | None => "error"
                    end)
    /\ e !! "last_check"
       = Some (PStr match fromisoformat s with
                    | Some t => strftime t
                    | None => "Invalid format"
                    end).
Proof.
  unfold summary_entry.
  destruct (fromisoformat s); eexists; (split; [reflexivity |]);
    by repeat split.
Qed.

Lemma summarize_ok strftime (l : list (string * pyval)) :
  Forall (fun kv => exists s, kv.2 = PStr s) l ->
  exists m,
    summarize strftime l = Ok m
    /\ forall k,
         m !! k
         = (list_to_map l : gmap string pyval) !! k
           ≫= fun v => match summary_entry strftime k v with
                       | Ok e => Some e
                       | Raise _ => None
                       end.
Proof.
  induction 1 as [| [key v] l [s Hs] _ (m & Hm & Hlook)].
  - exists ∅. split; [reflexivity |]. intros k. by rewrite !lookup_empty.
  - cbn [snd] in Hs. subst v.
    destruct (summary_entry_str strftime key s) as (e & He & _).
    exists (<[key := PDict e]> m). split.
    + cbn [summarize]. by rewrite He, Hm.
    + intros k. cbn [list_to_map foldr uncurry fst snd].
      destruct (decide (key = k)) as [<- | Hne].
      * rewrite !lookup_insert_eq. unfold mbind, option_bind.
        by rewrite He.
      * rewrite !lookup_insert_ne by done. apply Hlook.
Qed.

Lemma summarize_raise strftime (l : list (string * pyval)) :
  Exists (fun kv => forall s, kv.2 <> PStr s) l ->
  summarize strftime l = Raise TypeError.
Proof.
  induction l as [| [key v] l IH]; intros Hex; [by apply Exists_nil in Hex |].
  cbn [summarize]. destruct v as [| | | s | |]; try reflexivity.
  destruct (summary_entry_str strftime key s) as (e & -> & _).
  apply Exists_cons in Hex as [Hhead | Htail].
  - by destruct (Hhead s).
  - cbn. by rewrite (IH Htail).
Qed.

(** X26. On a checkpoint file that holds a JSON object whose values
    are strings, [get_summary] raises nothing and has one entry for each
    key of the file and no other, which keeps the stored text under
    [iso_format]. The text that an update stores (the ISO format of a
    date) gives an entry with that date under [last_check] and the type
    ["global"], or ["chat_"] and the key; a text that does not begin with
    the four digits of a year, which is no date, gives an entry of type
    ["error"] with ["Invalid format"] in place of the date. A value that
    is no string makes the summary raise [TypeError]. *)
Theorem X26_summary_has_one_entry_per_key (strftime : datetime -> string)
    (w : world) (d : gmap string pyval) :
  loaded (timestamp_file w) = PDict d ->
  ((forall k v, d !! k = Some v -> exists s, v = PStr s) ->
   exists m : gmap string pyval,
     get_summary strftime w = (Ok (PDict m), w)
     /\ (forall k, d !! k = None -> m !! k = None)
     /\ (forall k s,
           d !! k = Some (PStr s) ->
           exists e : gmap string pyval,
             m !! k = Some (PDict e)
             /\ e !! "iso_format" = Some (PStr s))
     /\ (forall k t,
           valid t = true ->
           d !! k = Some (PStr (isoformat t)) ->
           exists e : gmap string pyval,
             m !! k = Some (PDict e)
             /\ e !! "last_check" = Some (PStr (strftime t))
             /\ e !! "chat_type"
                = Some (PStr (if String.eqb k "global" then "global"
                              else "chat_" +:+ k)))
     /\ (forall k s,
           begins_with_year s = false ->
           d !! k = Some (PStr s) ->
           exists e : gmap string pyval,
             m !! k = Some (PDict e)
             /\ e !! "last_check" = Some (PStr "Invalid format")
             /\ e !! "chat_type" = Some (PStr "error")))
  /\ ((exists k v, d !! k = Some v /\ forall s, v <> PStr s) ->
      get_summary strftime w = (Raise TypeError, w)).
Proof.
  intros Hd. unfold get_summary.
  rewrite (bind_ok _ _ _ _ _ (load_run w)), Hd. unfold lift.
  split.
  - intros Hstr.
    destruct (summarize_ok strftime (map_to_list d)) as (m & -> & Hlook).
    { apply Forall_forall. intros [k v] Hin%elem_of_map_to_list.
      exact (Hstr k v Hin). }
    exists m. split; [reflexivity |].
    assert (forall k, (list_to_map (map_to_list d) : gmap string pyval) !! k
                      = d !! k) as Hsame
      by (intros k; by rewrite list_to_map_to_list).
    assert (forall k s,
              d !! k = Some (PStr s) ->
              exists e : gmap string pyval,
                m !! k = Some (PDict e)
                /\ e !! "iso_format" = Some (PStr s)
                /\ e !! "chat_type"
                   = Some (PStr match fromisoformat s with
                                | Some _ =>
                                    if String.eqb k "global" then "global"
                                    else "chat_" +:+ k
                                | None => "error"
                                end)
                /\ e !! "last_check"
                   = Some (PStr match fromisoformat s with
                                | Some t => strftime t
                                | None => "Invalid format"
                                end)) as Hentry.
    { intros k s Hk. rewrite Hlook, Hsame, Hk. unfold mbind, option_bind.
      destruct (summary_entry_str strftime k s) as (e & -> & He).
      by exists e. }
    split; [| split; [| split]].
    + intros k Hk. by rewrite Hlook, Hsame, Hk.
    + intros k s Hk. destruct (Hentry k s Hk) as (e & He & Hiso & _).
      by exists e.
    + intros k t Ht Hk.
      destruct (Hentry k _ Hk) as (e & He & _ & Htype & Hlast).
      rewrite (fromisoformat_isoformat t Ht) in Htype, Hlast. by exists e.
    + intros k s Hyear Hk.
      destruct (Hentry k _ Hk) as (e & He & _ & Htype & Hlast).
      rewrite (fromisoformat_without_year s Hyear) in Htype, Hlast.
      by exists e.
  - intros (k & v & Hk & Hv).
    rewrite (summarize_raise strftime (map_to_list d)); [reflexivity |].
    apply Exists_exists. exists (k, v).
    split; [by apply elem_of_map_to_list | exact Hv].
Qed.

Lemma X26_witness :
  loaded (timestamp_file w_checkpoint_mixed)
  = PDict (<["me" := PStr (isoformat (at_second 20))]>
           {["7" := PStr "yesterday"]})
  /\ exists m : gmap string pyval,
       get_summary show_date w_checkpoint_mixed
       = (Ok (PDict m), w_checkpoint_mixed)
       /\ m !! "global" = None
       /\ (exists e : gmap string pyval,
             m !! "me" = Some (PDict e)
             /\ e !! "last_check" = Some (PStr (show_date (at_second 20)))
             /\ e !! "chat_type" = Some (PStr "chat_me"))
       /\ exists e : gmap string pyval,
            m !! "7" = Some (PDict e)
            /\ e !! "last_check" = Some (PStr "Invalid format")
            /\ e !! "chat_type" = Some (PStr "error").
Proof.
  split; [reflexivity |].
  destruct (proj1 (X26_summary_has_one_entry_per_key show_date
                     w_checkpoint_mixed _ eq_refl))
    as (m & Hrun & Hnone & _ & Hdate & Herror).
  { intros k v.
    destruct (decide (k = "me")) as [-> | Hme];
      [rewrite lookup_insert_eq; intros [= <-]; by eexists |].
    rewrite lookup_insert_ne by done.
    destruct (decide (k = "7")) as [-> | H7];
      [rewrite lookup_singleton_eq; intros [= <-]; by eexists |].
    by rewrite lookup_singleton_ne. }
  exists m. split; [exact Hrun |]. split; [by apply Hnone |]. split.
  - exact (Hdate "me" (at_second 20) eq_refl eq_refl).
  - exact (Herror "7" "yesterday" eq_refl eq_refl).
Defined.

(** * The shape of the article records *)

Lemma insert_keeps_key (m : gmap string pyval) i x k :
  is_Some (m !! k) -> is_Some (<[i := x]> m !! k).
Proof.
  intros H. destruct (decide (i = k)) as [-> | Hne].
  - rewrite lookup_insert_eq. by eexists.
  - by rewrite lookup_insert_ne.
Qed.

(** Enrichment removes no field. *)
Lemma enhance_keeps_keys S P url html (basic : gmap string pyval) k :
  is_Some (basic !! k) ->
  is_Some (SimpleLLMProcessor.enhance_article_extraction S P url html basic
           !! k).
Proof.
  intros Hk. unfold SimpleLLMProcessor.enhance_article_extraction, not_enhanced.
  destruct (negb _); [by apply insert_keeps_key |].
  destruct (PyStr.nonempty _); [| by apply insert_keeps_key].
  destruct (json_loads _ _) as [e |]; [| by apply insert_keeps_key].
  destruct (merge_enhanced _ _ _) as [r | ?] eqn:Hm;
    [| by apply insert_keeps_key].
  unfold merge_enhanced in Hm. destruct e; try discriminate.
  injection Hm as <-. by repeat apply insert_keeps_key.
Qed.

Lemma str_or_nonempty x dflt :
  PyStr.nonempty dflt = true ->
  exists t, str_or x dflt = PStr t /\ PyStr.nonempty t = true.
Proof.
  intros Hd. unfold str_or. destruct x as [s |]; [| by eexists].
  destruct (PyStr.nonempty s) eqn:Hs; by eexists.
Qed.

(** X27. Whatever the fetch, the page and the enrichment give, the
    resolver of [agent_enhanced.py] returns a record that holds all of
    [url], [title], [summary], [author], [image], [extracted_at],
    [extraction_method] and [enhanced_by_llm]; [extracted_at] is the
    reading of the clock in ISO format; and unless the enrichment
    succeeded the title is a string that is not empty: a page without a
    title gets a placeholder, never an empty title. *)
Theorem X27_article_record_has_every_field (E : env) (url : string)
    (w : world) :
  exists (r : gmap string pyval) (w' : world),
    extract_article_content E url w = (Ok r, w')
    /\ Forall (fun k => is_Some (r !! k)) article_keys
    /\ r !! "extracted_at" = Some (PStr (isoformat (clock E (ticks w))))
    /\ (r !! "enhanced_by_llm" <> Some (PBool true) ->
        exists t, r !! "title" = Some (PStr t) /\ PyStr.nonempty t = true).
Proof.
  unfold extract_article_content. rewrite bind_run. unfold modify.
  destruct (http_get E url) as [soup | e message].
  - unfold scrape. rewrite bind_run, now_run.
    set (title := first_title soup _).
    set (summary := match page_find soup _ with Some _ => _ | None => _ end).
    set (author := find_author soup _ None).
    set (image := find_image E soup url _ None).
    set (basic := list_to_map _ : gmap string pyval).
    destruct (str_or_nonempty title "Unknown Title" eq_refl)
      as (t & Ht & Hnonempty).
    assert (Forall (fun k => is_Some (basic !! k))
              ["url"; "title"; "summary"; "author"; "image"; "extracted_at";
               "extraction_method"]) as Hkeys
      by (repeat constructor; by eexists).
    assert (basic !! "title" = Some (PStr t)) as Htitle
      by (unfold basic; rewrite <- Ht; reflexivity).
    assert (basic !! "extracted_at"
            = Some (PStr (isoformat (clock E (ticks w))))) as Hat
      by reflexivity.
    destruct (SimpleLLMProcessor.is_available (llm_processor E)) eqn:Havail.
    + eexists _, _. split; [reflexivity |].
      destruct (enhance_cases (llm_service E) (llm_processor E) url
                  (page_text soup) basic)
        as [Hcase | (e & r & Hmerge & Hcase & _)]; rewrite Hcase.
      * split; [| split].
        -- unfold article_keys.
           repeat (apply Forall_cons in Hkeys as [? Hkeys]).
           repeat (constructor; [by apply insert_keeps_key |]).
           constructor; [| constructor]. rewrite lookup_insert_eq. by eexists.
        -- by rewrite lookup_insert_ne.
        -- intros _. exists t. split; [| exact Hnonempty].
           by rewrite lookup_insert_ne.
      * destruct (merge_flags _ _ _ _ Hmerge) as [Hflag _].
        split; [| split].
        -- unfold article_keys.
           repeat (apply Forall_cons in Hkeys as [? Hkeys]).
           rewrite <- Hcase.
           repeat (constructor; [by apply enhance_keeps_keys |]).
           constructor; [| constructor]. rewrite Hcase, Hflag. by eexists.
        -- rewrite (merge_sets_enriched_keys _ _ _ _ "extracted_at" Hmerge);
             [exact Hat |].
           unfold enriched_keys. rewrite !elem_of_cons, elem_of_nil.
           intros H. repeat destruct H as [[=] | H]; done.
        -- intros Hnot. by destruct Hnot.
    + eexists _, _. split; [reflexivity |]. split; [| split].
      * unfold article_keys.
        repeat (apply Forall_cons in Hkeys as [? Hkeys]).
        repeat (constructor; [by apply insert_keeps_key |]).
        constructor; [| constructor]. rewrite lookup_insert_eq. by eexists.
      * by rewrite lookup_insert_ne.
      * intros _. exists t. split; [| exact Hnonempty].
        by rewrite lookup_insert_ne.
  - rewrite bind_run, now_run. eexists _, _. split; [reflexivity |].
    split; [| split].
    + unfold article_keys. repeat constructor; by eexists.
    + reflexivity.
    + intros _. eexists. split; [reflexivity |]. reflexivity.
Qed.
